(** * KDP PDF engine: layout, margins and compliance

    A shallow embedding of the PDF export core of the devotional generator
    ([ui/pdf/types.ts], [ui/pdf/margins.ts], [ui/pdf/compliance.ts],
    [ui/pdf/fonts.ts], [ui/pdf/blocks.ts], [ui/pdf/engine.ts]) together with
    the properties of the layout state machine, the two-pass margin
    protocol and the compliance checker.

    Modelling conventions.
    - A TypeScript [number] that holds a length, a coordinate or a margin is
      a rational ([Q]); every constant of the source is written as in the
      source.  IEEE rounding is not modelled.  Page counts and page-number
      counters are integers ([Z]).
    - A string is a [string] of bytes (UTF-8).
    - A [PDFPage] is the list of drawing operations performed on it, in
      order.  The mutable variables of [renderLayout] are the fields of
      [LayoutState], threaded explicitly.
    - A function that can [throw] returns a [Result].
    - The font metric ([PDFFont.widthOfTextAtSize]) and the serializer
      ([PDFDocument.save]) belong to pdf-lib; they are parameters. *)

From Stdlib Require Import ZArith QArith Qabs Bool List Lia.
From Stdlib Require Import Ascii String DecimalString.
From Stdlib Require Import Sorted.
Import ListNotations.

Set Implicit Arguments.

(* ------------------------------------------------------------------ *)
(** ** JavaScript primitives used by the source *)

Module JS.

(** Outcome of a call that may [throw]. *)
Inductive Exception : Type :=
| RangeError (message : string).

Inductive Result (A : Type) : Type :=
| Ok (a : A)
| Throw (e : Exception).
Arguments Ok {A} a.
Arguments Throw {A} e.

(** [a < b] and [a >= b] on numbers. *)
Definition Qlt_bool (a b : Q) : bool := negb (Qle_bool b a).
Definition Qge_bool (a b : Q) : bool := Qle_bool b a.

(** [String(n)] for an integer [n]. *)
Definition String_of_Z (n : Z) : string :=
  NilZero.string_of_int (Z.to_int n).

(** [s.split(sep)] for a one-character separator. *)
Fixpoint split (sep : ascii) (s : string) : list string :=
  match s with
  | EmptyString => [EmptyString]
  | String c rest =>
      if Ascii.eqb c sep then EmptyString :: split sep rest
      else match split sep rest with
           | h :: t => String c h :: t
           | [] => [String c EmptyString]
           end
  end.

(** [s.includes(needle)]. *)
Fixpoint includes (s needle : string) : bool :=
  if String.prefix needle s then true
  else match s with
       | EmptyString => false
       | String _ rest => includes rest needle
       end.

(** White space as [String.prototype.trim] knows it, the WhiteSpace and
    LineTerminator code points of ECMAScript, in UTF-8:
    - one byte: U+0009 to U+000D and U+0020;
    - two bytes: U+00A0 (C2 A0);
    - three bytes: U+1680 (E1 9A 80), U+2000 to U+200A, U+2028, U+2029 and
      U+202F (E2 80 80 to 8A, A8, A9, AF), U+205F (E2 81 9F),
      U+3000 (E3 80 80) and U+FEFF (EF BB BF). *)
Definition isSpace (c : ascii) : bool :=
  let n := nat_of_ascii c in
  (Nat.eqb n 32 || (Nat.leb 9 n && Nat.leb n 13))%bool.

Definition isSpace2 (c1 c2 : ascii) : bool :=
  (Nat.eqb (nat_of_ascii c1) 194 && Nat.eqb (nat_of_ascii c2) 160)%bool.

Definition isSpace3 (c1 c2 c3 : ascii) : bool :=
  let n1 := nat_of_ascii c1 in
  let n2 := nat_of_ascii c2 in
  let n3 := nat_of_ascii c3 in
  ((Nat.eqb n1 225 && Nat.eqb n2 154 && Nat.eqb n3 128)
   || (Nat.eqb n1 226 && Nat.eqb n2 128
       && ((Nat.leb 128 n3 && Nat.leb n3 138)
           || Nat.eqb n3 168 || Nat.eqb n3 169 || Nat.eqb n3 175))
   || (Nat.eqb n1 226 && Nat.eqb n2 129 && Nat.eqb n3 159)
   || (Nat.eqb n1 227 && Nat.eqb n2 128 && Nat.eqb n3 128)
   || (Nat.eqb n1 239 && Nat.eqb n2 187 && Nat.eqb n3 191))%bool.

(** [s] is one white space code point. *)
Definition isWhiteSpace (s : string) : bool :=
  match s with
  | String c1 EmptyString => isSpace c1
  | String c1 (String c2 EmptyString) => isSpace2 c1 c2
  | String c1 (String c2 (String c3 EmptyString)) => isSpace3 c1 c2 c3
  | _ => false
  end.

Fixpoint trimStart (s : string) : string :=
  match s with
  | EmptyString => EmptyString
  | String c1 r1 =>
      if isSpace c1 then trimStart r1
      else
        match r1 with
        | EmptyString => s
        | String c2 r2 =>
            if isSpace2 c1 c2 then trimStart r2
            else
              match r2 with
              | EmptyString => s
              | String c3 r3 =>
                  if isSpace3 c1 c2 c3 then trimStart r3 else s
              end
        end
  end.

(** What is kept of [String c rest] is [c] and what is kept of [rest],
    unless that is a single white space code point. *)
Fixpoint trimEnd (s : string) : string :=
  match s with
  | EmptyString => EmptyString
  | String c rest =>
      let kept := String c (trimEnd rest) in
      if isWhiteSpace kept then EmptyString else kept
  end.

Definition trim (s : string) : string := trimEnd (trimStart s).

Definition newline : ascii := ascii_of_nat 10.
Definition space : ascii := ascii_of_nat 32.

End JS.

Import JS.

(* ------------------------------------------------------------------ *)
(** ** types.ts *)

Module Types.

Inductive BlockType : Type :=
| heading | body_text | block_quote | footnote | prompt_list | action_list
| divider | page_break | title | subtitle | imprint | toc_entry.

Inductive PageNumberStyle : Type := roman | arabic | suppressed.

Inductive OutputMode : Type := personal | publish_ready.

Definition BlockType_eq_dec (a b : BlockType) : {a = b} + {a <> b}.
Proof. decide equality. Defined.

Definition isPageBreak (t : BlockType) : bool :=
  match t with page_break => true | _ => false end.

Definition isFootnote (t : BlockType) : bool :=
  match t with footnote => true | _ => false end.

Record DocumentBlock : Type := mkBlock {
  block_type : BlockType;
  content : string;
  block_page_number_style : option PageNumberStyle;  (* reserved, not consumed *)
  metadata : option (list (string * string))         (* reserved, not consumed *)
}.

Record DocumentPage : Type := mkPage {
  blocks : list DocumentBlock;
  starts_new_page : option bool;
  page_number_style : option PageNumberStyle
}.

Record DocumentRepresentation : Type := mkDocument {
  doc_title : string;
  doc_subtitle : option string;
  front_matter : list DocumentPage;
  content_pages : list DocumentPage;
  has_toc : bool;
  has_day7 : bool;
  total_estimated_pages : option Z                    (* reserved, not consumed *)
}.

End Types.

Import Types.

(* ------------------------------------------------------------------ *)
(** ** margins.ts *)

Module Margins.

Open Scope Q_scope.

(** Margin values in inches. *)
Record KDPMargins : Type := mkMargins {
  inside : Q;
  outside : Q;
  top : Q;
  bottom : Q
}.

Record Bracket : Type := mkBracket { maxPages : Z; bracket_inside : Q }.

Definition INSIDE_MARGIN_BRACKETS : list Bracket :=
  [ mkBracket 150 0.375;
    mkBracket 300 0.500;
    mkBracket 500 0.625;
    mkBracket 700 0.750;
    mkBracket 828 0.875 ].

Definition OUTSIDE_MARGIN_INCHES : Q := 0.375.
Definition TOP_MARGIN_INCHES : Q := 0.375.
Definition BOTTOM_MARGIN_INCHES : Q := 0.375.

(** The [for (const bracket of ...)] loop of [calculateMargins]: the first
    bracket whose [maxPages] is not below the page count. *)
Fixpoint firstBracket (brackets : list Bracket) (pageCount : Z)
  : option Bracket :=
  match brackets with
  | [] => None
  | b :: rest =>
      if (pageCount <=? maxPages b)%Z then Some b
      else firstBracket rest pageCount
  end.

Definition calculateMargins (pageCount : Z) : Result KDPMargins :=
  match firstBracket INSIDE_MARGIN_BRACKETS pageCount with
  | Some b =>
      Ok {| inside := bracket_inside b;
            outside := OUTSIDE_MARGIN_INCHES;
            top := TOP_MARGIN_INCHES;
            bottom := BOTTOM_MARGIN_INCHES |}
  | None =>
      Throw (RangeError
        ("Page count " ++ String_of_Z pageCount
           ++ " exceeds KDP maximum of 828 pages."))
  end.

Definition marginsToPoints (margins : KDPMargins) : KDPMargins :=
  {| inside := inside margins * 72;
     outside := outside margins * 72;
     top := top margins * 72;
     bottom := bottom margins * 72 |}.

(** [describeMarginBracket]: [edges[i + 1]] and [labels[i]] for
    [i = 0 .. INSIDE_MARGIN_BRACKETS.length - 1]. *)
Definition bracketEdges : list Z := [0; 150; 300; 500; 700; 828]%Z.

Definition bracketLabels : list string :=
  [ "24–150 pages: 0.375in gutter";
    "151–300 pages: 0.500in gutter";
    "301–500 pages: 0.625in gutter";
    "501–700 pages: 0.750in gutter";
    "701–828 pages: 0.875in gutter" ]%string.

Fixpoint describeLoop (n : nat) (i : nat) (pageCount : Z) : option string :=
  match n with
  | O => None
  | S n' =>
      if (pageCount <=? nth (i + 1) bracketEdges 0)%Z
      then Some (nth i bracketLabels EmptyString)
      else describeLoop n' (S i) pageCount
  end.

Definition describeMarginBracket (pageCount : Z) : Result string :=
  match describeLoop (List.length INSIDE_MARGIN_BRACKETS) 0 pageCount with
  | Some label => Ok label
  | None =>
      Throw (RangeError
        ("Page count " ++ String_of_Z pageCount ++ " exceeds KDP maximum."))
  end.

End Margins.

Import Margins.

(* ------------------------------------------------------------------ *)
(** ** compliance.ts *)

Module Compliance.

Open Scope Q_scope.

Definition TRIM_WIDTH_PT : Q := 432.
Definition TRIM_HEIGHT_PT : Q := 648.

Definition MIN_OUTSIDE_MARGIN_IN : Q := 0.250.
Definition MIN_TOP_MARGIN_IN : Q := 0.250.
Definition MIN_BOTTOM_MARGIN_IN : Q := 0.250.

Definition KDP_MIN_PAGE_COUNT : Z := 24.

Record KDPComplianceInput : Type := mkInput {
  pageDimensions : list (Q * Q);
  pageCount : Z;
  insideMarginIn : Q;
  outsideMarginIn : Q;
  topMarginIn : Q;
  bottomMarginIn : Q;
  fontsEmbedded : bool;
  offerPagePresent : bool;
  outputMode : OutputMode
}.

(** One entry of the [violations] list.  Each constructor stands for one
    of the seven message templates of [checkCompliance] and carries the
    values interpolated into it. *)
Inductive Violation : Type :=
| TrimSizeIncorrect (got : option (Q * Q))
| InsideMarginTooSmall (actual required : Q) (pages : Z)
| OutsideMarginTooSmall (actual : Q)
| TopMarginTooSmall (actual : Q)
| BottomMarginTooSmall (actual : Q)
| FontsNotEmbedded
| OfferPageNotFinal.

Record KDPComplianceResult : Type := mkResult {
  passes : bool;
  trim_size_correct : bool;
  inside_margin_correct : bool;
  outside_margin_correct : bool;
  top_margin_correct : bool;
  bottom_margin_correct : bool;
  fonts_embedded : bool;
  page_count : Z;
  page_count_warning : bool;
  offer_page_present : bool;
  violations : list Violation
}.

(** [violations.push(v)] when [cond] holds. *)
Definition pushIf (cond : bool) (v : Violation) (violations : list Violation)
  : list Violation :=
  if cond then violations ++ [v] else violations.

Definition isEmpty (violations : list Violation) : bool :=
  match violations with [] => true | _ :: _ => false end.

Definition isPublishReady (m : OutputMode) : bool :=
  match m with publish_ready => true | personal => false end.

Definition checkCompliance (input : KDPComplianceInput)
  : Result KDPComplianceResult :=
  let violations := [] in
  (* Trim size *)
  let trimSizeCorrect :=
    forallb (fun wh => Qlt_bool (Qabs (fst wh - TRIM_WIDTH_PT)) 1
                       && Qlt_bool (Qabs (snd wh - TRIM_HEIGHT_PT)) 1)%bool
            (pageDimensions input) in
  let violations :=
    pushIf (negb trimSizeCorrect)
           (TrimSizeIncorrect (nth_error (pageDimensions input) 0))
           violations in
  (* Inside margin *)
  match calculateMargins (pageCount input) with
  | Throw e => Throw e
  | Ok required =>
      let insideMarginCorrect :=
        Qge_bool (insideMarginIn input) (inside required - 0.001) in
      let violations :=
        pushIf (negb insideMarginCorrect)
               (InsideMarginTooSmall (insideMarginIn input) (inside required)
                                     (pageCount input))
               violations in
      (* Outside margin *)
      let outsideMarginCorrect :=
        Qge_bool (outsideMarginIn input) (MIN_OUTSIDE_MARGIN_IN - 0.001) in
      let violations :=
        pushIf (negb outsideMarginCorrect)
               (OutsideMarginTooSmall (outsideMarginIn input)) violations in
      (* Top margin *)
      let topMarginCorrect :=
        Qge_bool (topMarginIn input) (MIN_TOP_MARGIN_IN - 0.001) in
      let violations :=
        pushIf (negb topMarginCorrect)
               (TopMarginTooSmall (topMarginIn input)) violations in
      (* Bottom margin *)
      let bottomMarginCorrect :=
        Qge_bool (bottomMarginIn input) (MIN_BOTTOM_MARGIN_IN - 0.001) in
      let violations :=
        pushIf (negb bottomMarginCorrect)
               (BottomMarginTooSmall (bottomMarginIn input)) violations in
      (* Fonts embedded *)
      let violations :=
        pushIf (negb (fontsEmbedded input)) FontsNotEmbedded violations in
      (* Offer page (publish-ready only) *)
      let offerPagePresent' :=
        match outputMode input with
        | personal => true
        | publish_ready => offerPagePresent input
        end in
      let violations :=
        pushIf (isPublishReady (outputMode input)
                && negb (offerPagePresent input))%bool
               OfferPageNotFinal violations in
      (* 24-page minimum: warning only *)
      let pageCountWarning := (pageCount input <? KDP_MIN_PAGE_COUNT)%Z in
      Ok {| passes := isEmpty violations;
            trim_size_correct := trimSizeCorrect;
            inside_margin_correct := insideMarginCorrect;
            outside_margin_correct := outsideMarginCorrect;
            top_margin_correct := topMarginCorrect;
            bottom_margin_correct := bottomMarginCorrect;
            fonts_embedded := fontsEmbedded input;
            page_count := pageCount input;
            page_count_warning := pageCountWarning;
            offer_page_present := offerPagePresent';
            violations := violations |}
  end.

End Compliance.

Import Compliance.

(* ------------------------------------------------------------------ *)
(** ** fonts.ts *)

Module Fonts.

Open Scope Q_scope.

(** The three embedded faces of EB Garamond. *)
Inductive PDFFont : Type := Regular | Bold | Italic.

Record EmbeddedFonts : Type := mkFonts {
  regular : PDFFont;
  bold : PDFFont;
  italic : PDFFont
}.

(** [embedFonts]: the three faces, embedded with [subset: false].  Reading
    the bundled font files is taken to succeed. *)
Definition embedFonts : EmbeddedFonts :=
  {| regular := Regular; bold := Bold; italic := Italic |}.

(** [FONT_SIZES], in points. *)
Definition TITLE : Q := 24.
Definition SUBTITLE : Q := 16.
Definition HEADING : Q := 14.
Definition SUBHEADING : Q := 12.
Definition BODY : Q := 11.
Definition FOOTNOTE : Q := 9.
Definition IMPRINT : Q := 10.

(** pdf-lib's [font.widthOfTextAtSize(text, size)]. *)
Definition Metric : Type := PDFFont -> string -> Q -> Q.

End Fonts.

Import Fonts.

(* ------------------------------------------------------------------ *)
(** ** blocks.ts *)

Module Blocks.

Open Scope Q_scope.

Definition LEADING : Q := 1.4.
Definition BLOCK_SPACING : Q := 8.
Definition BLOCK_QUOTE_INDENT : Q := 36.
Definition DIVIDER_WIDTH_RATIO : Q := 0.8.

Record Color : Type := rgb { red : Q; green : Q; blue : Q }.

Definition COLOR_BLACK : Color := rgb 0 0 0.
Definition COLOR_DARK_GRAY : Color := rgb 0.3 0.3 0.3.

(** A drawing call on a page ([page.drawText], [page.drawLine]; every rule
    is drawn with a round line cap). *)
Inductive DrawOp : Type :=
| DrawText (text : string) (x y : Q) (font : PDFFont) (size : Q)
           (color : Color)
| DrawLine (start_x start_y end_x end_y : Q) (thickness : Q)
           (color : Color).

(** A page of the output document: its size and what was drawn on it. *)
Record PDFPage : Type := mkPDFPage {
  page_size : Q * Q;
  operations : list DrawOp
}.

Definition draw (op : DrawOp) (page : PDFPage) : PDFPage :=
  {| page_size := page_size page;
     operations := operations page ++ [op] |}.

Record Cursor : Type := mkCursor { cursor_x : Q; cursor_y : Q }.

(** The context handed to a renderer.  A renderer draws on [page] and may
    push onto [pendingFootnotes]; both are objects shared with the engine,
    so a renderer returns the context as it left it. *)
Record RenderContext : Type := mkContext {
  page : PDFPage;
  fonts : EmbeddedFonts;
  cursor : Cursor;
  contentWidth : Q;
  contentX : Q;
  pendingFootnotes : list DocumentBlock
}.

Record RenderResult : Type := mkRenderResult { result_cursor : Cursor }.

Definition withPage (ctx : RenderContext) (p : PDFPage) : RenderContext :=
  {| page := p; fonts := fonts ctx; cursor := cursor ctx;
     contentWidth := contentWidth ctx; contentX := contentX ctx;
     pendingFootnotes := pendingFootnotes ctx |}.

Definition withPendingFootnotes (ctx : RenderContext)
           (fs : list DocumentBlock) : RenderContext :=
  {| page := page ctx; fonts := fonts ctx; cursor := cursor ctx;
     contentWidth := contentWidth ctx; contentX := contentX ctx;
     pendingFootnotes := fs |}.

Definition nonEmpty (s : string) : bool :=
  Nat.ltb 0 (String.length s).

Section WithMetric.

Variable widthOfTextAtSize : Metric.

(** The inner [for (const word of words)] loop of [wrapText]. *)
Fixpoint wrapWords (font : PDFFont) (fontSize maxWidth : Q)
         (words : list string) (current : string) (lines : list string)
  : string * list string :=
  match words with
  | [] => (current, lines)
  | word :: rest =>
      let candidate :=
        if Nat.eqb (String.length current) 0 then word
        else (current ++ " " ++ word)%string in
      if Qle_bool (widthOfTextAtSize font candidate fontSize) maxWidth
      then wrapWords font fontSize maxWidth rest candidate lines
      else wrapWords font fontSize maxWidth rest word
             (if nonEmpty current then lines ++ [current] else lines)
  end.

(** The outer [for (const paragraph of text.split('\n'))] loop. *)
Fixpoint wrapParagraphs (font : PDFFont) (fontSize maxWidth : Q)
         (paragraphs : list string) (lines : list string) : list string :=
  match paragraphs with
  | [] => lines
  | paragraph :: rest =>
      let words := filter nonEmpty (split space paragraph) in
      match words with
      | [] =>
          wrapParagraphs font fontSize maxWidth rest
                         (lines ++ [EmptyString])
      | _ :: _ =>
          let '(current, lines1) :=
            wrapWords font fontSize maxWidth words EmptyString lines in
          wrapParagraphs font fontSize maxWidth rest
            (if nonEmpty current then lines1 ++ [current] else lines1)
      end
  end.

Definition wrapText (text : string) (font : PDFFont)
           (fontSize maxWidth : Q) : list string :=
  if Nat.eqb (String.length text) 0 then []
  else wrapParagraphs font fontSize maxWidth (split newline text) [].

Fixpoint drawLinesLoop (lines : list string) (p : PDFPage)
         (font : PDFFont) (fontSize startX y lineHeight : Q)
  : PDFPage * Q :=
  match lines with
  | [] => (p, y)
  | line :: rest =>
      drawLinesLoop rest
        (draw (DrawText line startX (y - fontSize) font fontSize
                        COLOR_BLACK) p)
        font fontSize startX (y - lineHeight) lineHeight
  end.

Definition drawLines (lines : list string) (p : PDFPage)
           (font : PDFFont) (fontSize startX startY lineHeight : Q)
  : PDFPage * Cursor :=
  let '(p', y) :=
    drawLinesLoop lines p font fontSize startX startY lineHeight in
  (p', mkCursor startX y).

Definition BlockRenderer : Type :=
  DocumentBlock -> RenderContext -> RenderContext * RenderResult.

(** The shape shared by the text renderers: wrap, draw the lines from the
    cursor down, leave [spacing] below. *)
Definition renderLinesAt (lines : list string) (font : PDFFont)
           (size startX spacing : Q) (ctx : RenderContext)
  : RenderContext * RenderResult :=
  let lineHeight := size * LEADING in
  let '(p', c) :=
    drawLines lines (page ctx) font size startX
              (cursor_y (cursor ctx)) lineHeight in
  (withPage ctx p',
   mkRenderResult (mkCursor (cursor_x c) (cursor_y c - spacing))).

Definition renderHeading : BlockRenderer := fun block ctx =>
  let font := bold (fonts ctx) in
  let size := HEADING in
  renderLinesAt (wrapText (content block) font size (contentWidth ctx))
                font size (contentX ctx) BLOCK_SPACING ctx.

Definition renderBodyText : BlockRenderer := fun block ctx =>
  let font := regular (fonts ctx) in
  let size := BODY in
  renderLinesAt (wrapText (content block) font size (contentWidth ctx))
                font size (contentX ctx) BLOCK_SPACING ctx.

Definition renderBlockQuote : BlockRenderer := fun block ctx =>
  let font := italic (fonts ctx) in
  let size := BODY in
  let indentedX := contentX ctx + BLOCK_QUOTE_INDENT in
  let indentedWidth := contentWidth ctx - BLOCK_QUOTE_INDENT * 2 in
  renderLinesAt (wrapText (content block) font size indentedWidth)
                font size indentedX BLOCK_SPACING ctx.

Definition renderFootnote : BlockRenderer := fun block ctx =>
  (withPendingFootnotes ctx (pendingFootnotes ctx ++ [block]),
   mkRenderResult (cursor ctx)).

(** [content.split('\n').filter(nonblank).map(line => bullet + line.trim())]
    followed by wrapping every item on its own. *)
Definition listLines (bullet : string) (block : DocumentBlock)
           (font : PDFFont) (size : Q) (ctx : RenderContext)
  : list string :=
  let items :=
    map (fun line => (bullet ++ trim line)%string)
        (filter (fun line => nonEmpty (trim line))
                (split newline (content block))) in
  flat_map (fun item => wrapText item font size (contentWidth ctx)) items.

Definition renderPromptList : BlockRenderer := fun block ctx =>
  let font := regular (fonts ctx) in
  let size := BODY in
  renderLinesAt (listLines "• " block font size ctx)
                font size (contentX ctx) BLOCK_SPACING ctx.

Definition renderActionList : BlockRenderer := fun block ctx =>
  let font := regular (fonts ctx) in
  let size := BODY in
  renderLinesAt (listLines "→ " block font size ctx)
                font size (contentX ctx) BLOCK_SPACING ctx.

Definition renderDivider : BlockRenderer := fun _block ctx =>
  let ruleWidth := contentWidth ctx * DIVIDER_WIDTH_RATIO in
  let ruleX := contentX ctx + (contentWidth ctx - ruleWidth) / 2 in
  let ruleY := cursor_y (cursor ctx) - 8 in
  (withPage ctx
     (draw (DrawLine ruleX ruleY (ruleX + ruleWidth) ruleY 0.5
                     COLOR_DARK_GRAY) (page ctx)),
   mkRenderResult (mkCursor (contentX ctx) (ruleY - 8 - BLOCK_SPACING))).

Definition renderPageBreak : BlockRenderer := fun _block ctx =>
  (ctx, mkRenderResult (cursor ctx)).

Definition renderTitle : BlockRenderer := fun block ctx =>
  let font := bold (fonts ctx) in
  let size := TITLE in
  renderLinesAt (wrapText (content block) font size (contentWidth ctx))
                font size (contentX ctx) (BLOCK_SPACING * 2) ctx.

Definition renderSubtitle : BlockRenderer := fun block ctx =>
  let font := italic (fonts ctx) in
  let size := SUBTITLE in
  renderLinesAt (wrapText (content block) font size (contentWidth ctx))
                font size (contentX ctx) BLOCK_SPACING ctx.

Definition renderImprint : BlockRenderer := fun block ctx =>
  let font := regular (fonts ctx) in
  let size := IMPRINT in
  renderLinesAt (wrapText (content block) font size (contentWidth ctx))
                font size (contentX ctx) BLOCK_SPACING ctx.

Definition renderTocEntry : BlockRenderer := fun block ctx =>
  let font := regular (fonts ctx) in
  let size := BODY in
  renderLinesAt (wrapText (content block) font size (contentWidth ctx))
                font size (contentX ctx) 4 ctx.

Definition BLOCK_RENDERERS (t : BlockType) : BlockRenderer :=
  match t with
  | heading => renderHeading
  | body_text => renderBodyText
  | block_quote => renderBlockQuote
  | footnote => renderFootnote
  | prompt_list => renderPromptList
  | action_list => renderActionList
  | divider => renderDivider
  | page_break => renderPageBreak
  | title => renderTitle
  | subtitle => renderSubtitle
  | imprint => renderImprint
  | toc_entry => renderTocEntry
  end.

Definition renderBlock (block : DocumentBlock) (ctx : RenderContext)
  : RenderContext * RenderResult :=
  let renderer := BLOCK_RENDERERS (block_type block) in
  renderer block ctx.

(** The two nested loops of [renderPageFootnotes]: every wrapped line of
    every footnote, one line height below the previous one. *)
Fixpoint footnoteLinesLoop (lines : list string) (p : PDFPage)
         (font : PDFFont) (size contentX y lineHeight : Q) : PDFPage * Q :=
  match lines with
  | [] => (p, y)
  | line :: rest =>
      footnoteLinesLoop rest
        (draw (DrawText line contentX (y - size) font size
                        COLOR_DARK_GRAY) p)
        font size contentX (y - lineHeight) lineHeight
  end.

Fixpoint footnotesLoop (footnotes : list DocumentBlock) (p : PDFPage)
         (font : PDFFont) (size contentX contentWidth y lineHeight : Q)
  : PDFPage * Q :=
  match footnotes with
  | [] => (p, y)
  | fn :: rest =>
      let lines := wrapText (content fn) font size contentWidth in
      let '(p', y') :=
        footnoteLinesLoop lines p font size contentX y lineHeight in
      footnotesLoop rest p' font size contentX contentWidth y' lineHeight
  end.

Definition renderPageFootnotes (footnotes : list DocumentBlock)
           (p : PDFPage) (fonts : EmbeddedFonts)
           (contentX contentWidth bottomY : Q) : PDFPage :=
  match footnotes with
  | [] => p
  | _ :: _ =>
      let font := regular fonts in
      let size := FOOTNOTE in
      let lineHeight := size * LEADING in
      let ruleWidth := contentWidth * 0.3 in
      let ruleY :=
        bottomY + inject_Z (Z.of_nat (List.length footnotes))
                  * lineHeight * 2 + 8 in
      let p1 :=
        draw (DrawLine contentX ruleY (contentX + ruleWidth) ruleY 0.5
                       COLOR_DARK_GRAY) p in
      fst (footnotesLoop footnotes p1 font size contentX contentWidth
                         (ruleY - lineHeight) lineHeight)
  end.

End WithMetric.

End Blocks.

Import Blocks.

(* ------------------------------------------------------------------ *)
(** ** engine.ts *)

(** The value returned by [renderLayout]. *)
Module LayoutResult.
Record t : Type := mk {
  doc : list PDFPage;          (* the pages of the [PDFDocument], in order *)
  pageCount : Z;
  pageDimensions : list (Q * Q);
  insideMarginIn : Q;
  outsideMarginIn : Q;
  topMarginIn : Q;
  bottomMarginIn : Q
}.
End LayoutResult.

(** The value returned by [generatePDF]. *)
Module PDFEngineResult.
Record t : Type := mk {
  pdfBytes : list Init.Byte.byte;
  pageCount : Z;
  marginsBracket : string;
  complianceResult : KDPComplianceResult
}.
End PDFEngineResult.

(** The mutable variables of [renderLayout].  [currentPage] is the handle of
    the page last added to the document; [finishedPages] are the pages of
    the document added before it, which the engine no longer holds. *)
Module LayoutState.
Record t : Type := mk {
  finishedPages : list PDFPage;
  currentPage : PDFPage;
  pageDimensions : list (Q * Q);
  pdfPageCount : Z;
  cursor : Cursor;
  pendingFootnotes : list DocumentBlock;
  currentStyle : PageNumberStyle;
  romanCounter : Z;
  arabicCounter : Z
}.

Definition set_cursor (c : Cursor) (s : t) : t :=
  mk (finishedPages s) (currentPage s) (pageDimensions s) (pdfPageCount s)
     c (pendingFootnotes s) (currentStyle s) (romanCounter s)
     (arabicCounter s).

Definition set_currentStyle (st : PageNumberStyle) (s : t) : t :=
  mk (finishedPages s) (currentPage s) (pageDimensions s) (pdfPageCount s)
     (cursor s) (pendingFootnotes s) st (romanCounter s) (arabicCounter s).

Definition set_romanCounter (n : Z) (s : t) : t :=
  mk (finishedPages s) (currentPage s) (pageDimensions s) (pdfPageCount s)
     (cursor s) (pendingFootnotes s) (currentStyle s) n (arabicCounter s).

Definition set_arabicCounter (n : Z) (s : t) : t :=
  mk (finishedPages s) (currentPage s) (pageDimensions s) (pdfPageCount s)
     (cursor s) (pendingFootnotes s) (currentStyle s) (romanCounter s) n.
End LayoutState.

Module Engine.

Open Scope Q_scope.

Definition DEFAULT_INSIDE_PT : Q := 0.375 * 72.
Definition PAGE_NUMBER_HEIGHT_PT : Q := 20.

(** *** Roman numerals *)

Definition romanTable : list (Z * string) :=
  [ (1000, "m"); (900, "cm"); (500, "d"); (400, "cd"); (100, "c");
    (90, "xc"); (50, "l"); (40, "xl"); (10, "x"); (9, "ix"); (5, "v");
    (4, "iv"); (1, "i") ]%Z%string.

(** [while (rem >= vals[i]) { result += syms[i]; rem -= vals[i]; }]; the
    loop runs at most [rem] times, which is the fuel it is given. *)
Fixpoint romanWhile (fuel : nat) (v : Z) (sym : string)
         (result : string) (rem : Z) : string * Z :=
  match fuel with
  | O => (result, rem)
  | S fuel' =>
      if (v <=? rem)%Z
      then romanWhile fuel' v sym (result ++ sym)%string (rem - v)%Z
      else (result, rem)
  end.

Fixpoint romanFor (table : list (Z * string)) (result : string) (rem : Z)
  : string :=
  match table with
  | [] => result
  | (v, sym) :: rest =>
      let '(result', rem') := romanWhile (Z.to_nat rem) v sym result rem in
      romanFor rest result' rem'
  end.

Definition toRoman (n : Z) : string :=
  if (n <=? 0)%Z then EmptyString else romanFor romanTable EmptyString n.

Definition newPage : PDFPage :=
  {| page_size := (TRIM_WIDTH_PT, TRIM_HEIGHT_PT); operations := [] |}.

Section WithMetric.

Variable widthOfTextAtSize : Metric.

(** pdf-lib's [doc.save()], on the pages of the document. *)
Variable save : list PDFPage -> list Init.Byte.byte.

(** *** Page number rendering *)

Definition drawPageNumber (p : PDFPage) (style : PageNumberStyle)
           (numDisplay : Z) (fonts : EmbeddedFonts)
           (contentX contentWidth y : Q) : PDFPage :=
  match style with
  | suppressed => p
  | _ =>
      let text :=
        match style with
        | roman => toRoman numDisplay
        | _ => String_of_Z numDisplay
        end in
      let font := regular fonts in
      let size := IMPRINT in
      let textWidth := widthOfTextAtSize font text size in
      let x := contentX + (contentWidth - textWidth) / 2 in
      draw (DrawText text x y font size (rgb 0 0 0)) p
  end.

(** *** Core layout engine *)

Section Layout.

Variables insideIn outsideIn topIn bottomIn : Q.

Definition fonts : EmbeddedFonts := embedFonts.

Definition insidePt : Q := insideIn * 72.
Definition outsidePt : Q := outsideIn * 72.
Definition topPt : Q := topIn * 72.
Definition bottomPt : Q := bottomIn * 72.

Definition contentX : Q := insidePt.
Definition contentWidth : Q := TRIM_WIDTH_PT - insidePt - outsidePt.
Definition contentTopY : Q := TRIM_HEIGHT_PT - topPt.
(** Lowest y the cursor may reach before a new page is started. *)
Definition contentFloorY : Q := bottomPt + PAGE_NUMBER_HEIGHT_PT + 10.

Definition topCursor : Cursor := mkCursor contentX contentTopY.

(** The state after [doc.addPage] and the [let] declarations. *)
Definition initialState : LayoutState.t :=
  {| LayoutState.finishedPages := [];
     LayoutState.currentPage := newPage;
     LayoutState.pageDimensions := [(TRIM_WIDTH_PT, TRIM_HEIGHT_PT)];
     LayoutState.pdfPageCount := 1;
     LayoutState.cursor := topCursor;
     LayoutState.pendingFootnotes := [];
     LayoutState.currentStyle := suppressed;
     LayoutState.romanCounter := 0;
     LayoutState.arabicCounter := 0 |}.

Definition finalizeCurrentPage (s : LayoutState.t) : LayoutState.t :=
  let footnotesY := bottomPt + PAGE_NUMBER_HEIGHT_PT + 4 in
  let p1 :=
    renderPageFootnotes widthOfTextAtSize
      (LayoutState.pendingFootnotes s) (LayoutState.currentPage s)
      fonts contentX contentWidth footnotesY in
  let numDisplay :=
    match LayoutState.currentStyle s with
    | roman => LayoutState.romanCounter s
    | _ => LayoutState.arabicCounter s
    end in
  let p2 :=
    drawPageNumber p1 (LayoutState.currentStyle s) numDisplay fonts
                   contentX contentWidth (bottomPt / 2) in
  {| LayoutState.finishedPages := LayoutState.finishedPages s;
     LayoutState.currentPage := p2;
     LayoutState.pageDimensions := LayoutState.pageDimensions s;
     LayoutState.pdfPageCount := LayoutState.pdfPageCount s;
     LayoutState.cursor := LayoutState.cursor s;
     LayoutState.pendingFootnotes := [];
     LayoutState.currentStyle := LayoutState.currentStyle s;
     LayoutState.romanCounter := LayoutState.romanCounter s;
     LayoutState.arabicCounter := LayoutState.arabicCounter s |}.

(** [if (style === 'roman') romanCounter++;
     else if (style === 'arabic') arabicCounter++;] *)
Definition incrementCounter (style : PageNumberStyle)
           (s : LayoutState.t) : LayoutState.t :=
  match style with
  | roman =>
      LayoutState.set_romanCounter (LayoutState.romanCounter s + 1)%Z s
  | arabic =>
      LayoutState.set_arabicCounter (LayoutState.arabicCounter s + 1)%Z s
  | suppressed => s
  end.

Definition advancePage (style : PageNumberStyle)
           (increment : bool) (s : LayoutState.t) : LayoutState.t :=
  let s1 := finalizeCurrentPage s in
  let s2 :=
    {| LayoutState.finishedPages :=
         LayoutState.finishedPages s1 ++ [LayoutState.currentPage s1];
       LayoutState.currentPage := newPage;
       LayoutState.pageDimensions :=
         LayoutState.pageDimensions s1
           ++ [(TRIM_WIDTH_PT, TRIM_HEIGHT_PT)];
       LayoutState.pdfPageCount := (LayoutState.pdfPageCount s1 + 1)%Z;
       LayoutState.cursor := topCursor;
       LayoutState.pendingFootnotes := LayoutState.pendingFootnotes s1;
       LayoutState.currentStyle := style;
       LayoutState.romanCounter := LayoutState.romanCounter s1;
       LayoutState.arabicCounter := LayoutState.arabicCounter s1 |} in
  if increment then incrementCounter style s2 else s2.

(** The start of one iteration of the [for (let di ...)] loop, before
    the cursor is reset. *)
Definition beginDocPage (di : nat) (pageStyle : PageNumberStyle)
           (s : LayoutState.t) : LayoutState.t :=
  match di with
  | O =>
      let s1 := LayoutState.set_currentStyle pageStyle s in
      match pageStyle with
      | roman => LayoutState.set_romanCounter 1 s1
      | arabic => LayoutState.set_arabicCounter 1 s1
      | suppressed => s1
      end
  | S _ => advancePage pageStyle true s
  end.

(** The overflow check made before a block is rendered. *)
Definition overflowCheck (pageStyle : PageNumberStyle)
           (s : LayoutState.t) : LayoutState.t :=
  if Qlt_bool (cursor_y (LayoutState.cursor s)) contentFloorY
  then LayoutState.set_cursor topCursor
         (incrementCounter pageStyle (advancePage pageStyle false s))
  else s.

(** Building [ctx], calling [renderBlock] and taking the cursor from
    its result.  The page and the footnote list of [ctx] are the
    engine's own objects. *)
Definition renderInto (block : DocumentBlock) (s : LayoutState.t)
  : LayoutState.t :=
  let ctx :=
    {| page := LayoutState.currentPage s;
       Blocks.fonts := fonts;
       Blocks.cursor := LayoutState.cursor s;
       Blocks.contentWidth := contentWidth;
       Blocks.contentX := contentX;
       Blocks.pendingFootnotes := LayoutState.pendingFootnotes s |} in
  let '(ctx', result) := renderBlock widthOfTextAtSize block ctx in
  {| LayoutState.finishedPages := LayoutState.finishedPages s;
     LayoutState.currentPage := page ctx';
     LayoutState.pageDimensions := LayoutState.pageDimensions s;
     LayoutState.pdfPageCount := LayoutState.pdfPageCount s;
     LayoutState.cursor := result_cursor result;
     LayoutState.pendingFootnotes := Blocks.pendingFootnotes ctx';
     LayoutState.currentStyle := LayoutState.currentStyle s;
     LayoutState.romanCounter := LayoutState.romanCounter s;
     LayoutState.arabicCounter := LayoutState.arabicCounter s |}.

(** One iteration of [for (const block of docPage.blocks)]. *)
Definition processBlock (pageStyle : PageNumberStyle)
           (block : DocumentBlock) (s : LayoutState.t) : LayoutState.t :=
  if isPageBreak (block_type block)
  then LayoutState.set_cursor topCursor (advancePage pageStyle false s)
  else renderInto block (overflowCheck pageStyle s).

Fixpoint layoutBlocks (pageStyle : PageNumberStyle)
         (bs : list DocumentBlock) (s : LayoutState.t) : LayoutState.t :=
  match bs with
  | [] => s
  | block :: rest =>
      layoutBlocks pageStyle rest (processBlock pageStyle block s)
  end.

Definition pageStyleOf (docPage : DocumentPage) : PageNumberStyle :=
  match page_number_style docPage with
  | Some st => st
  | None => arabic
  end.

(** One iteration of the [for (let di ...)] loop. *)
Definition layoutDocPage (di : nat) (docPage : DocumentPage)
           (s : LayoutState.t) : LayoutState.t :=
  let pageStyle := pageStyleOf docPage in
  let s1 := beginDocPage di pageStyle s in
  let s2 := LayoutState.set_cursor topCursor s1 in
  layoutBlocks pageStyle (blocks docPage) s2.

Fixpoint layoutDocPages (di : nat) (allDocPages : list DocumentPage)
         (s : LayoutState.t) : LayoutState.t :=
  match allDocPages with
  | [] => s
  | docPage :: rest =>
      layoutDocPages (S di) rest (layoutDocPage di docPage s)
  end.

(** The state when the loops are over and the last page is finalized. *)
Definition finalState (document : DocumentRepresentation)
  : LayoutState.t :=
  let allDocPages := front_matter document ++ content_pages document in
  finalizeCurrentPage (layoutDocPages 0 allDocPages initialState).

Definition renderLayout (document : DocumentRepresentation)
           (outputMode : OutputMode) : LayoutResult.t :=
  let s := finalState document in
  {| LayoutResult.doc :=
       LayoutState.finishedPages s ++ [LayoutState.currentPage s];
     LayoutResult.pageCount := LayoutState.pdfPageCount s;
     LayoutResult.pageDimensions := LayoutState.pageDimensions s;
     LayoutResult.insideMarginIn := insideIn;
     LayoutResult.outsideMarginIn := outsideIn;
     LayoutResult.topMarginIn := topIn;
     LayoutResult.bottomMarginIn := bottomIn |}.

End Layout.

(** *** Public entry point *)

Definition hasOfferPage (document : DocumentRepresentation) : bool :=
  match nth_error (content_pages document)
                  (List.length (content_pages document) - 1) with
  | None => false
  | Some lastPage =>
      existsb (fun b => includes (content b) "sacredwhisperspublishing.com"
                        || includes (content b) "offer")%bool
              (blocks lastPage)
  end.

(** What a call of [generatePDF] did: the layout passes it ran, in order,
    and how it ended. *)
Record Run : Type := mkRun {
  layoutPasses : list LayoutResult.t;
  outcome : Result PDFEngineResult.t
}.

Definition complianceInputOf (layout : LayoutResult.t)
           (document : DocumentRepresentation) (outputMode : OutputMode)
  : KDPComplianceInput :=
  {| Compliance.pageDimensions := LayoutResult.pageDimensions layout;
     Compliance.pageCount := LayoutResult.pageCount layout;
     Compliance.insideMarginIn := LayoutResult.insideMarginIn layout;
     Compliance.outsideMarginIn := LayoutResult.outsideMarginIn layout;
     Compliance.topMarginIn := LayoutResult.topMarginIn layout;
     Compliance.bottomMarginIn := LayoutResult.bottomMarginIn layout;
     fontsEmbedded := true;
     offerPagePresent := hasOfferPage document;
     Compliance.outputMode := outputMode |}.

(** The part of [generatePDF] after the layout is chosen: serializing,
    checking compliance, building the result. *)
Definition finish (ran : list LayoutResult.t) (layout : LayoutResult.t)
           (bracket : string) (document : DocumentRepresentation)
           (outputMode : OutputMode) : Run :=
  let pdfBytes := save (LayoutResult.doc layout) in
  match checkCompliance (complianceInputOf layout document outputMode) with
  | Throw e => mkRun ran (Throw e)
  | Ok complianceResult =>
      mkRun ran
        (Ok {| PDFEngineResult.pdfBytes := pdfBytes;
               PDFEngineResult.pageCount := LayoutResult.pageCount layout;
               PDFEngineResult.marginsBracket := bracket;
               PDFEngineResult.complianceResult := complianceResult |})
  end.

Definition generatePDF (document : DocumentRepresentation)
           (outputMode : OutputMode) : Run :=
  (* Pass 1: default margins *)
  let defaultIn : Q := 0.375 in
  let pass1 :=
    renderLayout defaultIn defaultIn defaultIn defaultIn
                 document outputMode in
  (* Correct margins for the page count of pass 1 *)
  match calculateMargins (LayoutResult.pageCount pass1) with
  | Throw e => mkRun [pass1] (Throw e)
  | Ok finalMargins =>
      match describeMarginBracket (LayoutResult.pageCount pass1) with
      | Throw e => mkRun [pass1] (Throw e)
      | Ok bracket =>
          (* Pass 2: only if the inside margin changed *)
          let usePass1 :=
            Qlt_bool (Qabs (inside finalMargins - defaultIn)) 0.001 in
          if usePass1
          then finish [pass1] pass1 bracket document outputMode
          else
            let pass2 :=
              renderLayout (inside finalMargins) (outside finalMargins)
                           (top finalMargins) (bottom finalMargins)
                           document outputMode in
            finish [pass1; pass2] pass2 bracket document outputMode
      end
  end.

End WithMetric.

End Engine.

Import Engine.

(* ------------------------------------------------------------------ *)
(** ** engine.ts: subprocess entry point *)

Module Subprocess.

(** The value [JSON.parse] returns for the text read from stdin. *)
Record SubprocessInput : Type := mkSubprocessInput {
  document : DocumentRepresentation;
  output_mode : option OutputMode
}.

(** What the process leaves behind: the bytes written to stdout, the text
    written to stderr and its exit status. *)
Record ProcessResult : Type := mkProcessResult {
  stdout : list Init.Byte.byte;
  stderr : string;
  exitCode : Z
}.

(** [String(err)] for an error object: its name, a colon, its message. *)
Definition String_of_Exception (e : Exception) : string :=
  match e with
  | RangeError message => ("RangeError: " ++ message)%string
  end.

Section WithMetric.

Variable widthOfTextAtSize : Metric.
Variable save : list PDFPage -> list Init.Byte.byte.

(** The handler of the [end] event of stdin, from the parsed input on. *)
Definition runSubprocess (input : SubprocessInput) : ProcessResult :=
  let mode :=
    match output_mode input with
    | Some m => m
    | None => publish_ready
    end in
  match outcome (generatePDF widthOfTextAtSize save (document input) mode) with
  | Ok result =>
      {| stdout := PDFEngineResult.pdfBytes result;
         stderr := EmptyString;
         exitCode := 0 |}
  | Throw err =>
      {| stdout := [];
         stderr := ("PDF engine error: " ++ String_of_Exception err
                      ++ String newline EmptyString)%string;
         exitCode := 1 |}
  end.

End WithMetric.

End Subprocess.


(* ------------------------------------------------------------------ *)
(** * Vocabulary of the properties *)

Unset Implicit Arguments.

(** The margins [calculateMargins] returns with inside margin [i]. *)
Definition marginsWith (i : Q) : KDPMargins :=
  {| inside := i; outside := 0.375%Q; top := 0.375%Q; bottom := 0.375%Q |}.

(** The bracket table read as a step function. *)
Definition insideFor (P : Z) : Q :=
  if (P <=? 150)%Z then 0.375%Q
  else if (P <=? 300)%Z then 0.500%Q
  else if (P <=? 500)%Z then 0.625%Q
  else if (P <=? 700)%Z then 0.750%Q
  else 0.875%Q.

(** Number of rules of the checker that failed, out of the seven it has:
    trim size, the four margins, font embedding, offer page. *)
Definition failedRules (r : KDPComplianceResult) : nat :=
  List.length
    (filter negb
       [ trim_size_correct r; inside_margin_correct r;
         outside_margin_correct r; top_margin_correct r;
         bottom_margin_correct r; fonts_embedded r;
         offer_page_present r ]).

(** The six rules that do not depend on the output mode all hold. *)
Definition otherRulesSatisfied (r : KDPComplianceResult) : bool :=
  (trim_size_correct r && inside_margin_correct r && outside_margin_correct r
   && top_margin_correct r && bottom_margin_correct r && fonts_embedded r)%bool.

(** The page number a page carries: the text of the last thing drawn on it
    ([finalizeCurrentPage] draws the number last). *)
Definition pageNumberDrawn (p : PDFPage) : option string :=
  match rev (operations p) with
  | DrawText text _ _ _ _ _ :: _ => Some text
  | _ => None
  end.

(** The numbers 1, 2, ..., n as page-number texts. *)
Definition numbersUpTo (n : nat) : list (option string) :=
  map (fun k => Some (String_of_Z (Z.of_nat k))) (seq 1 n).

(** No block of [bs] is an explicit page break. *)
Definition noPageBreak (bs : list DocumentBlock) : Prop :=
  Forall (fun b => isPageBreak (block_type b) = false) bs.

(** Invariant of an Arabic logical page that is the first of its document:
    the physical pages closed so far carry 1, 2, ..., and the counter is
    the number of the page being filled. *)
Definition arabicRun (s : LayoutState.t) : Prop :=
  LayoutState.currentStyle s = arabic /\
  LayoutState.arabicCounter s
    = Z.of_nat (S (List.length (LayoutState.finishedPages s))) /\
  LayoutState.pdfPageCount s
    = Z.of_nat (S (List.length (LayoutState.finishedPages s))) /\
  map pageNumberDrawn (LayoutState.finishedPages s)
    = numbersUpTo (List.length (LayoutState.finishedPages s)).

(** Pass one: every margin 0.375in. *)
Definition passOne (w : Metric) (document : DocumentRepresentation)
           (mode : OutputMode) : LayoutResult.t :=
  renderLayout w 0.375 0.375 0.375 0.375 document mode.

(** Pass two: the margins [calculateMargins] gives for [P] pages. *)
Definition passTwo (w : Metric) (P : Z) (document : DocumentRepresentation)
           (mode : OutputMode) : LayoutResult.t :=
  renderLayout w (insideFor P) 0.375 0.375 0.375 document mode.

(** [r] is the result [generatePDF] builds from [layout]. *)
Definition builtFrom (save : list PDFPage -> list Init.Byte.byte)
           (layout : LayoutResult.t)
           (document : DocumentRepresentation) (mode : OutputMode)
           (r : PDFEngineResult.t) : Prop :=
  PDFEngineResult.pdfBytes r = save (LayoutResult.doc layout) /\
  PDFEngineResult.pageCount r = LayoutResult.pageCount layout /\
  checkCompliance (complianceInputOf layout document mode)
    = Ok (PDFEngineResult.complianceResult r).

(** The two-pass protocol as the specification words it: pass one's layout
    is final when [calculateMargins] yields an inside margin of 0.375in for
    its page count, and in every other case a second pass is run and its
    result returned. *)
Definition twoPassAsStated (w : Metric)
           (save : list PDFPage -> list Init.Byte.byte)
           (document : DocumentRepresentation) (mode : OutputMode) : Prop :=
  let pass1 := passOne w document mode in
  let run := generatePDF w save document mode in
  let yieldsDefault :=
    exists m, calculateMargins (LayoutResult.pageCount pass1) = Ok m /\
              (Qabs (inside m - 0.375) < 0.001)%Q in
  (yieldsDefault ->
   layoutPasses run = [pass1] /\
   exists r, outcome run = Ok r /\ builtFrom save pass1 document mode r)
  /\ (~ yieldsDefault ->
      exists pass2,
        layoutPasses run = [pass1; pass2] /\
        exists r, outcome run = Ok r /\ builtFrom save pass2 document mode r).

(** A page, and a document, with the [starts_new_page] flags erased: two
    documents differ only in those flags when erasing them gives the same
    document. *)
Definition clearFlag (p : DocumentPage) : DocumentPage :=
  {| blocks := blocks p; starts_new_page := None;
     page_number_style := page_number_style p |}.

Definition clearFlags (d : DocumentRepresentation) : DocumentRepresentation :=
  {| doc_title := doc_title d; doc_subtitle := doc_subtitle d;
     front_matter := map clearFlag (front_matter d);
     content_pages := map clearFlag (content_pages d);
     has_toc := has_toc d; has_day7 := has_day7 d;
     total_estimated_pages := total_estimated_pages d |}.

(** Footnote text is the only text drawn in [COLOR_DARK_GRAY]; the footnote
    texts of a page are the texts drawn on it in that colour, in order. *)
Definition isDarkGray (c : Color) : bool :=
  (Qeq_bool (red c) 0.3 && Qeq_bool (green c) 0.3 && Qeq_bool (blue c) 0.3)%bool.

Definition footnoteTextOf (op : DrawOp) : list string :=
  match op with
  | DrawText text _ _ _ _ color => if isDarkGray color then [text] else []
  | DrawLine _ _ _ _ _ _ => []
  end.

Definition footnoteTexts (p : PDFPage) : list string :=
  flat_map footnoteTextOf (operations p).

(** Where the engine was when it processed each block: the blocks of the
    document in order, each with the number of the physical page that was
    current once the block had been processed. *)
Fixpoint placeBlocks (w : Metric) (i o t b : Q) (pageStyle : PageNumberStyle)
         (bs : list DocumentBlock) (s : LayoutState.t)
  : list (Z * DocumentBlock) :=
  match bs with
  | [] => []
  | block :: rest =>
      let s' := processBlock w i o t b pageStyle block s in
      (LayoutState.pdfPageCount s', block)
        :: placeBlocks w i o t b pageStyle rest s'
  end.

Fixpoint placePages (w : Metric) (i o t b : Q) (di : nat)
         (ps : list DocumentPage) (s : LayoutState.t)
  : list (Z * DocumentBlock) :=
  match ps with
  | [] => []
  | p :: rest =>
      placeBlocks w i o t b (pageStyleOf p) (blocks p)
        (LayoutState.set_cursor (topCursor i t)
           (beginDocPage w i o t b di (pageStyleOf p) s))
        ++ placePages w i o t b (S di) rest (layoutDocPage w i o t b di p s)
  end.

Definition placement (w : Metric) (i o t b : Q)
           (document : DocumentRepresentation) : list (Z * DocumentBlock) :=
  placePages w i o t b 0
             (front_matter document ++ content_pages document)
             (initialState i t).

(** The footnote blocks processed while physical page [k] was current. *)
Definition footnotesOn (k : Z) (placed : list (Z * DocumentBlock))
  : list DocumentBlock :=
  map snd
      (filter (fun e => (fst e =? k)%Z && isFootnote (block_type (snd e)))%bool
              placed).

(** The lines [renderPageFootnotes] draws for a list of footnotes. *)
Definition footnoteLines (w : Metric) (i o : Q) (fns : list DocumentBlock)
  : list string :=
  flat_map (fun fn => wrapText w (content fn) Regular FOOTNOTE
                               (contentWidth i o))
           fns.

(** The invariant of the layout loops, on the parts of the state it speaks
    of: the footnote texts of every closed page are the lines of the
    footnotes processed on it, the open page has no footnote text yet, and
    the pending list holds the footnotes processed on the open page. *)
Definition placedInv' (w : Metric) (insideIn outsideIn : Q)
           (fin : list PDFPage) (currentTexts : list string)
           (pc : Z) (pend : list DocumentBlock)
           (T : list (Z * DocumentBlock)) : Prop :=
  pc = Z.of_nat (S (List.length fin)) /\
  map footnoteTexts fin
    = map (fun k =>
             footnoteLines w insideIn outsideIn (footnotesOn (Z.of_nat k) T))
          (seq 1 (List.length fin)) /\
  currentTexts = [] /\
  pend = footnotesOn pc T /\
  Forall (fun e => (fst e <= pc)%Z) T.

Definition placedInv (w : Metric) (insideIn outsideIn : Q)
           (s : LayoutState.t) (T : list (Z * DocumentBlock))
  : Prop :=
  placedInv' w insideIn outsideIn (LayoutState.finishedPages s)
             (footnoteTexts (LayoutState.currentPage s))
             (LayoutState.pdfPageCount s)
             (LayoutState.pendingFootnotes s) T.

(** The seven rules of the checker, read off the measurements of the
    input: every page within 1pt of the trim size; the inside margin not
    below the margin of the page count's bracket, and the outside, top and
    bottom margins not below 0.25in, each with a tolerance of 0.001in; the
    fonts embedded; and, in publish-ready mode, the offer page present.
    The 24-page minimum is not among them. *)
Definition rulesHold (input : KDPComplianceInput) : bool :=
  (forallb (fun wh => Qlt_bool (Qabs (fst wh - TRIM_WIDTH_PT)) 1
                      && Qlt_bool (Qabs (snd wh - TRIM_HEIGHT_PT)) 1)
           (Compliance.pageDimensions input)
   && Qge_bool (Compliance.insideMarginIn input)
               (insideFor (Compliance.pageCount input) - 0.001)
   && Qge_bool (Compliance.outsideMarginIn input)
               (MIN_OUTSIDE_MARGIN_IN - 0.001)
   && Qge_bool (Compliance.topMarginIn input) (MIN_TOP_MARGIN_IN - 0.001)
   && Qge_bool (Compliance.bottomMarginIn input)
               (MIN_BOTTOM_MARGIN_IN - 0.001)
   && fontsEmbedded input
   && match Compliance.outputMode input with
      | personal => true
      | publish_ready => offerPagePresent input
      end)%bool.

(** The same measurements with another page count. *)
Definition withPageCount (pc : Z) (input : KDPComplianceInput)
  : KDPComplianceInput :=
  {| Compliance.pageDimensions := Compliance.pageDimensions input;
     Compliance.pageCount := pc;
     Compliance.insideMarginIn := Compliance.insideMarginIn input;
     Compliance.outsideMarginIn := Compliance.outsideMarginIn input;
     Compliance.topMarginIn := Compliance.topMarginIn input;
     Compliance.bottomMarginIn := Compliance.bottomMarginIn input;
     fontsEmbedded := fontsEmbedded input;
     offerPagePresent := offerPagePresent input;
     Compliance.outputMode := Compliance.outputMode input |}.

(** The texts drawn on a page, in the order they were drawn. *)
Definition textsDrawn (p : PDFPage) : list string :=
  flat_map (fun op => match op with
                      | DrawText text _ _ _ _ _ => [text]
                      | DrawLine _ _ _ _ _ _ => []
                      end)
           (operations p).

(** The heights of the horizontal rules drawn on a page (divider and
    footnote separator), in lowest terms. *)
Definition ruleHeights (p : PDFPage) : list Q :=
  flat_map (fun op => match op with
                      | DrawText _ _ _ _ _ _ => []
                      | DrawLine _ y _ _ _ _ => [Qred y]
                      end)
           (operations p).

(** ** Vocabulary of the further properties *)

(** Position of a violation in the order the checker reports them. *)
Definition violationRank (v : Violation) : nat :=
  match v with
  | TrimSizeIncorrect _ => 0
  | InsideMarginTooSmall _ _ _ => 1
  | OutsideMarginTooSmall _ => 2
  | TopMarginTooSmall _ => 3
  | BottomMarginTooSmall _ => 4
  | FontsNotEmbedded => 5
  | OfferPageNotFinal => 6
  end.

(** [wider] has the measurements of [input] except that none of its four
    margins is smaller. *)
Definition marginsNotSmaller (input wider : KDPComplianceInput) : Prop :=
  Compliance.pageDimensions wider = Compliance.pageDimensions input /\
  Compliance.pageCount wider = Compliance.pageCount input /\
  fontsEmbedded wider = fontsEmbedded input /\
  offerPagePresent wider = offerPagePresent input /\
  Compliance.outputMode wider = Compliance.outputMode input /\
  (Compliance.insideMarginIn input <= Compliance.insideMarginIn wider)%Q /\
  (Compliance.outsideMarginIn input <= Compliance.outsideMarginIn wider)%Q /\
  (Compliance.topMarginIn input <= Compliance.topMarginIn wider)%Q /\
  (Compliance.bottomMarginIn input <= Compliance.bottomMarginIn wider)%Q.


(** Whether the character [c] occurs in [s]. *)
Fixpoint hasChar (c : ascii) (s : string) : bool :=
  match s with
  | EmptyString => false
  | String a rest => (Ascii.eqb a c || hasChar c rest)%bool
  end.

(** The words of a paragraph, as [wrapText] takes them:
    [paragraph.split(' ').filter((w) => w.length > 0)]. *)
Definition words (paragraph : string) : list string :=
  filter nonEmpty (split space paragraph).

(** A paragraph without words. *)
Definition isBlank (paragraph : string) : bool :=
  match words paragraph with [] => true | _ :: _ => false end.


(** A word as [wrapText] sees one: not empty, without a space. *)
Definition isWord (s : string) : Prop :=
  nonEmpty s = true /\ hasChar space s = false.

(** The words of the lines, in order. *)
Definition lineWords (lines : list string) : list string :=
  flat_map words lines.

(** What [wrapText] guarantees of a line: it fits the width or is a single
    word, and it holds no line break. *)
Definition wellWrapped (w : Metric) (font : PDFFont) (fontSize maxWidth : Q)
           (line : string) : Prop :=
  ((w font line fontSize <= maxWidth)%Q \/ hasChar space line = false)
  /\ hasChar newline line = false.


(** The drawing operations of a column of lines set in black from [y]
    down: each line has its baseline one font size below the top of its
    row, and the rows are [lineHeight] apart. *)
Fixpoint lineOps (lines : list string) (font : PDFFont)
         (fontSize x y lineHeight : Q) : list DrawOp :=
  match lines with
  | [] => []
  | line :: rest =>
      DrawText line x (y - fontSize) font fontSize COLOR_BLACK
        :: lineOps rest font fontSize x (y - lineHeight) lineHeight
  end.

(** How a text-bearing block type is set: face, size, space left below the
    block, and whether it is indented as a block quote is. *)
Record TextStyle : Type := mkTextStyle {
  style_face : EmbeddedFonts -> PDFFont;
  style_size : Q;
  style_spacing : Q;
  style_indented : bool
}.

Definition textStyleOf (t : BlockType) : option TextStyle :=
  match t with
  | heading => Some (mkTextStyle bold HEADING BLOCK_SPACING false)
  | body_text => Some (mkTextStyle regular BODY BLOCK_SPACING false)
  | block_quote => Some (mkTextStyle italic BODY BLOCK_SPACING true)
  | prompt_list => Some (mkTextStyle regular BODY BLOCK_SPACING false)
  | action_list => Some (mkTextStyle regular BODY BLOCK_SPACING false)
  | title => Some (mkTextStyle bold TITLE (BLOCK_SPACING * 2) false)
  | subtitle => Some (mkTextStyle italic SUBTITLE BLOCK_SPACING false)
  | imprint => Some (mkTextStyle regular IMPRINT BLOCK_SPACING false)
  | toc_entry => Some (mkTextStyle regular BODY 4 false)
  | footnote | divider | page_break => None
  end.

(** Left edge and width of the text of a block set in style [st]. *)
Definition textStartX (st : TextStyle) (ctx : RenderContext) : Q :=
  if style_indented st then (Blocks.contentX ctx + BLOCK_QUOTE_INDENT)%Q
  else Blocks.contentX ctx.

Definition textWidth (st : TextStyle) (ctx : RenderContext) : Q :=
  if style_indented st
  then (Blocks.contentWidth ctx - BLOCK_QUOTE_INDENT * 2)%Q
  else Blocks.contentWidth ctx.

(** The lines a text-bearing block is set in: the items of a list block,
    each under its bullet, or the wrapped content. *)
Definition textLines (w : Metric) (st : TextStyle) (b : DocumentBlock)
           (ctx : RenderContext) : list string :=
  let font := style_face st (Blocks.fonts ctx) in
  match block_type b with
  | prompt_list => listLines w "• " b font (style_size st) ctx
  | action_list => listLines w "→ " b font (style_size st) ctx
  | _ => wrapText w (content b) font (style_size st) (textWidth st ctx)
  end.

(** [page] with [drawn] added to what was drawn on it. *)
Definition drawAll (drawn : list DrawOp) (p : PDFPage) : PDFPage :=
  {| page_size := page_size p; operations := operations p ++ drawn |}.


(** The drawing operations of a column of footnote lines, set in dark gray
    from [y] down. *)
Fixpoint footnoteOps (lines : list string) (font : PDFFont)
         (size x y lineHeight : Q) : list DrawOp :=
  match lines with
  | [] => []
  | line :: rest =>
      DrawText line x (y - size) font size COLOR_DARK_GRAY
        :: footnoteOps rest font size x (y - lineHeight) lineHeight
  end.

(** Height of the separator rule over [n] footnotes placed above
    [bottomY]. *)
Definition footnoteRuleY (n : nat) (bottomY : Q) : Q :=
  (bottomY + inject_Z (Z.of_nat n) * (FOOTNOTE * LEADING) * 2 + 8)%Q.

(** The wrapped lines of a list of footnotes, at width [cw]. *)
Definition allFootnoteLines (w : Metric) (cw : Q)
           (fns : list DocumentBlock) : list string :=
  flat_map (fun fn => wrapText w (content fn) Regular FOOTNOTE cw) fns.


(** The value of a Roman digit, 0 for any other character. *)
Definition romanDigit (c : ascii) : Z :=
  if Ascii.eqb c "m" then 1000
  else if Ascii.eqb c "d" then 500
  else if Ascii.eqb c "c" then 100
  else if Ascii.eqb c "l" then 50
  else if Ascii.eqb c "x" then 10
  else if Ascii.eqb c "v" then 5
  else if Ascii.eqb c "i" then 1
  else 0.

(** Reading a Roman numeral: a digit smaller than the one after it is
    subtracted, every other digit is added. *)
Fixpoint romanValue (s : string) : Z :=
  match s with
  | EmptyString => 0
  | String c rest =>
      match rest with
      | EmptyString => romanDigit c
      | String c' _ =>
          if (romanDigit c <? romanDigit c')%Z
          then (romanValue rest - romanDigit c)%Z
          else (romanValue rest + romanDigit c)%Z
      end
  end.

(** [sym] repeated [n] times. *)
Fixpoint repeatString (sym : string) (n : nat) : string :=
  match n with
  | O => EmptyString
  | S n' => (sym ++ repeatString sym n')%string
  end.


(** The logical pages of a document in the order the engine lays them out,
    and all their blocks. *)
Definition logicalPages (d : DocumentRepresentation) : list DocumentPage :=
  front_matter d ++ content_pages d.

Definition allBlocks (d : DocumentRepresentation) : list DocumentBlock :=
  flat_map blocks (logicalPages d).

(** Number of explicit page breaks among [bs]. *)
Definition pageBreaks (bs : list DocumentBlock) : nat :=
  List.length (filter (fun b => isPageBreak (block_type b)) bs).

(** A physical page of the trim size, 6in by 9in. *)
Definition trimSized (p : PDFPage) : Prop :=
  page_size p = (TRIM_WIDTH_PT, TRIM_HEIGHT_PT).

(** The bookkeeping of the layout loops agrees with the document: the
    counter and the recorded dimensions match the pages added so far, and
    every page has the trim size. *)
Definition accounted (s : LayoutState.t) : Prop :=
  LayoutState.pdfPageCount s
    = Z.of_nat (S (List.length (LayoutState.finishedPages s))) /\
  LayoutState.pageDimensions s
    = repeat (TRIM_WIDTH_PT, TRIM_HEIGHT_PT)
             (S (List.length (LayoutState.finishedPages s))) /\
  Forall trimSized (LayoutState.finishedPages s) /\
  trimSized (LayoutState.currentPage s).

(** Pages the loop over the logical pages adds for the page starts alone:
    none for the first logical page, one for every other. *)
Definition pageStarts (di : nat) (ps : list DocumentPage) : nat :=
  match di with
  | O => pred (List.length ps)
  | S _ => List.length ps
  end.


(** The text of page number [n] in a numbering style; a suppressed page
    has none. *)
Definition numeral (style : PageNumberStyle) (n : Z) : option string :=
  match style with
  | roman => Some (toRoman n)
  | arabic => Some (String_of_Z n)
  | suppressed => None
  end.

(** The numbers 1, 2, ..., k in a style. *)
Definition numerals (style : PageNumberStyle) (k : nat)
  : list (option string) :=
  map (fun j => numeral style (Z.of_nat j)) (seq 1 k).

(** The counter [finalizeCurrentPage] reads for a style. *)
Definition counterOf (style : PageNumberStyle) (s : LayoutState.t) : Z :=
  match style with
  | roman => LayoutState.romanCounter s
  | _ => LayoutState.arabicCounter s
  end.

(** Invariant of a run of logical pages of one numbering style: after the
    pages numbered [before], the closed pages of the run carry 1, ..., k
    in the style and the open page will be number k + 1; as long as the
    run is Roman the Arabic counter has not been touched. *)
Definition numbered (style : PageNumberStyle) (before : list (option string))
           (k : nat) (s : LayoutState.t) : Prop :=
  LayoutState.currentStyle s = style /\
  map pageNumberDrawn (LayoutState.finishedPages s)
    = before ++ numerals style k /\
  counterOf style s = Z.of_nat (S k) /\
  (style = roman -> LayoutState.arabicCounter s = 0%Z).

(** The logical pages [ps] all have numbering style [style] and no
    explicit page break. *)
Definition plainRun (style : PageNumberStyle) (ps : list DocumentPage)
  : Prop :=
  Forall (fun p => pageStyleOf p = style /\ noPageBreak (blocks p)) ps.


(** ** Sample inputs *)

(** A fixed-pitch metric: every byte of the text is half the font size
    wide. *)
Definition fixedPitch : Metric :=
  fun _ text size => (inject_Z (Z.of_nat (String.length text)) * size * 0.5)%Q.

(** A serializer that writes one byte per drawing operation. *)
Definition countingSave (pages : list PDFPage) : list Init.Byte.byte :=
  flat_map (fun p => map (fun _ => Init.Byte.x00) (operations p)) pages.

(** A block without the reserved fields. *)
Definition plainBlock (t : BlockType) (text : string) : DocumentBlock :=
  {| block_type := t; content := text;
     block_page_number_style := None; metadata := None |}.

(** One Arabic logical page holding 49 dividers: 24 dividers take the cursor
    from 621pt to 45pt, below the floor of 57pt. *)
Definition dividerPage : DocumentPage :=
  {| blocks := repeat (plainBlock divider EmptyString) 49;
     starts_new_page := Some true;
     page_number_style := Some arabic |}.

Definition dividerDocument : DocumentRepresentation :=
  {| doc_title := "Dividers"; doc_subtitle := None;
     front_matter := []; content_pages := [dividerPage];
     has_toc := false; has_day7 := false; total_estimated_pages := None |}.

(** A state whose cursor, at 45pt, is below the content floor of 57pt. *)
Definition belowFloorState : LayoutState.t :=
  LayoutState.set_cursor (mkCursor 27 45) (initialState 0.375 0.375).

(** A document of 829 logical pages without blocks. *)
Definition blankPage : DocumentPage :=
  {| blocks := []; starts_new_page := None; page_number_style := None |}.

Definition oversizedDocument : DocumentRepresentation :=
  {| doc_title := "Too long"; doc_subtitle := None;
     front_matter := []; content_pages := repeat blankPage 829;
     has_toc := false; has_day7 := false; total_estimated_pages := None |}.

(** A compliant 20-page book. *)
Definition shortBookInput (mode : OutputMode) : KDPComplianceInput :=
  {| Compliance.pageDimensions := [(TRIM_WIDTH_PT, TRIM_HEIGHT_PT)];
     Compliance.pageCount := 20;
     Compliance.insideMarginIn := 0.375;
     Compliance.outsideMarginIn := 0.375;
     Compliance.topMarginIn := 0.375;
     Compliance.bottomMarginIn := 0.375;
     fontsEmbedded := true;
     offerPagePresent := true;
     Compliance.outputMode := mode |}.

(** A document of two pages whose last content page does not mention the
    offer. *)
Definition noOfferDocument : DocumentRepresentation :=
  {| doc_title := "Grace in the Ordinary"; doc_subtitle := None;
     front_matter :=
       [ {| blocks := [plainBlock title "Grace in the Ordinary"];
            starts_new_page := Some false;
            page_number_style := Some suppressed |} ];
     content_pages :=
       [ {| blocks := [plainBlock heading "Day 1";
                       plainBlock body_text "Grace meets us where we are."];
            starts_new_page := Some true;
            page_number_style := Some arabic |} ];
     has_toc := false; has_day7 := false; total_estimated_pages := None |}.

(** What the relaxed run of [noOfferDocument] returns. *)
Definition noOfferRelaxed : PDFEngineResult.t :=
  match outcome (generatePDF fixedPitch countingSave noOfferDocument
                             personal) with
  | Ok r => r
  | Throw _ =>
      PDFEngineResult.mk [] 0 EmptyString
        (mkResult false false false false false false false 0 false false [])
  end.

(** [noOfferDocument] with every flag flipped. *)
Definition noOfferDocumentFlipped : DocumentRepresentation :=
  {| doc_title := "Grace in the Ordinary"; doc_subtitle := None;
     front_matter :=
       [ {| blocks := [plainBlock title "Grace in the Ordinary"];
            starts_new_page := Some true;
            page_number_style := Some suppressed |} ];
     content_pages :=
       [ {| blocks := [plainBlock heading "Day 1";
                       plainBlock body_text "Grace meets us where we are."];
            starts_new_page := Some false;
            page_number_style := Some arabic |} ];
     has_toc := false; has_day7 := false; total_estimated_pages := None |}.

(** A context at the top of a blank page laid out with 0.375in margins. *)
Definition sampleContext : RenderContext :=
  {| page := newPage; Blocks.fonts := embedFonts;
     Blocks.cursor := mkCursor 27 621;
     Blocks.contentWidth := 378; Blocks.contentX := 27;
     Blocks.pendingFootnotes := [] |}.

(** [shortBookInput] with every margin widened to half an inch. *)
Definition widerBookInput (mode : OutputMode) : KDPComplianceInput :=
  {| Compliance.pageDimensions := [(TRIM_WIDTH_PT, TRIM_HEIGHT_PT)];
     Compliance.pageCount := 20;
     Compliance.insideMarginIn := 0.5;
     Compliance.outsideMarginIn := 0.5;
     Compliance.topMarginIn := 0.5;
     Compliance.bottomMarginIn := 0.5;
     fontsEmbedded := true;
     offerPagePresent := true;
     Compliance.outputMode := mode |}.


(** A 200-page book laid out with the 0.375in gutter of the first bracket,
    a narrow top margin and subsetted fonts. *)
Definition faultyBookInput : KDPComplianceInput :=
  {| Compliance.pageDimensions := [(TRIM_WIDTH_PT, TRIM_HEIGHT_PT)];
     Compliance.pageCount := 200;
     Compliance.insideMarginIn := 0.375;
     Compliance.outsideMarginIn := 0.375;
     Compliance.topMarginIn := 0.1;
     Compliance.bottomMarginIn := 0.375;
     fontsEmbedded := false;
     offerPagePresent := false;
     Compliance.outputMode := publish_ready |}.

(** What the checker returns for [faultyBookInput]. *)
Definition faultyBookResult : KDPComplianceResult :=
  {| passes := false;
     trim_size_correct := true;
     inside_margin_correct := false;
     outside_margin_correct := true;
     top_margin_correct := false;
     bottom_margin_correct := true;
     fonts_embedded := false;
     page_count := 200;
     page_count_warning := false;
     offer_page_present := false;
     violations :=
       [ InsideMarginTooSmall 0.375 0.500 200; TopMarginTooSmall 0.1;
         FontsNotEmbedded; OfferPageNotFinal ] |}.

(** What the checker returns for [shortBookInput] and [widerBookInput]. *)
Definition cleanBookResult : KDPComplianceResult :=
  {| passes := true;
     trim_size_correct := true;
     inside_margin_correct := true;
     outside_margin_correct := true;
     top_margin_correct := true;
     bottom_margin_correct := true;
     fonts_embedded := true;
     page_count := 20;
     page_count_warning := true;
     offer_page_present := true;
     violations := [] |}.


(** A heading and a divider, and what rendering them in [sampleContext]
    gives. *)
Definition sampleHeading : DocumentBlock := plainBlock heading "Day 1".

Definition headingStyle : TextStyle :=
  mkTextStyle bold HEADING BLOCK_SPACING false.


(** A document of 151 logical pages that take one physical page each at a
    content width of 378pt and two at 369pt.  Under [fixedPitch] a line of
    a title holds 31 bytes at 378pt and 30 at 369pt, so the nine pairs of
    15-byte words make 9 lines at the first width and 18 at the second,
    which takes the cursor below the content floor before the divider. *)
Definition letters (n : nat) : string :=
  string_of_list_ascii (repeat "a"%char n).

Definition spillText : string :=
  String.concat " " (repeat (letters 15 ++ " " ++ letters 15)%string 9).

Definition spillPage : DocumentPage :=
  {| blocks := [plainBlock title spillText; plainBlock divider EmptyString];
     starts_new_page := None; page_number_style := Some arabic |}.

Definition spillDocument : DocumentRepresentation :=
  {| doc_title := "Spill"; doc_subtitle := None;
     front_matter := []; content_pages := repeat spillPage 151;
     has_toc := false; has_day7 := false; total_estimated_pages := None |}.

(** The result of a call that returned one. *)
Definition returned (o : Result PDFEngineResult.t) : PDFEngineResult.t :=
  match o with
  | Ok r => r
  | Throw _ =>
      PDFEngineResult.mk [] 0 EmptyString
        (mkResult false false false false false false false 0 false false [])
  end.

(** What the relaxed run of [spillDocument] returns. *)
Definition spillRelaxed : PDFEngineResult.t :=
  returned (outcome (generatePDF fixedPitch countingSave spillDocument
                                 personal)).

(** [noOfferDocument] with a closing page that has the letters of the
    marker inside another word. *)
Definition profferedDocument : DocumentRepresentation :=
  {| doc_title := "Grace in the Ordinary"; doc_subtitle := None;
     front_matter := front_matter noOfferDocument;
     content_pages :=
       content_pages noOfferDocument
         ++ [ {| blocks := [plainBlock body_text "He proffered his hand."];
                 starts_new_page := Some true;
                 page_number_style := Some arabic |} ];
     has_toc := false; has_day7 := false; total_estimated_pages := None |}.


(** A book with a one-page Roman preface and the 49 dividers of
    [dividerPage] as its Arabic content. *)
Definition prefaceDocument : DocumentRepresentation :=
  {| doc_title := "Dividers"; doc_subtitle := None;
     front_matter :=
       [ {| blocks := [plainBlock heading "Preface"];
            starts_new_page := Some true;
            page_number_style := Some roman |} ];
     content_pages := [dividerPage];
     has_toc := false; has_day7 := false; total_estimated_pages := None |}.


(** The front matter of [noOfferDocumentFlipped] alone. *)
Definition titleOnlyDocument : DocumentRepresentation :=
  {| doc_title := "Grace in the Ordinary"; doc_subtitle := None;
     front_matter := front_matter noOfferDocumentFlipped;
     content_pages := [];
     has_toc := false; has_day7 := false; total_estimated_pages := None |}.


(** One Arabic logical page: 23 dividers take the cursor from 621pt to
    69pt, a one-line block quote takes it to 45.6pt, below the content
    floor of 57pt, and the footnote of the quote follows. *)
Definition strandedFootnoteDocument : DocumentRepresentation :=
  {| doc_title := "Stranded footnote"; doc_subtitle := None;
     front_matter := [];
     content_pages :=
       [ {| blocks :=
              repeat (plainBlock divider EmptyString) 23
                ++ [ plainBlock block_quote
                       "For by grace you have been saved through faith.";
                     plainBlock footnote "Ephesians 2:8" ];
            starts_new_page := None;
            page_number_style := Some arabic |} ];
     has_toc := false; has_day7 := false; total_estimated_pages := None |}.

(** One Arabic logical page holding 25 footnotes. *)
Definition crowdedFootnoteDocument : DocumentRepresentation :=
  {| doc_title := "Crowded footnotes"; doc_subtitle := None;
     front_matter := [];
     content_pages :=
       [ {| blocks := repeat (plainBlock footnote "Ephesians 2:8") 25;
            starts_new_page := None;
            page_number_style := Some arabic |} ];
     has_toc := false; has_day7 := false; total_estimated_pages := None |}.


(** A prompt list whose middle line holds a no-break space (U+00A0, the
    bytes C2 A0) and nothing else. *)
Definition noBreakSpace : string :=
  String (ascii_of_nat 194) (String (ascii_of_nat 160) EmptyString).

Definition spacedPromptList : DocumentBlock :=
  plainBlock prompt_list
             ("Pray" ++ String newline noBreakSpace
                     ++ String newline "Rest")%string.

Definition promptStyle : TextStyle :=
  mkTextStyle regular BODY BLOCK_SPACING false.


(* ------------------------------------------------------------------ *)
(** * Properties *)

(** ** Numbers *)

Lemma Qlt_bool_iff (a b : Q) : Qlt_bool a b = true <-> (a < b)%Q.
Proof.
  unfold Qlt_bool. rewrite negb_true_iff. split; intro H.
  - apply Qnot_le_lt. intro Hle. apply Qle_bool_iff in Hle. congruence.
  - destruct (Qle_bool b a) eqn:E; [|reflexivity].
    apply Qle_bool_iff in E. exfalso. exact (Qle_not_lt _ _ E H).
Qed.

Lemma Qlt_bool_false_iff (a b : Q) : Qlt_bool a b = false <-> (b <= a)%Q.
Proof.
  unfold Qlt_bool. rewrite negb_false_iff. apply Qle_bool_iff.
Qed.

(** ** Margin resolver *)

Section MarginFacts.

Open Scope Z_scope.

Lemma calculateMargins_ok (P : Z) :
  P <= 828 -> calculateMargins P = Ok (marginsWith (insideFor P)).
Proof.
  intro H. unfold calculateMargins, insideFor.
  cbn [INSIDE_MARGIN_BRACKETS firstBracket maxPages bracket_inside].
  destruct (Z.leb_spec P 150); [reflexivity|].
  destruct (Z.leb_spec P 300); [reflexivity|].
  destruct (Z.leb_spec P 500); [reflexivity|].
  destruct (Z.leb_spec P 700); [reflexivity|].
  destruct (Z.leb_spec P 828); [reflexivity|lia].
Qed.

Lemma calculateMargins_throws (P : Z) :
  828 < P ->
  calculateMargins P =
  Throw (RangeError ("Page count " ++ String_of_Z P
                       ++ " exceeds KDP maximum of 828 pages.")).
Proof.
  intro H. unfold calculateMargins.
  cbn [INSIDE_MARGIN_BRACKETS firstBracket maxPages].
  destruct (Z.leb_spec P 150); [lia|].
  destruct (Z.leb_spec P 300); [lia|].
  destruct (Z.leb_spec P 500); [lia|].
  destruct (Z.leb_spec P 700); [lia|].
  destruct (Z.leb_spec P 828); [lia|reflexivity].
Qed.

Lemma calculateMargins_ok_inv (P : Z) (m : KDPMargins) :
  calculateMargins P = Ok m -> P <= 828 /\ m = marginsWith (insideFor P).
Proof.
  intro H. destruct (Z.le_gt_cases P 828) as [Hle|Hgt].
  - split; [exact Hle|]. rewrite (calculateMargins_ok _ Hle) in H. congruence.
  - rewrite (calculateMargins_throws _ Hgt) in H. discriminate.
Qed.

Lemma insideFor_monotone (P1 P2 : Z) :
  P1 <= P2 -> (insideFor P1 <= insideFor P2)%Q.
Proof.
  intro H. unfold insideFor.
  destruct (Z.leb_spec P1 150); destruct (Z.leb_spec P2 150);
  destruct (Z.leb_spec P1 300); destruct (Z.leb_spec P2 300);
  destruct (Z.leb_spec P1 500); destruct (Z.leb_spec P2 500);
  destruct (Z.leb_spec P1 700); destruct (Z.leb_spec P2 700);
  try lia; unfold Qle; simpl; lia.
Qed.

Lemma describeMarginBracket_ok (P : Z) :
  P <= 828 -> exists label, describeMarginBracket P = Ok label.
Proof.
  intro H. unfold describeMarginBracket.
  cbn [INSIDE_MARGIN_BRACKETS List.length describeLoop Nat.add nth bracketEdges].
  destruct (Z.leb_spec P 150); [eexists; reflexivity|].
  destruct (Z.leb_spec P 300); [eexists; reflexivity|].
  destruct (Z.leb_spec P 500); [eexists; reflexivity|].
  destruct (Z.leb_spec P 700); [eexists; reflexivity|].
  destruct (Z.leb_spec P 828); [eexists; reflexivity|lia].
Qed.

End MarginFacts.

(** C5.  [calculateMargins] is a non-decreasing step function of the page
    count: for page counts [P1 <= P2 <= 828] it returns margins whose inside
    value does not decrease; whenever it returns, the outside, top and bottom
    margins are 0.375in; and across each bracket edge (150/151, 300/301,
    500/501, 700/701) the inside margin grows by exactly 0.125in. *)
Theorem calculateMargins_monotone_step :
  (forall P1 P2 : Z,
      (P1 <= P2)%Z -> (P2 <= 828)%Z ->
      exists m1 m2,
        calculateMargins P1 = Ok m1 /\ calculateMargins P2 = Ok m2 /\
        (inside m1 <= inside m2)%Q)
  /\ (forall (P : Z) (m : KDPMargins),
         calculateMargins P = Ok m ->
         outside m = 0.375%Q /\ top m = 0.375%Q /\ bottom m = 0.375%Q)
  /\ (forall edge : Z,
         In edge [150; 300; 500; 700]%Z ->
         exists lo hi,
           calculateMargins edge = Ok lo /\
           calculateMargins (edge + 1) = Ok hi /\
           (inside hi - inside lo == 0.125)%Q).
Proof.
  split; [|split].
  - intros P1 P2 H12 H2.
    exists (marginsWith (insideFor P1)), (marginsWith (insideFor P2)).
    split; [apply calculateMargins_ok; lia|].
    split; [apply calculateMargins_ok; lia|].
    simpl. apply insideFor_monotone. exact H12.
  - intros P m H. apply calculateMargins_ok_inv in H. destruct H as [_ ->].
    simpl. repeat split.
  - intros edge Hin. simpl in Hin.
    destruct Hin as [<-|[<-|[<-|[<-|[]]]]];
      (eexists; eexists; split; [reflexivity|split; [reflexivity|]];
       simpl; reflexivity).
Qed.

Lemma calculateMargins_monotone_step_witness :
  exists m1 m2,
    calculateMargins 150 = Ok m1 /\ calculateMargins 501 = Ok m2 /\
    (inside m1 <= inside m2)%Q.
Proof.
  apply (proj1 calculateMargins_monotone_step 150%Z 501%Z); lia.
Defined.

(** ** Compliance checker *)

Section ComplianceFacts.

Lemma isEmpty_pushIf (c : bool) (v : Violation) (l : list Violation) :
  isEmpty (pushIf c v l) = (isEmpty l && negb c)%bool.
Proof.
  unfold pushIf. destruct c; destruct l; reflexivity.
Qed.

Lemma length_pushIf (c : bool) (v : Violation) (l : list Violation) :
  List.length (pushIf c v l) =
  (List.length l + (if c then 1 else 0))%nat.
Proof.
  unfold pushIf. destruct c.
  - rewrite length_app. reflexivity.
  - lia.
Qed.

Lemma isEmpty_true_iff (l : list Violation) : isEmpty l = true <-> l = [].
Proof.
  destruct l; simpl; split; intro H; congruence.
Qed.

Lemma checkCompliance_returns (input : KDPComplianceInput) :
  (Compliance.pageCount input <= 828)%Z ->
  exists r, checkCompliance input = Ok r.
Proof.
  intro H. unfold checkCompliance.
  rewrite (calculateMargins_ok _ H). eexists. reflexivity.
Qed.

Lemma checkCompliance_page_count (input : KDPComplianceInput)
      (r : KDPComplianceResult) :
  checkCompliance input = Ok r ->
  (Compliance.pageCount input <= 828)%Z /\
  page_count r = Compliance.pageCount input /\
  page_count_warning r = (Compliance.pageCount input <? 24)%Z.
Proof.
  unfold checkCompliance. intro H.
  destruct (calculateMargins (Compliance.pageCount input)) as [m|e] eqn:E;
    [|discriminate].
  apply calculateMargins_ok_inv in E. destruct E as [Hle _].
  injection H as <-. simpl. auto.
Qed.

Lemma checkCompliance_passes_iff (input : KDPComplianceInput)
      (r : KDPComplianceResult) :
  checkCompliance input = Ok r ->
  (passes r = true <-> violations r = []).
Proof.
  unfold checkCompliance. intro H.
  destruct (calculateMargins (Compliance.pageCount input)) as [m|e];
    [|discriminate].
  injection H as <-. cbn [passes violations]. apply isEmpty_true_iff.
Qed.

Lemma checkCompliance_violation_count (input : KDPComplianceInput)
      (r : KDPComplianceResult) :
  checkCompliance input = Ok r ->
  List.length (violations r) = failedRules r.
Proof.
  unfold checkCompliance. intro H.
  destruct (calculateMargins (Compliance.pageCount input)) as [m|e];
    [|discriminate].
  injection H as <-. unfold failedRules.
  cbn [violations trim_size_correct inside_margin_correct
       outside_margin_correct top_margin_correct bottom_margin_correct
       fonts_embedded offer_page_present].
  rewrite !length_pushIf. cbn [List.length].
  destruct (forallb _ _), (Qge_bool (Compliance.insideMarginIn input) _),
    (Qge_bool (Compliance.outsideMarginIn input) _),
    (Qge_bool (Compliance.topMarginIn input) _),
    (Qge_bool (Compliance.bottomMarginIn input) _),
    (fontsEmbedded input), (Compliance.outputMode input),
    (offerPagePresent input); reflexivity.
Qed.

(** The outcome of the offer-page rule, in each mode. *)
Lemma checkCompliance_offer_rule (input : KDPComplianceInput)
      (r : KDPComplianceResult) :
  checkCompliance input = Ok r ->
  match Compliance.outputMode input with
  | personal =>
      offer_page_present r = true /\ ~ In OfferPageNotFinal (violations r)
  | publish_ready =>
      offer_page_present r = offerPagePresent input /\
      (offerPagePresent input = false ->
       In OfferPageNotFinal (violations r) /\ passes r = false)
  end.
Proof.
  unfold checkCompliance. intro H.
  destruct (calculateMargins (Compliance.pageCount input)) as [m|e];
    [|discriminate].
  injection H as <-. cbn [offer_page_present violations passes].
  destruct (Compliance.outputMode input); cbn [isPublishReady andb].
  - split; [reflexivity|]. cbn [pushIf].
    unfold pushIf. intro Hin.
    repeat match type of Hin with
           | context [if ?c then _ else _] => destruct c
           end;
    repeat (apply in_app_or in Hin; destruct Hin as [Hin|Hin]);
    simpl in Hin; repeat (destruct Hin as [Hin|Hin]; try discriminate);
    try contradiction.
  - split; [reflexivity|]. intros ->. cbn [negb].
    split.
    + unfold pushIf at 1. apply in_or_app. right. left. reflexivity.
    + rewrite isEmpty_pushIf. cbn [negb]. apply andb_false_r.
Qed.

End ComplianceFacts.

(** ** Layout state machine *)

Section LayoutFacts.

Variable w : Metric.
Variables insideIn outsideIn topIn bottomIn : Q.

Local Abbreviation finalize' :=
  (finalizeCurrentPage w insideIn outsideIn bottomIn).
Local Abbreviation advance' :=
  (advancePage w insideIn outsideIn topIn bottomIn).
Local Abbreviation overflow' :=
  (overflowCheck w insideIn outsideIn topIn bottomIn).
Local Abbreviation render' := (renderInto w insideIn outsideIn).
Local Abbreviation process' :=
  (processBlock w insideIn outsideIn topIn bottomIn).
Local Abbreviation blocks' :=
  (layoutBlocks w insideIn outsideIn topIn bottomIn).
Local Abbreviation top' := (topCursor insideIn topIn).

Lemma renderInto_frame (b : DocumentBlock) (s : LayoutState.t) :
  LayoutState.finishedPages (render' b s) = LayoutState.finishedPages s /\
  LayoutState.pageDimensions (render' b s) = LayoutState.pageDimensions s /\
  LayoutState.pdfPageCount (render' b s) = LayoutState.pdfPageCount s /\
  LayoutState.currentStyle (render' b s) = LayoutState.currentStyle s /\
  LayoutState.romanCounter (render' b s) = LayoutState.romanCounter s /\
  LayoutState.arabicCounter (render' b s) = LayoutState.arabicCounter s.
Proof.
  unfold renderInto. destruct (renderBlock w b _) as [ctx' result].
  cbn. repeat split.
Qed.

Lemma finalize_frame (s : LayoutState.t) :
  LayoutState.finishedPages (finalize' s) = LayoutState.finishedPages s /\
  LayoutState.pageDimensions (finalize' s) = LayoutState.pageDimensions s /\
  LayoutState.pdfPageCount (finalize' s) = LayoutState.pdfPageCount s /\
  LayoutState.cursor (finalize' s) = LayoutState.cursor s /\
  LayoutState.pendingFootnotes (finalize' s) = [] /\
  LayoutState.currentStyle (finalize' s) = LayoutState.currentStyle s /\
  LayoutState.romanCounter (finalize' s) = LayoutState.romanCounter s /\
  LayoutState.arabicCounter (finalize' s) = LayoutState.arabicCounter s.
Proof.
  unfold finalizeCurrentPage. cbn. repeat split.
Qed.

(** What [advancePage style false] leaves behind: the finalized page joins
    the document, a blank page is current, the counters are untouched. *)
Lemma advancePage_no_increment (style : PageNumberStyle) (s : LayoutState.t) :
  let s' := advance' style false s in
  LayoutState.finishedPages s' =
    LayoutState.finishedPages s ++ [LayoutState.currentPage (finalize' s)] /\
  LayoutState.currentPage s' = newPage /\
  LayoutState.pdfPageCount s' = (LayoutState.pdfPageCount s + 1)%Z /\
  LayoutState.pendingFootnotes s' = [] /\
  LayoutState.currentStyle s' = style /\
  LayoutState.romanCounter s' = LayoutState.romanCounter s /\
  LayoutState.arabicCounter s' = LayoutState.arabicCounter s.
Proof.
  unfold advancePage. cbn. repeat split.
Qed.

Lemma incrementCounter_counters (style : PageNumberStyle) (s : LayoutState.t) :
  LayoutState.romanCounter (incrementCounter style s) =
    (LayoutState.romanCounter s
     + match style with roman => 1 | _ => 0 end)%Z /\
  LayoutState.arabicCounter (incrementCounter style s) =
    (LayoutState.arabicCounter s
     + match style with arabic => 1 | _ => 0 end)%Z.
Proof.
  destruct style; cbn; split; lia.
Qed.

Lemma incrementCounter_frame (style : PageNumberStyle) (s : LayoutState.t) :
  LayoutState.finishedPages (incrementCounter style s)
    = LayoutState.finishedPages s /\
  LayoutState.currentPage (incrementCounter style s)
    = LayoutState.currentPage s /\
  LayoutState.pdfPageCount (incrementCounter style s)
    = LayoutState.pdfPageCount s /\
  LayoutState.pendingFootnotes (incrementCounter style s)
    = LayoutState.pendingFootnotes s /\
  LayoutState.currentStyle (incrementCounter style s)
    = LayoutState.currentStyle s /\
  LayoutState.cursor (incrementCounter style s) = LayoutState.cursor s.
Proof.
  destruct style; cbn; repeat split.
Qed.

(** The state after an overflow: the finalized page joins the document, a
    blank page is current, the counter of the style is one higher. *)
Lemma overflow_advance (style : PageNumberStyle) (s : LayoutState.t) :
  let s' :=
    LayoutState.set_cursor top'
      (incrementCounter style (advance' style false s)) in
  LayoutState.finishedPages s' =
    LayoutState.finishedPages s ++ [LayoutState.currentPage (finalize' s)] /\
  LayoutState.currentPage s' = newPage /\
  LayoutState.pdfPageCount s' = (LayoutState.pdfPageCount s + 1)%Z /\
  LayoutState.cursor s' = top' /\
  LayoutState.pendingFootnotes s' = [] /\
  LayoutState.currentStyle s' = style /\
  LayoutState.romanCounter s' =
    (LayoutState.romanCounter s
     + match style with roman => 1 | _ => 0 end)%Z /\
  LayoutState.arabicCounter s' =
    (LayoutState.arabicCounter s
     + match style with arabic => 1 | _ => 0 end)%Z.
Proof.
  destruct style; cbn; repeat split; lia.
Qed.

(** The two outcomes of the overflow check. *)
Lemma overflowCheck_cases (style : PageNumberStyle) (s : LayoutState.t) :
  ((cursor_y (LayoutState.cursor s) < contentFloorY bottomIn)%Q /\
   overflow' style s =
   LayoutState.set_cursor top'
     (incrementCounter style (advance' style false s)))
  \/ ((contentFloorY bottomIn <= cursor_y (LayoutState.cursor s))%Q /\
      overflow' style s = s).
Proof.
  unfold overflowCheck.
  destruct (Qlt_bool _ _) eqn:E.
  - left. split; [apply Qlt_bool_iff; exact E|reflexivity].
  - right. split; [apply Qlt_bool_false_iff; exact E|reflexivity].
Qed.

Lemma pageNumberDrawn_arabic (p : PDFPage) (n : Z) (x cw y : Q) :
  pageNumberDrawn (drawPageNumber w p arabic n fonts x cw y)
  = Some (String_of_Z n).
Proof.
  unfold pageNumberDrawn, drawPageNumber, draw. cbn [operations].
  rewrite rev_app_distr. reflexivity.
Qed.

Lemma numbersUpTo_S (n : nat) :
  numbersUpTo (S n) = numbersUpTo n ++ [Some (String_of_Z (Z.of_nat (S n)))].
Proof.
  unfold numbersUpTo. rewrite seq_S, map_app. reflexivity.
Qed.

Lemma finalize_arabic_number (s : LayoutState.t) :
  LayoutState.currentStyle s = arabic ->
  pageNumberDrawn (LayoutState.currentPage (finalize' s))
  = Some (String_of_Z (LayoutState.arabicCounter s)).
Proof.
  intro H. unfold finalizeCurrentPage. cbn [LayoutState.currentPage].
  rewrite H. apply pageNumberDrawn_arabic.
Qed.

Lemma arabicRun_process (b : DocumentBlock) (s : LayoutState.t) :
  isPageBreak (block_type b) = false ->
  arabicRun s -> arabicRun (process' arabic b s).
Proof.
  intros Hb (Hst & Hc & Hn & Hm). unfold processBlock. rewrite Hb.
  destruct (renderInto_frame b (overflow' arabic s))
    as (Ef & _ & En & Es & _ & Ea).
  unfold arabicRun. rewrite Ef, En, Es, Ea.
  destruct (overflowCheck_cases arabic s) as [[_ ->]|[_ ->]].
  - destruct (overflow_advance arabic s)
      as (Ff & _ & Fn & _ & _ & Fs & _ & Fa).
    rewrite Ff, Fn, Fs, Fa, length_app, map_app. cbn [List.length map].
    rewrite Nat.add_1_r, numbersUpTo_S, Hm, (finalize_arabic_number s Hst), Hc.
    repeat split; lia.
  - repeat split; assumption.
Qed.

Lemma arabicRun_blocks (bs : list DocumentBlock) (s : LayoutState.t) :
  noPageBreak bs -> arabicRun s -> arabicRun (blocks' arabic bs s).
Proof.
  intro H. revert s. induction H as [|b bs Hb _ IH]; intros s Hs.
  - exact Hs.
  - cbn [layoutBlocks]. apply IH. apply arabicRun_process; assumption.
Qed.

Lemma arabicRun_numbers (s : LayoutState.t) :
  arabicRun s ->
  map pageNumberDrawn
      (LayoutState.finishedPages (finalize' s)
         ++ [LayoutState.currentPage (finalize' s)])
  = numbersUpTo (Z.to_nat (LayoutState.pdfPageCount (finalize' s))).
Proof.
  intros (Hst & Hc & Hn & Hm).
  destruct (finalize_frame s) as (Ef & _ & En & _).
  rewrite Ef, En, Hn, Nat2Z.id, numbersUpTo_S, map_app, Hm.
  cbn [map]. rewrite (finalize_arabic_number s Hst), Hc. reflexivity.
Qed.

End LayoutFacts.

(** C1.  Within a logical page, an explicit [page_break] block closes the
    current physical page and opens a new one under the same numbering
    style with both counters unchanged, whereas a content block met with the
    cursor below the content floor closes the page, opens a new one under
    the same style and raises that style's counter by exactly one.  Hence a
    document made of one Arabic logical page without page breaks that is
    laid out on three physical pages carries the numbers 1, 2, 3. *)
Theorem page_break_keeps_counter_overflow_increments
        (w : Metric) (insideIn outsideIn topIn bottomIn : Q) :
  let process := processBlock w insideIn outsideIn topIn bottomIn in
  let closed s :=
    LayoutState.currentPage
      (finalizeCurrentPage w insideIn outsideIn bottomIn s) in
  (forall (pageStyle : PageNumberStyle) (b : DocumentBlock)
          (s : LayoutState.t),
      isPageBreak (block_type b) = true ->
      let s' := process pageStyle b s in
      LayoutState.finishedPages s' = LayoutState.finishedPages s ++ [closed s]
      /\ LayoutState.currentPage s' = newPage
      /\ LayoutState.pdfPageCount s' = (LayoutState.pdfPageCount s + 1)%Z
      /\ LayoutState.currentStyle s' = pageStyle
      /\ LayoutState.romanCounter s' = LayoutState.romanCounter s
      /\ LayoutState.arabicCounter s' = LayoutState.arabicCounter s)
  /\ (forall (pageStyle : PageNumberStyle) (b : DocumentBlock)
             (s : LayoutState.t),
         isPageBreak (block_type b) = false ->
         (cursor_y (LayoutState.cursor s) < contentFloorY bottomIn)%Q ->
         let s' := process pageStyle b s in
         LayoutState.finishedPages s'
           = LayoutState.finishedPages s ++ [closed s]
         /\ LayoutState.pdfPageCount s' = (LayoutState.pdfPageCount s + 1)%Z
         /\ LayoutState.currentStyle s' = pageStyle
         /\ LayoutState.romanCounter s' =
              (LayoutState.romanCounter s
               + match pageStyle with roman => 1 | _ => 0 end)%Z
         /\ LayoutState.arabicCounter s' =
              (LayoutState.arabicCounter s
               + match pageStyle with arabic => 1 | _ => 0 end)%Z)
  /\ (forall (document : DocumentRepresentation) (mode : OutputMode)
             (docPage : DocumentPage),
         front_matter document ++ content_pages document = [docPage] ->
         pageStyleOf docPage = arabic ->
         noPageBreak (blocks docPage) ->
         let layout :=
           renderLayout w insideIn outsideIn topIn bottomIn document mode in
         LayoutResult.pageCount layout = 3%Z ->
         map pageNumberDrawn (LayoutResult.doc layout)
         = [Some "1"; Some "2"; Some "3"]%string).
Proof.
  cbv zeta. split; [|split].
  - intros pageStyle b s Hb. unfold processBlock. rewrite Hb.
    destruct (advancePage_no_increment w insideIn outsideIn topIn bottomIn
                                       pageStyle s)
      as (Ef & Ep & En & _ & Es & Er & Ea).
    cbn [LayoutState.set_cursor LayoutState.finishedPages
         LayoutState.currentPage LayoutState.pdfPageCount
         LayoutState.currentStyle LayoutState.romanCounter
         LayoutState.arabicCounter].
    auto 10.
  - intros pageStyle b s Hb Hlow. unfold processBlock. rewrite Hb.
    destruct (renderInto_frame w insideIn outsideIn b
                (overflowCheck w insideIn outsideIn topIn bottomIn
                               pageStyle s))
      as (Ef & _ & En & Es & Er & Ea).
    rewrite Ef, En, Es, Er, Ea.
    destruct (overflowCheck_cases w insideIn outsideIn topIn bottomIn
                                  pageStyle s) as [[_ ->]|[Hge _]].
    + destruct (overflow_advance w insideIn outsideIn topIn bottomIn
                                 pageStyle s)
        as (Ff & _ & Fn & _ & _ & Fs & Fr & Fa).
      auto 10.
    + exfalso. exact (Qle_not_lt _ _ Hge Hlow).
  - intros document mode docPage Hpages Hstyle Hnb Hcount.
    unfold renderLayout, finalState in *.
    cbn [LayoutResult.pageCount LayoutResult.doc] in *.
    rewrite Hpages in *. cbn [layoutDocPages] in *.
    unfold layoutDocPage in *. rewrite Hstyle in *.
    match type of Hcount with
    | LayoutState.pdfPageCount (finalizeCurrentPage _ _ _ _ ?s) = _ =>
        assert (Hrun : arabicRun s)
    end.
    { apply arabicRun_blocks; [exact Hnb|].
      unfold arabicRun. cbn. repeat split. }
    rewrite (arabicRun_numbers w insideIn outsideIn bottomIn _ Hrun), Hcount.
    reflexivity.
Qed.

Lemma page_break_keeps_counter_overflow_increments_witness :
  map pageNumberDrawn
      (LayoutResult.doc
         (renderLayout fixedPitch 0.375 0.375 0.375 0.375
                       dividerDocument personal))
  = [Some "1"; Some "2"; Some "3"]%string.
Proof.
  apply (proj2 (proj2 (page_break_keeps_counter_overflow_increments
                         fixedPitch 0.375 0.375 0.375 0.375))
               dividerDocument personal dividerPage).
  - reflexivity.
  - reflexivity.
  - apply Forall_forall. intros b Hb. apply repeat_spec in Hb.
    rewrite Hb. reflexivity.
  - vm_compute. reflexivity.
Defined.

(** C4.  Before any block other than a [page_break] is drawn, the engine
    compares the cursor with the content floor (bottom margin, plus the
    height reserved for the page number and footnote separator, plus 10pt):
    when the cursor is below it the current physical page is finalized and
    a blank one opened, with the cursor at the top of the content area, and
    only then is the block rendered.  With the margins [generatePDF] lays
    out with (top and bottom always 0.375in) the floor is below the top of
    the content area, so the cursor a block is rendered at is never below
    the floor. *)
Theorem overflow_check_precedes_drawing
        (w : Metric) (insideIn outsideIn topIn bottomIn : Q) :
  (contentFloorY 0.375 <= contentTopY 0.375)%Q
  /\ (forall (P : Z) (m : KDPMargins),
         calculateMargins P = Ok m ->
         (contentFloorY (bottom m) <= contentTopY (top m))%Q)
  /\ ((contentFloorY bottomIn <= contentTopY topIn)%Q ->
      forall (pageStyle : PageNumberStyle) (b : DocumentBlock)
             (s : LayoutState.t),
        isPageBreak (block_type b) = false ->
        let s1 :=
          overflowCheck w insideIn outsideIn topIn bottomIn pageStyle s in
        processBlock w insideIn outsideIn topIn bottomIn pageStyle b s
          = renderInto w insideIn outsideIn b s1
        /\ (contentFloorY bottomIn <= cursor_y (LayoutState.cursor s1))%Q
        /\ (bottomPt bottomIn + PAGE_NUMBER_HEIGHT_PT
              <= cursor_y (LayoutState.cursor s1))%Q
        /\ ((cursor_y (LayoutState.cursor s) < contentFloorY bottomIn)%Q ->
            LayoutState.finishedPages s1 =
              LayoutState.finishedPages s
                ++ [LayoutState.currentPage
                      (finalizeCurrentPage w insideIn outsideIn bottomIn s)]
            /\ LayoutState.currentPage s1 = newPage
            /\ LayoutState.cursor s1 = topCursor insideIn topIn)
        /\ ((contentFloorY bottomIn <= cursor_y (LayoutState.cursor s))%Q ->
            s1 = s)).
Proof.
  split; [vm_compute; discriminate|].
  split.
  { intros P m H. apply calculateMargins_ok_inv in H. destruct H as [_ ->].
    vm_compute. discriminate. }
  intros Hroom pageStyle b s Hb. cbv zeta.
  split; [unfold processBlock; rewrite Hb; reflexivity|].
  assert (Hfloor : (contentFloorY bottomIn
                    <= cursor_y
                         (LayoutState.cursor
                            (overflowCheck w insideIn outsideIn topIn bottomIn
                                           pageStyle s)))%Q).
  { destruct (overflowCheck_cases w insideIn outsideIn topIn bottomIn
                                  pageStyle s) as [[_ ->]|[Hge ->]].
    - exact Hroom.
    - exact Hge. }
  split; [exact Hfloor|].
  split.
  { eapply Qle_trans; [|exact Hfloor]. unfold contentFloorY.
    rewrite <- (Qplus_0_r (bottomPt bottomIn + PAGE_NUMBER_HEIGHT_PT)) at 1.
    apply Qplus_le_r. discriminate. }
  split.
  - intro Hlow.
    destruct (overflowCheck_cases w insideIn outsideIn topIn bottomIn
                                  pageStyle s) as [[_ ->]|[Hge _]].
    + destruct (overflow_advance w insideIn outsideIn topIn bottomIn
                                 pageStyle s)
        as (Ff & Fp & _ & Fc & _).
      auto.
    + exfalso. exact (Qle_not_lt _ _ Hge Hlow).
  - intro Hge.
    destruct (overflowCheck_cases w insideIn outsideIn topIn bottomIn
                                  pageStyle s) as [[Hlow _]|[_ ->]].
    + exfalso. exact (Qle_not_lt _ _ Hge Hlow).
    + reflexivity.
Qed.

Lemma overflow_check_precedes_drawing_witness :
  let b := plainBlock body_text "Grace" in
  let s := belowFloorState in
  let s1 := overflowCheck fixedPitch 0.375 0.375 0.375 0.375 arabic s in
  processBlock fixedPitch 0.375 0.375 0.375 0.375 arabic b s
    = renderInto fixedPitch 0.375 0.375 b s1
  /\ (contentFloorY 0.375 <= cursor_y (LayoutState.cursor s1))%Q
  /\ (bottomPt 0.375 + PAGE_NUMBER_HEIGHT_PT
        <= cursor_y (LayoutState.cursor s1))%Q
  /\ ((cursor_y (LayoutState.cursor s) < contentFloorY 0.375)%Q ->
      LayoutState.finishedPages s1 =
        LayoutState.finishedPages s
          ++ [LayoutState.currentPage
                (finalizeCurrentPage fixedPitch 0.375 0.375 0.375 s)]
      /\ LayoutState.currentPage s1 = newPage
      /\ LayoutState.cursor s1 = topCursor 0.375 0.375)
  /\ ((contentFloorY 0.375 <= cursor_y (LayoutState.cursor s))%Q -> s1 = s).
Proof.
  apply (proj2 (proj2 (overflow_check_precedes_drawing
                         fixedPitch 0.375 0.375 0.375 0.375))).
  - vm_compute. discriminate.
  - reflexivity.
Defined.

(** ** The two-pass protocol of [generatePDF] *)

Section EngineFacts.

Variable w : Metric.
Variable save : list PDFPage -> list Init.Byte.byte.

Lemma renderLayout_ignores_mode (i o t b : Q)
      (document : DocumentRepresentation) (m1 m2 : OutputMode) :
  renderLayout w i o t b document m1 = renderLayout w i o t b document m2.
Proof. reflexivity. Qed.

Lemma usePass1_iff (P : Z) :
  Qlt_bool (Qabs (insideFor P - 0.375)) 0.001 = (P <=? 150)%Z.
Proof.
  unfold insideFor.
  destruct (P <=? 150)%Z; [reflexivity|].
  destruct (P <=? 300)%Z; [reflexivity|].
  destruct (P <=? 500)%Z; [reflexivity|].
  destruct (P <=? 700)%Z; reflexivity.
Qed.

(** The three ways a call of [generatePDF] can go, by the page count of
    pass one. *)
Lemma generatePDF_cases (document : DocumentRepresentation)
      (mode : OutputMode) :
  let P := LayoutResult.pageCount (passOne w document mode) in
  ((828 < P)%Z /\
   generatePDF w save document mode =
   mkRun [passOne w document mode]
         (Throw (RangeError ("Page count " ++ String_of_Z P
                               ++ " exceeds KDP maximum of 828 pages."))))
  \/ ((P <= 150)%Z /\
      exists bracket,
        generatePDF w save document mode =
        finish save [passOne w document mode] (passOne w document mode)
               bracket document mode)
  \/ ((150 < P <= 828)%Z /\
      exists bracket,
        generatePDF w save document mode =
        finish save [passOne w document mode; passTwo w P document mode]
               (passTwo w P document mode) bracket document mode).
Proof.
  cbv zeta. unfold generatePDF. fold (passOne w document mode).
  set (P := LayoutResult.pageCount (passOne w document mode)).
  destruct (Z.le_gt_cases P 828) as [Hle|Hgt].
  - right. rewrite (calculateMargins_ok _ Hle).
    destruct (describeMarginBracket_ok _ Hle) as [bracket ->].
    cbn [inside outside top bottom marginsWith].
    rewrite usePass1_iff.
    destruct (Z.leb_spec P 150).
    + left. split; [assumption|]. exists bracket. reflexivity.
    + right. split; [lia|]. exists bracket. reflexivity.
  - left. split; [lia|]. rewrite (calculateMargins_throws P) by lia.
    reflexivity.
Qed.

Lemma finish_passes (ran : list LayoutResult.t) (layout : LayoutResult.t)
      (bracket : string) (document : DocumentRepresentation)
      (mode : OutputMode) :
  layoutPasses (finish save ran layout bracket document mode) = ran.
Proof.
  unfold finish. destruct (checkCompliance _); reflexivity.
Qed.

Lemma finish_ok (ran : list LayoutResult.t) (layout : LayoutResult.t)
      (bracket : string) (document : DocumentRepresentation)
      (mode : OutputMode) :
  (LayoutResult.pageCount layout <= 828)%Z ->
  exists r,
    outcome (finish save ran layout bracket document mode) = Ok r /\
    builtFrom save layout document mode r /\
    PDFEngineResult.marginsBracket r = bracket.
Proof.
  intro H. unfold finish.
  destruct (checkCompliance_returns
              (complianceInputOf layout document mode) H) as [c Hc].
  rewrite Hc. eexists. split; [reflexivity|].
  unfold builtFrom. cbn. auto.
Qed.

Lemma finish_throws (ran : list LayoutResult.t) (layout : LayoutResult.t)
      (bracket : string) (document : DocumentRepresentation)
      (mode : OutputMode) :
  (828 < LayoutResult.pageCount layout)%Z ->
  exists e, outcome (finish save ran layout bracket document mode) = Throw e.
Proof.
  intro H. unfold finish, checkCompliance.
  cbn [complianceInputOf Compliance.pageCount].
  rewrite (calculateMargins_throws _ H). eexists. reflexivity.
Qed.

Lemma finish_ok_inv (ran : list LayoutResult.t) (layout : LayoutResult.t)
      (bracket : string) (document : DocumentRepresentation)
      (mode : OutputMode) (r : PDFEngineResult.t) :
  outcome (finish save ran layout bracket document mode) = Ok r ->
  (LayoutResult.pageCount layout <= 828)%Z /\
  builtFrom save layout document mode r.
Proof.
  intro H. destruct (Z.le_gt_cases (LayoutResult.pageCount layout) 828)
    as [Hle|Hgt].
  - split; [exact Hle|].
    destruct (finish_ok ran layout bracket document mode Hle)
      as (r' & Hr' & Hb & _).
    rewrite Hr' in H. injection H as <-. exact Hb.
  - destruct (finish_throws ran layout bracket document mode) as [e He];
      [lia|].
    rewrite He in H. discriminate.
Qed.

Lemma twoPassAsStated_not_above_828 (document : DocumentRepresentation)
      (mode : OutputMode) :
  (828 < LayoutResult.pageCount (passOne w document mode))%Z ->
  ~ twoPassAsStated w save document mode.
Proof.
  intros HP [_ H].
  destruct H as (pass2 & Hran & _).
  - intros (m & Hm & _). apply calculateMargins_ok_inv in Hm. lia.
  - destruct (generatePDF_cases document mode)
      as [[_ E]|[[Hle _]|[[_ Hle] _]]]; [|lia|lia].
    rewrite E in Hran. discriminate.
Qed.

End EngineFacts.

(** C2, as stated, fails on a document whose first pass has more than 828
    pages: [calculateMargins] yields no margin at all, no second pass is run
    and nothing is returned. *)
Lemma twoPassAsStated_fails_above_828 :
  ~ twoPassAsStated fixedPitch countingSave oversizedDocument personal.
Proof.
  apply twoPassAsStated_not_above_828. vm_compute. reflexivity.
Qed.

(** C2 (amended).  [generatePDF] always runs pass one with 0.375in margins,
    and never more than two passes.  When pass one has more than 828 pages
    the call throws after that single pass.  Otherwise, when the inside
    margin [calculateMargins] yields for pass one's page count is 0.375in
    (within 0.001), pass one is the only pass and the result is built from
    its layout; when it is not, exactly one second pass is run with the
    recomputed margins, and the result is built from that layout, the call
    throwing instead when the second pass has more than 828 pages. *)
Theorem generatePDF_two_pass_protocol
        (w : Metric) (save : list PDFPage -> list Init.Byte.byte)
        (document : DocumentRepresentation) (mode : OutputMode) :
  let pass1 := renderLayout w 0.375 0.375 0.375 0.375 document mode in
  let run := generatePDF w save document mode in
  (exists rest, layoutPasses run = pass1 :: rest)
  /\ (List.length (layoutPasses run) <= 2)%nat
  /\ ((828 < LayoutResult.pageCount pass1)%Z ->
      layoutPasses run = [pass1] /\ exists e, outcome run = Throw e)
  /\ (forall m : KDPMargins,
         calculateMargins (LayoutResult.pageCount pass1) = Ok m ->
         if Qlt_bool (Qabs (inside m - 0.375)) 0.001
         then
           layoutPasses run = [pass1] /\
           exists r, outcome run = Ok r /\ builtFrom save pass1 document mode r
         else
           let pass2 :=
             renderLayout w (inside m) (outside m) (top m) (bottom m)
                          document mode in
           layoutPasses run = [pass1; pass2] /\
           ((LayoutResult.pageCount pass2 <= 828)%Z ->
            exists r,
              outcome run = Ok r /\ builtFrom save pass2 document mode r) /\
           ((828 < LayoutResult.pageCount pass2)%Z ->
            exists e, outcome run = Throw e)).
Proof.
  cbv zeta. fold (passOne w document mode).
  destruct (generatePDF_cases w save document mode)
    as [[Hgt E]|[[Hle [bracket E]]|[[Hlo Hhi] [bracket E]]]]; rewrite E.
  - split; [exists []; reflexivity|]. split; [cbn; lia|].
    split; [intros _; split; [reflexivity|eexists; reflexivity]|].
    intros m Hm. apply calculateMargins_ok_inv in Hm. lia.
  - rewrite finish_passes.
    split; [exists []; reflexivity|]. split; [cbn; lia|].
    split; [intro; lia|].
    intros m Hm. apply calculateMargins_ok_inv in Hm. destruct Hm as [_ ->].
    cbn [inside marginsWith]. rewrite usePass1_iff.
    destruct (Z.leb_spec (LayoutResult.pageCount (passOne w document mode)) 150);
      [|lia].
    split; [reflexivity|].
    destruct (finish_ok save [passOne w document mode]
                        (passOne w document mode) bracket document mode)
      as (r & Hr & Hb & _); [lia|].
    exists r. split; assumption.
  - rewrite finish_passes.
    split; [eexists; reflexivity|]. split; [cbn; lia|].
    split; [intro; lia|].
    intros m Hm. apply calculateMargins_ok_inv in Hm. destruct Hm as [_ ->].
    cbn [inside outside top bottom marginsWith]. rewrite usePass1_iff.
    destruct (Z.leb_spec (LayoutResult.pageCount (passOne w document mode)) 150);
      [lia|].
    split; [reflexivity|]. split.
    + intro H2.
      destruct (finish_ok save
                  [passOne w document mode;
                   passTwo w (LayoutResult.pageCount (passOne w document mode))
                           document mode]
                  (passTwo w (LayoutResult.pageCount (passOne w document mode))
                           document mode)
                  bracket document mode H2) as (r & Hr & Hb & _).
      exists r. split; assumption.
    + intro H2. apply finish_throws. exact H2.
Qed.

Lemma generatePDF_two_pass_protocol_witness :
  let run := generatePDF fixedPitch countingSave oversizedDocument personal in
  layoutPasses run
    = [renderLayout fixedPitch 0.375 0.375 0.375 0.375
                    oversizedDocument personal]
  /\ exists e, outcome run = Throw e.
Proof.
  apply (proj1 (proj2 (proj2 (generatePDF_two_pass_protocol
                                fixedPitch countingSave
                                oversizedDocument personal)))).
  vm_compute. reflexivity.
Defined.

(** C6.  A page count above 828 makes [calculateMargins] throw a
    [RangeError] (it is not clamped to the last bracket), and a page count
    of at most 828 makes it return.  Inside [generatePDF] the throw aborts
    the call: when pass one has more than 828 pages the outcome is that
    [RangeError], and a call that returns a result (the only carrier of PDF
    bytes) had at most 828 pages both in pass one and in the layout it
    returns. *)
Theorem page_count_above_828_is_fatal
        (w : Metric) (save : list PDFPage -> list Init.Byte.byte) :
  (forall P : Z,
      (828 < P)%Z ->
      calculateMargins P =
      Throw (RangeError ("Page count " ++ String_of_Z P
                           ++ " exceeds KDP maximum of 828 pages.")))
  /\ (forall P : Z, (P <= 828)%Z -> exists m, calculateMargins P = Ok m)
  /\ (forall (document : DocumentRepresentation) (mode : OutputMode),
         let P :=
           LayoutResult.pageCount
             (renderLayout w 0.375 0.375 0.375 0.375 document mode) in
         (828 < P)%Z ->
         outcome (generatePDF w save document mode) =
         Throw (RangeError ("Page count " ++ String_of_Z P
                              ++ " exceeds KDP maximum of 828 pages.")))
  /\ (forall (document : DocumentRepresentation) (mode : OutputMode)
             (r : PDFEngineResult.t),
         outcome (generatePDF w save document mode) = Ok r ->
         (LayoutResult.pageCount
            (renderLayout w 0.375 0.375 0.375 0.375 document mode)
          <= 828)%Z
         /\ (PDFEngineResult.pageCount r <= 828)%Z).
Proof.
  split; [exact calculateMargins_throws|].
  split; [intros P H; eexists; apply (calculateMargins_ok _ H)|].
  split.
  - intros document mode P HP. subst P. fold (passOne w document mode) in *.
    destruct (generatePDF_cases w save document mode)
      as [[_ E]|[[Hle _]|[[_ Hle] _]]]; [|lia|lia].
    rewrite E. reflexivity.
  - intros document mode r Hr. fold (passOne w document mode).
    destruct (generatePDF_cases w save document mode)
      as [[_ E]|[[Hle [bracket E]]|[[Hlo Hhi] [bracket E]]]];
      rewrite E in Hr.
    + discriminate.
    + apply finish_ok_inv in Hr. destruct Hr as (H1 & _ & H2 & _).
      rewrite H2. lia.
    + apply finish_ok_inv in Hr. destruct Hr as (H1 & _ & H2 & _).
      rewrite H2. lia.
Qed.

Lemma page_count_above_828_is_fatal_witness :
  calculateMargins 829 =
  Throw (RangeError "Page count 829 exceeds KDP maximum of 828 pages.")
  /\ outcome (generatePDF fixedPitch countingSave oversizedDocument
                          publish_ready)
     = Throw (RangeError "Page count 829 exceeds KDP maximum of 828 pages.").
Proof.
  split.
  - apply (proj1 (page_count_above_828_is_fatal fixedPitch countingSave)
                 829%Z).
    reflexivity.
  - apply (proj1 (proj2 (proj2 (page_count_above_828_is_fatal
                                  fixedPitch countingSave)))
                 oversizedDocument publish_ready).
    vm_compute. reflexivity.
Defined.

(** ** Offer page rule and output mode *)

Lemma checkCompliance_mode_sensitivity
      (dims : list (Q * Q)) (pc : Z) (i o t b : Q) (f : bool)
      (rp : KDPComplianceResult) :
  checkCompliance (mkInput dims pc i o t b f false personal) = Ok rp ->
  otherRulesSatisfied rp = true ->
  passes rp = true /\ offer_page_present rp = true /\
  exists rs,
    checkCompliance (mkInput dims pc i o t b f false publish_ready) = Ok rs /\
    passes rs = false /\ offer_page_present rs = false /\
    violations rs = [OfferPageNotFinal].
Proof.
  unfold checkCompliance, otherRulesSatisfied.
  cbn [Compliance.pageDimensions Compliance.pageCount
       Compliance.insideMarginIn Compliance.outsideMarginIn
       Compliance.topMarginIn Compliance.bottomMarginIn fontsEmbedded
       offerPagePresent Compliance.outputMode isPublishReady].
  destruct (calculateMargins pc) as [m|e]; [|discriminate].
  intros H. injection H as <-.
  cbn [trim_size_correct inside_margin_correct outside_margin_correct
       top_margin_correct bottom_margin_correct fonts_embedded passes
       offer_page_present violations].
  destruct (forallb _ dims); [|discriminate].
  destruct (Qge_bool i _); [|discriminate].
  destruct (Qge_bool o _); [|discriminate].
  destruct (Qge_bool t _); [|discriminate].
  destruct (Qge_bool b _); [|discriminate].
  destruct f; [|discriminate].
  intros _. split; [reflexivity|]. split; [reflexivity|].
  eexists. split; [reflexivity|]. repeat split.
Qed.

Section ModeFacts.

Variable w : Metric.
Variable save : list PDFPage -> list Init.Byte.byte.

(** Both modes go through the same layout passes: a call either throws
    before a layout is chosen, in both modes, or finishes from the same
    layout in both. *)
Lemma generatePDF_shape (document : DocumentRepresentation) :
  (exists ran e,
      forall mode, generatePDF w save document mode = mkRun ran (Throw e))
  \/ (exists ran layout bracket,
         forall mode,
           generatePDF w save document mode =
           finish save ran layout bracket document mode).
Proof.
  destruct (calculateMargins
              (LayoutResult.pageCount (passOne w document personal)))
    as [m|e] eqn:Em.
  - destruct (describeMarginBracket
                (LayoutResult.pageCount (passOne w document personal)))
      as [bracket|e] eqn:Eb.
    + right.
      destruct (Qlt_bool (Qabs (inside m - 0.375)) 0.001) eqn:Eu.
      * exists [passOne w document personal], (passOne w document personal),
               bracket.
        intro mode. unfold generatePDF.
        change (renderLayout w 0.375 0.375 0.375 0.375 document mode)
          with (passOne w document personal).
        rewrite Em, Eb, Eu. reflexivity.
      * exists [passOne w document personal;
                renderLayout w (inside m) (outside m) (top m) (bottom m)
                             document personal],
               (renderLayout w (inside m) (outside m) (top m) (bottom m)
                             document personal),
               bracket.
        intro mode. unfold generatePDF.
        change (renderLayout w 0.375 0.375 0.375 0.375 document mode)
          with (passOne w document personal).
        rewrite Em, Eb, Eu. reflexivity.
    + left. exists [passOne w document personal], e.
      intro mode. unfold generatePDF.
      change (renderLayout w 0.375 0.375 0.375 0.375 document mode)
        with (passOne w document personal).
      rewrite Em, Eb. reflexivity.
  - left. exists [passOne w document personal], e.
    intro mode. unfold generatePDF.
    change (renderLayout w 0.375 0.375 0.375 0.375 document mode)
      with (passOne w document personal).
    rewrite Em. reflexivity.
Qed.

End ModeFacts.

(** C8.  For a document without the offer-page marker on its last content
    page, when the relaxed ('personal') run returns a compliance result in
    which every other rule is satisfied, that result has [passes = true]
    and reports [offer_page_present = true]; the strict ('publish-ready')
    run of the same document returns the same bytes with [passes = false],
    [offer_page_present = false] and the offer-page violation as its only
    violation. *)
Theorem offer_page_rule_depends_on_mode
        (w : Metric) (save : list PDFPage -> list Init.Byte.byte)
        (document : DocumentRepresentation) (relaxed : PDFEngineResult.t) :
  hasOfferPage document = false ->
  outcome (generatePDF w save document personal) = Ok relaxed ->
  otherRulesSatisfied (PDFEngineResult.complianceResult relaxed) = true ->
  passes (PDFEngineResult.complianceResult relaxed) = true
  /\ offer_page_present (PDFEngineResult.complianceResult relaxed) = true
  /\ exists strict,
      outcome (generatePDF w save document publish_ready) = Ok strict
      /\ passes (PDFEngineResult.complianceResult strict) = false
      /\ offer_page_present (PDFEngineResult.complianceResult strict) = false
      /\ violations (PDFEngineResult.complianceResult strict)
         = [OfferPageNotFinal]
      /\ PDFEngineResult.pdfBytes strict = PDFEngineResult.pdfBytes relaxed.
Proof.
  intros Hoffer Hrel Hother.
  destruct (generatePDF_shape w save document)
    as [(ran & e & E)|(ran & layout & bracket & E)].
  - rewrite E in Hrel. discriminate.
  - rewrite E in *. unfold finish in *.
    unfold complianceInputOf in *. rewrite Hoffer in *.
    destruct (checkCompliance
                (mkInput (LayoutResult.pageDimensions layout)
                         (LayoutResult.pageCount layout)
                         (LayoutResult.insideMarginIn layout)
                         (LayoutResult.outsideMarginIn layout)
                         (LayoutResult.topMarginIn layout)
                         (LayoutResult.bottomMarginIn layout)
                         true false personal)) as [rp|e] eqn:Ep;
      [|discriminate].
    cbn [outcome] in Hrel. injection Hrel as <-.
    cbn [PDFEngineResult.complianceResult PDFEngineResult.pdfBytes] in *.
    destruct (checkCompliance_mode_sensitivity _ _ _ _ _ _ _ _ Ep Hother)
      as (Hp & Ho & rs & Es & Hs1 & Hs2 & Hs3).
    split; [exact Hp|]. split; [exact Ho|].
    rewrite Es. eexists. split; [reflexivity|].
    cbn. auto.
Qed.

Lemma offer_page_rule_depends_on_mode_witness :
  passes (PDFEngineResult.complianceResult noOfferRelaxed) = true
  /\ offer_page_present (PDFEngineResult.complianceResult noOfferRelaxed)
     = true
  /\ exists strict,
      outcome (generatePDF fixedPitch countingSave noOfferDocument
                           publish_ready) = Ok strict
      /\ passes (PDFEngineResult.complianceResult strict) = false
      /\ offer_page_present (PDFEngineResult.complianceResult strict) = false
      /\ violations (PDFEngineResult.complianceResult strict)
         = [OfferPageNotFinal]
      /\ PDFEngineResult.pdfBytes strict
         = PDFEngineResult.pdfBytes noOfferRelaxed.
Proof.
  apply (offer_page_rule_depends_on_mode fixedPitch countingSave
                                         noOfferDocument noOfferRelaxed).
  - vm_compute. reflexivity.
  - vm_compute. reflexivity.
  - vm_compute. reflexivity.
Defined.

(** ** The [starts_new_page] flag *)

Section FlagFacts.

Variable w : Metric.
Variable save : list PDFPage -> list Init.Byte.byte.

Lemma layoutDocPages_clearFlag (i o t b : Q) (ps : list DocumentPage) :
  forall (di : nat) (s : LayoutState.t),
    layoutDocPages w i o t b di (map clearFlag ps) s
    = layoutDocPages w i o t b di ps s.
Proof.
  induction ps as [|p ps IH]; intros di s; [reflexivity|].
  cbn [map layoutDocPages]. rewrite IH. reflexivity.
Qed.

Lemma renderLayout_clearFlags (i o t b : Q) (d : DocumentRepresentation)
      (mode : OutputMode) :
  renderLayout w i o t b (clearFlags d) mode = renderLayout w i o t b d mode.
Proof.
  unfold renderLayout, finalState.
  cbn [clearFlags front_matter content_pages].
  rewrite <- map_app, layoutDocPages_clearFlag. reflexivity.
Qed.

Lemma hasOfferPage_clearFlags (d : DocumentRepresentation) :
  hasOfferPage (clearFlags d) = hasOfferPage d.
Proof.
  unfold hasOfferPage. cbn [clearFlags content_pages].
  rewrite length_map, nth_error_map.
  destruct (nth_error (content_pages d) _); reflexivity.
Qed.

Lemma generatePDF_clearFlags (d : DocumentRepresentation)
      (mode : OutputMode) :
  generatePDF w save (clearFlags d) mode = generatePDF w save d mode.
Proof.
  unfold generatePDF, finish, complianceInputOf.
  rewrite !renderLayout_clearFlags, hasOfferPage_clearFlags.
  destruct (calculateMargins _) as [m|e]; [|reflexivity].
  rewrite !renderLayout_clearFlags. reflexivity.
Qed.

End FlagFacts.


(** ** Deferred footnotes *)

Section FootnoteFacts.

Variable w : Metric.

Lemma footnoteTexts_draw (op : DrawOp) (p : PDFPage) :
  footnoteTexts (draw op p) = footnoteTexts p ++ footnoteTextOf op.
Proof.
  unfold footnoteTexts, draw. cbn [operations].
  rewrite flat_map_app. cbn [flat_map]. rewrite app_nil_r. reflexivity.
Qed.

Lemma drawLinesLoop_footnoteTexts (lines : list string) :
  forall (p : PDFPage) (font : PDFFont) (fontSize startX y lineHeight : Q),
    footnoteTexts (fst (drawLinesLoop lines p font fontSize startX y
                                      lineHeight))
    = footnoteTexts p.
Proof.
  induction lines as [|line rest IH]; intros; [reflexivity|].
  cbn [drawLinesLoop]. rewrite IH, footnoteTexts_draw.
  cbn. apply app_nil_r.
Qed.

Lemma renderLinesAt_effect (lines : list string) (font : PDFFont)
      (size startX spacing : Q) (ctx : RenderContext) :
  footnoteTexts (page (fst (renderLinesAt lines font size startX spacing ctx)))
  = footnoteTexts (page ctx)
  /\ Blocks.pendingFootnotes
       (fst (renderLinesAt lines font size startX spacing ctx))
     = Blocks.pendingFootnotes ctx.
Proof.
  unfold renderLinesAt, drawLines.
  pose proof (drawLinesLoop_footnoteTexts lines (page ctx) font size startX
                (cursor_y (Blocks.cursor ctx)) (size * LEADING)) as H.
  destruct (drawLinesLoop lines (page ctx) font size startX
                          (cursor_y (Blocks.cursor ctx)) (size * LEADING))
    as [p' y'].
  cbn in *. split; [exact H|reflexivity].
Qed.

(** A renderer draws no footnote text, and only the footnote renderer
    touches the pending list. *)
Lemma renderBlock_effect (b : DocumentBlock) (ctx : RenderContext) :
  footnoteTexts (page (fst (renderBlock w b ctx))) = footnoteTexts (page ctx)
  /\ Blocks.pendingFootnotes (fst (renderBlock w b ctx))
     = Blocks.pendingFootnotes ctx
         ++ (if isFootnote (block_type b) then [b] else []).
Proof.
  unfold renderBlock.
  destruct (block_type b); cbn [BLOCK_RENDERERS isFootnote];
    rewrite ?app_nil_r;
    try apply renderLinesAt_effect.
  - (* footnote *) split; reflexivity.
  - (* divider *)
    unfold renderDivider. cbn [fst withPage page Blocks.pendingFootnotes].
    rewrite footnoteTexts_draw. cbn [footnoteTextOf].
    rewrite app_nil_r. split; reflexivity.
  - (* page_break *) split; reflexivity.
Qed.

Lemma footnoteLinesLoop_texts (lines : list string) :
  forall (p : PDFPage) (font : PDFFont) (size cx y lineHeight : Q),
    footnoteTexts (fst (footnoteLinesLoop lines p font size cx y lineHeight))
    = footnoteTexts p ++ lines.
Proof.
  induction lines as [|line rest IH]; intros.
  - cbn. symmetry. apply app_nil_r.
  - cbn [footnoteLinesLoop]. rewrite IH, footnoteTexts_draw.
    cbn. rewrite <- app_assoc. reflexivity.
Qed.

Lemma footnotesLoop_texts (fns : list DocumentBlock) :
  forall (p : PDFPage) (font : PDFFont) (size cx cw y lineHeight : Q),
    footnoteTexts (fst (footnotesLoop w fns p font size cx cw y lineHeight))
    = footnoteTexts p
        ++ flat_map (fun fn => wrapText w (content fn) font size cw) fns.
Proof.
  induction fns as [|fn rest IH]; intros.
  - cbn. symmetry. apply app_nil_r.
  - cbn [footnotesLoop flat_map].
    pose proof (footnoteLinesLoop_texts
                  (wrapText w (content fn) font size cw) p font size cx y
                  lineHeight) as H.
    destruct (footnoteLinesLoop (wrapText w (content fn) font size cw) p font
                                size cx y lineHeight) as [p' y'].
    cbn [fst] in H. rewrite IH, H, <- app_assoc. reflexivity.
Qed.

Lemma renderPageFootnotes_texts (fns : list DocumentBlock) (p : PDFPage)
      (cx cw bottomY : Q) :
  footnoteTexts (renderPageFootnotes w fns p fonts cx cw bottomY)
  = footnoteTexts p
      ++ flat_map (fun fn => wrapText w (content fn) Regular FOOTNOTE cw) fns.
Proof.
  unfold renderPageFootnotes. destruct fns as [|fn rest].
  - cbn. symmetry. apply app_nil_r.
  - rewrite footnotesLoop_texts, footnoteTexts_draw.
    cbn [footnoteTextOf]. rewrite app_nil_r. reflexivity.
Qed.

Lemma drawPageNumber_texts (p : PDFPage) (style : PageNumberStyle) (n : Z)
      (cx cw y : Q) :
  footnoteTexts (drawPageNumber w p style n fonts cx cw y) = footnoteTexts p.
Proof.
  unfold drawPageNumber. destruct style; try reflexivity;
    rewrite footnoteTexts_draw; cbn; apply app_nil_r.
Qed.

Variables insideIn outsideIn topIn bottomIn : Q.

Local Abbreviation finalize' :=
  (finalizeCurrentPage w insideIn outsideIn bottomIn).
Local Abbreviation process' :=
  (processBlock w insideIn outsideIn topIn bottomIn).
Local Abbreviation lines' := (footnoteLines w insideIn outsideIn).

(** Finalizing a page draws the lines of its pending footnotes on it, and
    nothing else in the footnote colour. *)
Lemma finalize_footnoteTexts (s : LayoutState.t) :
  footnoteTexts (LayoutState.currentPage (finalize' s))
  = footnoteTexts (LayoutState.currentPage s)
      ++ lines' (LayoutState.pendingFootnotes s).
Proof.
  unfold finalizeCurrentPage. cbn [LayoutState.currentPage].
  rewrite drawPageNumber_texts, renderPageFootnotes_texts. reflexivity.
Qed.

Lemma renderInto_footnotes (b : DocumentBlock) (s : LayoutState.t) :
  footnoteTexts
    (LayoutState.currentPage (renderInto w insideIn outsideIn b s))
  = footnoteTexts (LayoutState.currentPage s)
  /\ LayoutState.pendingFootnotes (renderInto w insideIn outsideIn b s)
     = LayoutState.pendingFootnotes s
         ++ (if isFootnote (block_type b) then [b] else []).
Proof.
  unfold renderInto.
  match goal with
  | |- context [renderBlock w b ?c] =>
      pose proof (renderBlock_effect b c) as H;
      destruct (renderBlock w b c) as [ctx' result]
  end.
  cbn in *. exact H.
Qed.

End FootnoteFacts.

Section FootnotePlacement.

Variable w : Metric.
Variables insideIn outsideIn topIn bottomIn : Q.

Local Abbreviation finalize' :=
  (finalizeCurrentPage w insideIn outsideIn bottomIn).
Local Abbreviation process' :=
  (processBlock w insideIn outsideIn topIn bottomIn).
Local Abbreviation lines' := (footnoteLines w insideIn outsideIn).

Lemma footnotesOn_app (k : Z) (T1 T2 : list (Z * DocumentBlock)) :
  footnotesOn k (T1 ++ T2) = footnotesOn k T1 ++ footnotesOn k T2.
Proof.
  unfold footnotesOn. rewrite filter_app, map_app. reflexivity.
Qed.

Lemma footnotesOn_above (k n : Z) (T : list (Z * DocumentBlock)) :
  Forall (fun e => (fst e <= n)%Z) T -> (n < k)%Z -> footnotesOn k T = [].
Proof.
  intros H Hk. induction H as [|e T He _ IH]; [reflexivity|].
  unfold footnotesOn in *. cbn [filter].
  destruct (Z.eqb_spec (fst e) k); [lia|]. exact IH.
Qed.

Lemma footnotesOn_one (k n : Z) (b : DocumentBlock) :
  footnotesOn k [(n, b)] =
  if (n =? k)%Z then (if isFootnote (block_type b) then [b] else []) else [].
Proof.
  unfold footnotesOn. cbn.
  destruct (n =? k)%Z, (isFootnote (block_type b)); reflexivity.
Qed.

Lemma placed_extend (fin : list PDFPage) (ct : list string) (pc : Z)
      (pend : list DocumentBlock) (T : list (Z * DocumentBlock))
      (b : DocumentBlock) :
  placedInv' w insideIn outsideIn fin ct pc pend T ->
  placedInv' w insideIn outsideIn fin ct pc
             (pend ++ (if isFootnote (block_type b) then [b] else []))
             (T ++ [(pc, b)]).
Proof.
  intros (Hpc & Hfin & Hct & Hpend & HT).
  split; [exact Hpc|]. split; [|split; [exact Hct|split]].
  - rewrite Hfin. apply map_ext_in. intros k Hk. apply in_seq in Hk.
    rewrite footnotesOn_app, footnotesOn_one.
    destruct (Z.eqb_spec pc (Z.of_nat k)); [lia|].
    rewrite app_nil_r. reflexivity.
  - rewrite footnotesOn_app, footnotesOn_one, Z.eqb_refl, Hpend.
    reflexivity.
  - apply Forall_app. split; [exact HT|].
    constructor; [cbn; lia|constructor].
Qed.

Lemma placed_advance (fin : list PDFPage) (ct : list string) (pc : Z)
      (pend : list DocumentBlock) (T : list (Z * DocumentBlock))
      (p : PDFPage) :
  placedInv' w insideIn outsideIn fin ct pc pend T ->
  footnoteTexts p = ct ++ lines' pend ->
  placedInv' w insideIn outsideIn (fin ++ [p]) [] (pc + 1) [] T.
Proof.
  intros (Hpc & Hfin & Hct & Hpend & HT) Hp.
  unfold placedInv'. rewrite length_app. cbn [List.length].
  rewrite Nat.add_1_r. split; [lia|]. split; [|split; [reflexivity|split]].
  - rewrite seq_S, !map_app, Hfin. cbn [map Nat.add].
    rewrite Hp, Hct, Hpend, Hpc. reflexivity.
  - symmetry. apply (footnotesOn_above _ pc); [exact HT|lia].
  - eapply Forall_impl; [|exact HT]. cbn. intros e He. lia.
Qed.

Lemma placedInv_overflowCheck (style : PageNumberStyle) (s : LayoutState.t)
      (T : list (Z * DocumentBlock)) :
  placedInv w insideIn outsideIn s T ->
  placedInv w insideIn outsideIn
            (overflowCheck w insideIn outsideIn topIn bottomIn style s) T.
Proof.
  intro H.
  destruct (overflowCheck_cases w insideIn outsideIn topIn bottomIn style s)
    as [[_ ->]|[_ ->]]; [|exact H].
  destruct (overflow_advance w insideIn outsideIn topIn bottomIn style s)
    as (Ff & Fp & Fn & _ & Fq & _).
  unfold placedInv. rewrite Ff, Fp, Fn, Fq.
  apply (placed_advance _ _ _ _ _ _ H). apply finalize_footnoteTexts.
Qed.

Lemma placedInv_process (style : PageNumberStyle) (b : DocumentBlock)
      (s : LayoutState.t) (T : list (Z * DocumentBlock)) :
  placedInv w insideIn outsideIn s T ->
  placedInv w insideIn outsideIn (process' style b s)
            (T ++ [(LayoutState.pdfPageCount (process' style b s), b)]).
Proof.
  intro H. unfold processBlock.
  destruct (isPageBreak (block_type b)) eqn:Eb.
  - assert (Hf : isFootnote (block_type b) = false)
      by (destruct (block_type b); (discriminate || reflexivity)).
    destruct (advancePage_no_increment w insideIn outsideIn topIn bottomIn
                                       style s)
      as (Ff & Fp & Fn & Fq & _).
    pose proof (placed_advance _ _ _ _ _ _ H (finalize_footnoteTexts
                  w insideIn outsideIn bottomIn s)) as H'.
    apply (placed_extend _ _ _ _ _ b) in H'.
    rewrite Hf in H'. cbn [app] in H'.
    unfold placedInv.
    cbn [LayoutState.set_cursor LayoutState.finishedPages
         LayoutState.currentPage LayoutState.pdfPageCount
         LayoutState.pendingFootnotes].
    rewrite Ff, Fp, Fn, Fq. exact H'.
  - apply (placedInv_overflowCheck style) in H.
    set (s1 := overflowCheck w insideIn outsideIn topIn bottomIn style s) in *.
    destruct (renderInto_frame w insideIn outsideIn b s1)
      as (Ef & _ & En & _).
    destruct (renderInto_footnotes w insideIn outsideIn b s1) as (Et & Ep).
    unfold placedInv. rewrite Ef, En, Et, Ep.
    apply placed_extend. exact H.
Qed.

Lemma placedInv_blocks (style : PageNumberStyle) (bs : list DocumentBlock) :
  forall (s : LayoutState.t) (T : list (Z * DocumentBlock)),
    placedInv w insideIn outsideIn s T ->
    placedInv w insideIn outsideIn
              (layoutBlocks w insideIn outsideIn topIn bottomIn style bs s)
              (T ++ placeBlocks w insideIn outsideIn topIn bottomIn style
                                bs s).
Proof.
  induction bs as [|b bs IH]; intros s T H.
  - cbn. rewrite app_nil_r. exact H.
  - cbn [layoutBlocks placeBlocks].
    replace (T ++ (LayoutState.pdfPageCount (process' style b s), b)
               :: placeBlocks w insideIn outsideIn topIn bottomIn style bs
                              (process' style b s))
      with ((T ++ [(LayoutState.pdfPageCount (process' style b s), b)])
              ++ placeBlocks w insideIn outsideIn topIn bottomIn style bs
                             (process' style b s))
      by (rewrite <- app_assoc; reflexivity).
    apply IH. apply placedInv_process. exact H.
Qed.

Lemma placedInv_beginDocPage (di : nat) (style : PageNumberStyle)
      (s : LayoutState.t) (T : list (Z * DocumentBlock)) :
  placedInv w insideIn outsideIn s T ->
  placedInv w insideIn outsideIn
            (LayoutState.set_cursor (topCursor insideIn topIn)
               (beginDocPage w insideIn outsideIn topIn bottomIn di style s))
            T.
Proof.
  intro H. destruct di as [|di].
  - destruct style; exact H.
  - pose proof (placed_advance _ _ _ _ _ _ H (finalize_footnoteTexts
                  w insideIn outsideIn bottomIn s)) as H'.
    destruct style; exact H'.
Qed.

Lemma placedInv_pages (ps : list DocumentPage) :
  forall (di : nat) (s : LayoutState.t) (T : list (Z * DocumentBlock)),
    placedInv w insideIn outsideIn s T ->
    placedInv w insideIn outsideIn
              (layoutDocPages w insideIn outsideIn topIn bottomIn di ps s)
              (T ++ placePages w insideIn outsideIn topIn bottomIn di ps s).
Proof.
  induction ps as [|p ps IH]; intros di s T H.
  - cbn. rewrite app_nil_r. exact H.
  - cbn [layoutDocPages placePages]. rewrite app_assoc.
    apply IH. unfold layoutDocPage.
    apply placedInv_blocks. apply placedInv_beginDocPage. exact H.
Qed.

Lemma placedInv_initial :
  placedInv w insideIn outsideIn (initialState insideIn topIn) [].
Proof.
  unfold placedInv, placedInv'. cbn. repeat split. constructor.
Qed.

(** Every page of the finished layout carries the lines of the footnotes
    processed on it, and no other footnote text. *)
Lemma renderLayout_footnotes (document : DocumentRepresentation)
      (mode : OutputMode) :
  let layout :=
    renderLayout w insideIn outsideIn topIn bottomIn document mode in
  map footnoteTexts (LayoutResult.doc layout)
  = map (fun k =>
           lines' (footnotesOn (Z.of_nat k)
                     (placement w insideIn outsideIn topIn bottomIn document)))
        (seq 1 (List.length (LayoutResult.doc layout))).
Proof.
  cbv zeta. unfold renderLayout, finalState, placement.
  cbn [LayoutResult.doc].
  pose proof (placedInv_pages
                (front_matter document ++ content_pages document) 0
                (initialState insideIn topIn) [] placedInv_initial) as H.
  cbn [app] in H.
  set (s := layoutDocPages w insideIn outsideIn topIn bottomIn 0
              (front_matter document ++ content_pages document)
              (initialState insideIn topIn)) in *.
  set (T := placePages w insideIn outsideIn topIn bottomIn 0
              (front_matter document ++ content_pages document)
              (initialState insideIn topIn)) in *.
  pose proof (placed_advance _ _ _ _ _ _ H (finalize_footnoteTexts
                w insideIn outsideIn bottomIn s)) as (_ & Hm & _).
  destruct (finalize_frame w insideIn outsideIn bottomIn s) as (Ef & _).
  rewrite Ef. exact Hm.
Qed.

End FootnotePlacement.

(** Where footnotes go.  The footnote renderer returns the cursor it was
    given, leaves the page as it is and appends the block to the pending
    list of the context.  Finalizing a physical page draws the lines of its
    pending footnotes on that page and empties the list.  Over a whole
    layout, whichever way a page was closed, the footnote text on each
    physical page is exactly the lines of the footnote blocks that were
    processed while that page was current, the overflow check made before
    the footnote block included: every footnote is drawn once, on the page
    it was collected on. *)
Lemma footnotes_drawn_where_collected
        (w : Metric) (insideIn outsideIn topIn bottomIn : Q) :
  (forall (b : DocumentBlock) (ctx : RenderContext),
      block_type b = footnote ->
      renderBlock w b ctx =
      (withPendingFootnotes ctx (Blocks.pendingFootnotes ctx ++ [b]),
       mkRenderResult (Blocks.cursor ctx)))
  /\ (forall s : LayoutState.t,
         let s' := finalizeCurrentPage w insideIn outsideIn bottomIn s in
         footnoteTexts (LayoutState.currentPage s')
         = footnoteTexts (LayoutState.currentPage s)
             ++ footnoteLines w insideIn outsideIn
                              (LayoutState.pendingFootnotes s)
         /\ LayoutState.pendingFootnotes s' = []
         /\ LayoutState.finishedPages s' = LayoutState.finishedPages s)
  /\ (forall (document : DocumentRepresentation) (mode : OutputMode),
         let layout :=
           renderLayout w insideIn outsideIn topIn bottomIn document mode in
         map footnoteTexts (LayoutResult.doc layout)
         = map (fun k =>
                  footnoteLines w insideIn outsideIn
                    (footnotesOn (Z.of_nat k)
                       (placement w insideIn outsideIn topIn bottomIn
                                  document)))
               (seq 1 (List.length (LayoutResult.doc layout)))).
Proof.
  split; [|split].
  - intros b ctx Hb. unfold renderBlock. rewrite Hb. reflexivity.
  - intro s. cbv zeta.
    split; [apply finalize_footnoteTexts|]. split; reflexivity.
  - intros document mode. apply renderLayout_footnotes.
Qed.

(** C3.  The engine does not keep a footnote on the page of its quote.
    The overflow check is made before a footnote block as before any
    other, although a footnote takes no room at the cursor: in
    [strandedFootnoteDocument] the quote is drawn on page 1 and leaves
    the cursor below the content floor, so the footnote block opens
    page 2, is collected there and is drawn there, alone; page 1 has no
    footnote text.  Nor are the footnotes kept at the bottom of the page:
    the separator rule is drawn 25.2pt higher for every pending footnote,
    and with the 25 footnotes of [crowdedFootnoteDocument] it is drawn at
    689pt on a page 648pt high. *)
Theorem footnote_leaves_the_page_of_its_quote :
  let stranded :=
    renderLayout fixedPitch 0.375 0.375 0.375 0.375
                 strandedFootnoteDocument personal in
  let crowded :=
    renderLayout fixedPitch 0.375 0.375 0.375 0.375
                 crowdedFootnoteDocument personal in
  map textsDrawn (LayoutResult.doc stranded)
  = [ ["For by grace you have been saved through faith."; "1"];
      ["Ephesians 2:8"; "2"] ]%string
  /\ map footnoteTexts (LayoutResult.doc stranded)
     = [ []; ["Ephesians 2:8"] ]%string
  /\ map (fun p => List.length (ruleHeights p)) (LayoutResult.doc stranded)
     = [23; 1]%nat
  /\ LayoutResult.pageCount crowded = 1%Z
  /\ map ruleHeights (LayoutResult.doc crowded) = [[689%Q]]
  /\ (TRIM_HEIGHT_PT < 689)%Q.
Proof.
  cbv zeta. repeat split; vm_compute; reflexivity.
Qed.

(* ------------------------------------------------------------------ *)
(** * Further properties of the code *)

(** ** Margin resolver *)

Lemma describeMarginBracket_value (P : Z) :
  (P <= 828)%Z ->
  describeMarginBracket P =
  Ok (if (P <=? 150)%Z then "24–150 pages: 0.375in gutter"
      else if (P <=? 300)%Z then "151–300 pages: 0.500in gutter"
      else if (P <=? 500)%Z then "301–500 pages: 0.625in gutter"
      else if (P <=? 700)%Z then "501–700 pages: 0.750in gutter"
      else "701–828 pages: 0.875in gutter")%string.
Proof.
  intro H. unfold describeMarginBracket.
  cbn [INSIDE_MARGIN_BRACKETS List.length describeLoop Nat.add nth
       bracketEdges bracketLabels].
  destruct (Z.leb_spec P 150); [reflexivity|].
  destruct (Z.leb_spec P 300); [reflexivity|].
  destruct (Z.leb_spec P 500); [reflexivity|].
  destruct (Z.leb_spec P 700); [reflexivity|].
  destruct (Z.leb_spec P 828); [reflexivity|lia].
Qed.

Lemma describeMarginBracket_throws (P : Z) :
  (828 < P)%Z ->
  describeMarginBracket P =
  Throw (RangeError ("Page count " ++ String_of_Z P
                       ++ " exceeds KDP maximum.")).
Proof.
  intro H. unfold describeMarginBracket.
  cbn [INSIDE_MARGIN_BRACKETS List.length describeLoop Nat.add nth
       bracketEdges bracketLabels].
  destruct (Z.leb_spec P 150); [lia|].
  destruct (Z.leb_spec P 300); [lia|].
  destruct (Z.leb_spec P 500); [lia|].
  destruct (Z.leb_spec P 700); [lia|].
  destruct (Z.leb_spec P 828); [lia|reflexivity].
Qed.

(** X1.  [describeMarginBracket] and [calculateMargins], which read two
    separate tables, agree: one returns exactly when the other does (page
    count at most 828), and two page counts get the same label exactly when
    they get the same inside margin. *)
Theorem describeMarginBracket_agrees_with_calculateMargins :
  (forall P : Z,
      (exists label, describeMarginBracket P = Ok label)
      <-> (exists m, calculateMargins P = Ok m))
  /\ (forall (P1 P2 : Z) (l1 l2 : string) (m1 m2 : KDPMargins),
         describeMarginBracket P1 = Ok l1 ->
         describeMarginBracket P2 = Ok l2 ->
         calculateMargins P1 = Ok m1 ->
         calculateMargins P2 = Ok m2 ->
         (l1 = l2 <-> (inside m1 == inside m2)%Q)).
Proof.
  split.
  - intro P. destruct (Z.le_gt_cases P 828) as [Hle|Hgt].
    + split; intros _.
      * eexists. apply (calculateMargins_ok _ Hle).
      * eexists. apply (describeMarginBracket_value _ Hle).
    + split; intros [x Hx].
      * rewrite (describeMarginBracket_throws _ Hgt) in Hx. discriminate.
      * rewrite (calculateMargins_throws _ Hgt) in Hx. discriminate.
  - intros P1 P2 l1 l2 m1 m2 Hl1 Hl2 Hm1 Hm2.
    apply calculateMargins_ok_inv in Hm1. destruct Hm1 as [H1 ->].
    apply calculateMargins_ok_inv in Hm2. destruct Hm2 as [H2 ->].
    rewrite (describeMarginBracket_value _ H1) in Hl1. injection Hl1 as <-.
    rewrite (describeMarginBracket_value _ H2) in Hl2. injection Hl2 as <-.
    cbn [inside marginsWith]. unfold insideFor.
    destruct (P1 <=? 150)%Z, (P1 <=? 300)%Z, (P1 <=? 500)%Z, (P1 <=? 700)%Z,
             (P2 <=? 150)%Z, (P2 <=? 300)%Z, (P2 <=? 500)%Z, (P2 <=? 700)%Z;
      (split; intro H;
       first [ reflexivity
             | discriminate H
             | exfalso; unfold Qeq in H; cbn in H; discriminate H ]).
Qed.

Lemma describeMarginBracket_agrees_with_calculateMargins_witness :
  "24–150 pages: 0.375in gutter"%string = "24–150 pages: 0.375in gutter"%string
  <-> (inside (marginsWith 0.375) == inside (marginsWith 0.375))%Q.
Proof.
  apply (proj2 describeMarginBracket_agrees_with_calculateMargins
               24%Z 150%Z); reflexivity.
Defined.

(** X2.  For every margin set [calculateMargins] returns, the page geometry
    of [renderLayout] is usable: the content area is between 342pt and
    378pt wide, a block quote (indented 36pt on both sides) keeps at least
    270pt, the content floor lies 564pt below the top of the content area,
    and the left edge of the content is the inside margin that
    [marginsToPoints] gives in points. *)
Theorem calculateMargins_geometry (P : Z) (m : KDPMargins) :
  calculateMargins P = Ok m ->
  (342 <= contentWidth (inside m) (outside m) <= 378)%Q
  /\ (270 <= contentWidth (inside m) (outside m) - BLOCK_QUOTE_INDENT * 2)%Q
  /\ (contentTopY (top m) - contentFloorY (bottom m) == 564)%Q
  /\ contentX (inside m) = inside (marginsToPoints m).
Proof.
  intro H. apply calculateMargins_ok_inv in H. destruct H as [_ ->].
  unfold insideFor.
  destruct (P <=? 150)%Z; [|destruct (P <=? 300)%Z;
    [|destruct (P <=? 500)%Z; [|destruct (P <=? 700)%Z]]];
  (split; [split; vm_compute; discriminate|];
   split; [vm_compute; discriminate|];
   split; reflexivity).
Qed.

Lemma calculateMargins_geometry_witness :
  (342 <= contentWidth (inside (marginsWith 0.875))
                       (outside (marginsWith 0.875)) <= 378)%Q
  /\ (270 <= contentWidth (inside (marginsWith 0.875))
                          (outside (marginsWith 0.875))
             - BLOCK_QUOTE_INDENT * 2)%Q
  /\ (contentTopY (top (marginsWith 0.875))
      - contentFloorY (bottom (marginsWith 0.875)) == 564)%Q
  /\ contentX (inside (marginsWith 0.875))
     = inside (marginsToPoints (marginsWith 0.875)).
Proof.
  apply (calculateMargins_geometry 828%Z (marginsWith 0.875)). reflexivity.
Defined.

(** ** Compliance checker *)

Lemma In_pushIf (v v' : Violation) (c : bool) (l : list Violation) :
  In v (pushIf c v' l) <-> In v l \/ (c = true /\ v' = v).
Proof.
  unfold pushIf. destruct c.
  - rewrite in_app_iff. cbn [In]. intuition congruence.
  - intuition congruence.
Qed.

(** [passes] is the conjunction of the seven rules. *)
Lemma checkCompliance_passes_flags (input : KDPComplianceInput)
      (r : KDPComplianceResult) :
  checkCompliance input = Ok r ->
  passes r =
  (trim_size_correct r && inside_margin_correct r && outside_margin_correct r
   && top_margin_correct r && bottom_margin_correct r && fonts_embedded r
   && offer_page_present r)%bool.
Proof.
  unfold checkCompliance. intro H.
  destruct (calculateMargins (Compliance.pageCount input)) as [m|e];
    [|discriminate].
  injection H as <-.
  cbn [passes trim_size_correct inside_margin_correct
       outside_margin_correct top_margin_correct bottom_margin_correct
       fonts_embedded offer_page_present].
  rewrite !isEmpty_pushIf. cbn [isEmpty].
  destruct (forallb _ _), (Qge_bool (Compliance.insideMarginIn input) _),
    (Qge_bool (Compliance.outsideMarginIn input) _),
    (Qge_bool (Compliance.topMarginIn input) _),
    (Qge_bool (Compliance.bottomMarginIn input) _),
    (fontsEmbedded input), (Compliance.outputMode input),
    (offerPagePresent input); reflexivity.
Qed.

(** The flags of a result, in terms of the measurements. *)
Lemma checkCompliance_flags (input : KDPComplianceInput)
      (r : KDPComplianceResult) :
  checkCompliance input = Ok r ->
  trim_size_correct r
  = forallb (fun wh => Qlt_bool (Qabs (fst wh - TRIM_WIDTH_PT)) 1
                       && Qlt_bool (Qabs (snd wh - TRIM_HEIGHT_PT)) 1)%bool
            (Compliance.pageDimensions input)
  /\ inside_margin_correct r
     = Qge_bool (Compliance.insideMarginIn input)
                (insideFor (Compliance.pageCount input) - 0.001)
  /\ outside_margin_correct r
     = Qge_bool (Compliance.outsideMarginIn input)
                (MIN_OUTSIDE_MARGIN_IN - 0.001)
  /\ top_margin_correct r
     = Qge_bool (Compliance.topMarginIn input) (MIN_TOP_MARGIN_IN - 0.001)
  /\ bottom_margin_correct r
     = Qge_bool (Compliance.bottomMarginIn input)
                (MIN_BOTTOM_MARGIN_IN - 0.001)
  /\ fonts_embedded r = fontsEmbedded input
  /\ offer_page_present r
     = match Compliance.outputMode input with
       | personal => true
       | publish_ready => offerPagePresent input
       end.
Proof.
  unfold checkCompliance. intro H.
  destruct (calculateMargins (Compliance.pageCount input)) as [m|e] eqn:E;
    [|discriminate].
  apply calculateMargins_ok_inv in E. destruct E as [_ ->].
  injection H as <-. repeat split.
Qed.

(** [passes] is decided by the seven rules alone. *)
Lemma checkCompliance_passes_rules (input : KDPComplianceInput)
      (r : KDPComplianceResult) :
  checkCompliance input = Ok r -> passes r = rulesHold input.
Proof.
  intro H.
  destruct (checkCompliance_flags input r H)
    as (H1 & H2 & H3 & H4 & H5 & H6 & H7).
  rewrite (checkCompliance_passes_flags input r H).
  unfold rulesHold. rewrite H1, H2, H3, H4, H5, H6, H7. reflexivity.
Qed.

Lemma insideFor_first_bracket (P : Z) : (P <= 150)%Z -> insideFor P = 0.375%Q.
Proof.
  intro H. unfold insideFor. destruct (Z.leb_spec P 150); [reflexivity|lia].
Qed.

(** C7.  A page count below 24 is a warning and not a violation.  For such
    an input [checkCompliance] returns a result whose [page_count_warning]
    is true and whose violations are exactly as many as the rules that
    failed (the warning contributes none); for every input on which the
    checker returns, in either mode, [passes] is true exactly when the
    violations list is empty, and [passes] is decided by the seven rules
    on the measurements, of which the minimum is none.  So an input below
    the minimum that meets the rules gets [passes = true], no violation
    and the warning; and raising the page count of any input below the
    minimum to a count from 24 to 150 clears the warning and changes
    neither [passes], nor a rule flag, nor the number of violations. *)
Theorem checkCompliance_warning_is_not_violation :
  (forall input : KDPComplianceInput,
      (Compliance.pageCount input < KDP_MIN_PAGE_COUNT)%Z ->
      exists r,
        checkCompliance input = Ok r /\
        page_count_warning r = true /\
        List.length (violations r) = failedRules r /\
        (failedRules r = 0%nat -> passes r = true))
  /\ (forall (input : KDPComplianceInput) (r : KDPComplianceResult),
         checkCompliance input = Ok r ->
         (passes r = true <-> violations r = []))
  /\ (forall (input : KDPComplianceInput) (r : KDPComplianceResult),
         checkCompliance input = Ok r ->
         passes r = rulesHold input)
  /\ (forall input : KDPComplianceInput,
         (Compliance.pageCount input < KDP_MIN_PAGE_COUNT)%Z ->
         rulesHold input = true ->
         exists r,
           checkCompliance input = Ok r /\
           page_count_warning r = true /\
           passes r = true /\
           violations r = [])
  /\ (forall (input : KDPComplianceInput) (pc : Z),
         (Compliance.pageCount input < KDP_MIN_PAGE_COUNT)%Z ->
         (KDP_MIN_PAGE_COUNT <= pc <= 150)%Z ->
         exists r r',
           checkCompliance input = Ok r /\
           checkCompliance (withPageCount pc input) = Ok r' /\
           page_count_warning r = true /\
           page_count_warning r' = false /\
           passes r = passes r' /\
           List.length (violations r) = List.length (violations r') /\
           trim_size_correct r = trim_size_correct r' /\
           inside_margin_correct r = inside_margin_correct r' /\
           outside_margin_correct r = outside_margin_correct r' /\
           top_margin_correct r = top_margin_correct r' /\
           bottom_margin_correct r = bottom_margin_correct r' /\
           fonts_embedded r = fonts_embedded r' /\
           offer_page_present r = offer_page_present r').
Proof.
  split; [|split; [|split; [|split]]].
  - intros input Hlt. unfold KDP_MIN_PAGE_COUNT in Hlt.
    destruct (checkCompliance_returns input) as [r Hr]; [lia|].
    exists r. split; [exact Hr|].
    destruct (checkCompliance_page_count _ _ Hr) as (_ & _ & Hw).
    split; [rewrite Hw; apply Z.ltb_lt; exact Hlt|].
    pose proof (checkCompliance_violation_count _ _ Hr) as Hc.
    split; [exact Hc|].
    intro H0. apply (checkCompliance_passes_iff _ _ Hr).
    rewrite H0 in Hc. destruct (violations r); [reflexivity|discriminate].
  - intros input r Hr. exact (checkCompliance_passes_iff _ _ Hr).
  - exact checkCompliance_passes_rules.
  - intros input Hlt Hrules. unfold KDP_MIN_PAGE_COUNT in Hlt.
    destruct (checkCompliance_returns input) as [r Hr]; [lia|].
    exists r. split; [exact Hr|].
    destruct (checkCompliance_page_count _ _ Hr) as (_ & _ & Hw).
    split; [rewrite Hw; apply Z.ltb_lt; exact Hlt|].
    assert (Hp : passes r = true)
      by (rewrite (checkCompliance_passes_rules _ _ Hr); exact Hrules).
    split; [exact Hp|].
    apply (checkCompliance_passes_iff _ _ Hr). exact Hp.
  - intros input pc Hlt Hpc. unfold KDP_MIN_PAGE_COUNT in Hlt, Hpc.
    destruct (checkCompliance_returns input) as [r Hr]; [lia|].
    destruct (checkCompliance_returns (withPageCount pc input)) as [r' Hr'];
      [cbn [withPageCount Compliance.pageCount]; lia|].
    exists r, r'. split; [exact Hr|]. split; [exact Hr'|].
    destruct (checkCompliance_page_count _ _ Hr) as (_ & _ & Hw).
    destruct (checkCompliance_page_count _ _ Hr') as (_ & _ & Hw').
    cbn [withPageCount Compliance.pageCount] in Hw'.
    split; [rewrite Hw; apply Z.ltb_lt; exact Hlt|].
    split; [rewrite Hw'; apply Z.ltb_ge; lia|].
    destruct (checkCompliance_flags _ _ Hr)
      as (H1 & H2 & H3 & H4 & H5 & H6 & H7).
    destruct (checkCompliance_flags _ _ Hr')
      as (H1' & H2' & H3' & H4' & H5' & H6' & H7').
    cbn [withPageCount Compliance.pageDimensions Compliance.pageCount
         Compliance.insideMarginIn Compliance.outsideMarginIn
         Compliance.topMarginIn Compliance.bottomMarginIn fontsEmbedded
         offerPagePresent Compliance.outputMode] in *.
    rewrite (insideFor_first_bracket (Compliance.pageCount input)) in H2
      by lia.
    rewrite (insideFor_first_bracket pc) in H2' by lia.
    assert (E1 : trim_size_correct r = trim_size_correct r')
      by (rewrite H1, H1'; reflexivity).
    assert (E2 : inside_margin_correct r = inside_margin_correct r')
      by (rewrite H2, H2'; reflexivity).
    assert (E3 : outside_margin_correct r = outside_margin_correct r')
      by (rewrite H3, H3'; reflexivity).
    assert (E4 : top_margin_correct r = top_margin_correct r')
      by (rewrite H4, H4'; reflexivity).
    assert (E5 : bottom_margin_correct r = bottom_margin_correct r')
      by (rewrite H5, H5'; reflexivity).
    assert (E6 : fonts_embedded r = fonts_embedded r')
      by (rewrite H6, H6'; reflexivity).
    assert (E7 : offer_page_present r = offer_page_present r')
      by (rewrite H7, H7'; reflexivity).
    split.
    { rewrite (checkCompliance_passes_flags _ _ Hr),
        (checkCompliance_passes_flags _ _ Hr'), E1, E2, E3, E4, E5, E6, E7.
      reflexivity. }
    split.
    { rewrite (checkCompliance_violation_count _ _ Hr),
        (checkCompliance_violation_count _ _ Hr').
      unfold failedRules. rewrite E1, E2, E3, E4, E5, E6, E7. reflexivity. }
    repeat split; assumption.
Qed.

Lemma checkCompliance_warning_is_not_violation_witness :
  (exists r,
      checkCompliance (shortBookInput publish_ready) = Ok r /\
      page_count_warning r = true /\
      List.length (violations r) = failedRules r /\
      (failedRules r = 0%nat -> passes r = true))
  /\ (exists r,
         checkCompliance (shortBookInput personal) = Ok r /\
         page_count_warning r = true /\
         passes r = true /\
         violations r = [])
  /\ (exists r,
         checkCompliance (shortBookInput publish_ready) = Ok r /\
         page_count_warning r = true /\
         passes r = true /\
         violations r = []).
Proof.
  split; [|split].
  - apply (proj1 checkCompliance_warning_is_not_violation
                 (shortBookInput publish_ready)).
    vm_compute. reflexivity.
  - apply (proj1 (proj2 (proj2 (proj2
                    checkCompliance_warning_is_not_violation)))
                 (shortBookInput personal)).
    + vm_compute. reflexivity.
    + vm_compute. reflexivity.
  - apply (proj1 (proj2 (proj2 (proj2
                    checkCompliance_warning_is_not_violation)))
                 (shortBookInput publish_ready)).
    + vm_compute. reflexivity.
    + vm_compute. reflexivity.
Defined.

(** X3.  In a compliance result every rule flag agrees with the violations
    list: the flag of a rule is false exactly when the violation of that
    rule, carrying the measured values, is in the list. *)
Theorem checkCompliance_flags_match_violations
        (input : KDPComplianceInput) (r : KDPComplianceResult)
        (required : KDPMargins) :
  checkCompliance input = Ok r ->
  calculateMargins (Compliance.pageCount input) = Ok required ->
  (trim_size_correct r = false <->
   In (TrimSizeIncorrect (nth_error (Compliance.pageDimensions input) 0))
      (violations r))
  /\ (inside_margin_correct r = false <->
      In (InsideMarginTooSmall (Compliance.insideMarginIn input)
                               (inside required)
                               (Compliance.pageCount input))
         (violations r))
  /\ (outside_margin_correct r = false <->
      In (OutsideMarginTooSmall (Compliance.outsideMarginIn input))
         (violations r))
  /\ (top_margin_correct r = false <->
      In (TopMarginTooSmall (Compliance.topMarginIn input)) (violations r))
  /\ (bottom_margin_correct r = false <->
      In (BottomMarginTooSmall (Compliance.bottomMarginIn input))
         (violations r))
  /\ (fonts_embedded r = false <-> In FontsNotEmbedded (violations r))
  /\ (offer_page_present r = false <-> In OfferPageNotFinal (violations r)).
Proof.
  unfold checkCompliance. intros H Hreq. rewrite Hreq in H.
  injection H as <-.
  cbn [violations trim_size_correct inside_margin_correct
       outside_margin_correct top_margin_correct bottom_margin_correct
       fonts_embedded offer_page_present].
  rewrite !In_pushIf. cbn [In].
  generalize (forallb
                (fun wh : Q * Q =>
                   (Qlt_bool (Qabs (fst wh - TRIM_WIDTH_PT)) 1
                    && Qlt_bool (Qabs (snd wh - TRIM_HEIGHT_PT)) 1)%bool)
                (Compliance.pageDimensions input)).
  generalize (Qge_bool (Compliance.insideMarginIn input)
                       (inside required - 0.001)).
  generalize (Qge_bool (Compliance.outsideMarginIn input)
                       (MIN_OUTSIDE_MARGIN_IN - 0.001)).
  generalize (Qge_bool (Compliance.topMarginIn input)
                       (MIN_TOP_MARGIN_IN - 0.001)).
  generalize (Qge_bool (Compliance.bottomMarginIn input)
                       (MIN_BOTTOM_MARGIN_IN - 0.001)).
  intros cb ct co ci cd.
  destruct (Compliance.outputMode input), (offerPagePresent input);
    cbn [negb andb isPublishReady];
    repeat split; intro H;
      first [ discriminate H
            | solve [rewrite H; cbn [negb]; auto 20]
            | solve [auto 20]
            | solve [intuition (try discriminate; try congruence;
                                try (apply negb_true_iff; assumption))] ].
Qed.


Lemma checkCompliance_flags_match_violations_witness :
  (trim_size_correct faultyBookResult = false <->
   In (TrimSizeIncorrect
         (nth_error (Compliance.pageDimensions faultyBookInput) 0))
      (violations faultyBookResult))
  /\ (inside_margin_correct faultyBookResult = false <->
      In (InsideMarginTooSmall (Compliance.insideMarginIn faultyBookInput)
                               (inside (marginsWith 0.500))
                               (Compliance.pageCount faultyBookInput))
         (violations faultyBookResult))
  /\ (outside_margin_correct faultyBookResult = false <->
      In (OutsideMarginTooSmall (Compliance.outsideMarginIn faultyBookInput))
         (violations faultyBookResult))
  /\ (top_margin_correct faultyBookResult = false <->
      In (TopMarginTooSmall (Compliance.topMarginIn faultyBookInput))
         (violations faultyBookResult))
  /\ (bottom_margin_correct faultyBookResult = false <->
      In (BottomMarginTooSmall (Compliance.bottomMarginIn faultyBookInput))
         (violations faultyBookResult))
  /\ (fonts_embedded faultyBookResult = false <->
      In FontsNotEmbedded (violations faultyBookResult))
  /\ (offer_page_present faultyBookResult = false <->
      In OfferPageNotFinal (violations faultyBookResult)).
Proof.
  apply (checkCompliance_flags_match_violations
           faultyBookInput faultyBookResult (marginsWith 0.500));
    reflexivity.
Defined.

(** X4.  The violations of a compliance result are listed in the fixed
    order of the rules (trim size, inside, outside, top and bottom margin,
    fonts, offer page), each rule at most once. *)
Theorem checkCompliance_violations_in_rule_order
        (input : KDPComplianceInput) (r : KDPComplianceResult) :
  checkCompliance input = Ok r ->
  StronglySorted lt (map violationRank (violations r)).
Proof.
  unfold checkCompliance. intro H.
  destruct (calculateMargins (Compliance.pageCount input)) as [m|e];
    [|discriminate].
  injection H as <-. cbn [violations].
  destruct (forallb _ _), (Qge_bool (Compliance.insideMarginIn input) _),
    (Qge_bool (Compliance.outsideMarginIn input) _),
    (Qge_bool (Compliance.topMarginIn input) _),
    (Qge_bool (Compliance.bottomMarginIn input) _),
    (fontsEmbedded input), (Compliance.outputMode input),
    (offerPagePresent input);
    cbn; repeat (constructor; try lia).
Qed.

Lemma checkCompliance_violations_in_rule_order_witness :
  StronglySorted lt (map violationRank (violations faultyBookResult)).
Proof.
  apply (checkCompliance_violations_in_rule_order faultyBookInput).
  reflexivity.
Defined.

Lemma Qge_bool_wider (a a' c : Q) :
  (a <= a')%Q -> Qge_bool a c = true -> Qge_bool a' c = true.
Proof.
  unfold Qge_bool. intros Hle H. apply Qle_bool_iff in H.
  apply Qle_bool_iff. eapply Qle_trans; eassumption.
Qed.

(** X5.  Widening margins never costs compliance: when an input passes the
    checker, the input with the same measurements and no smaller margins
    passes too, and each rule that held still holds. *)
Theorem checkCompliance_monotone_in_margins
        (input wider : KDPComplianceInput) (r : KDPComplianceResult) :
  checkCompliance input = Ok r ->
  marginsNotSmaller input wider ->
  exists r',
    checkCompliance wider = Ok r' /\
    (inside_margin_correct r = true -> inside_margin_correct r' = true) /\
    (outside_margin_correct r = true -> outside_margin_correct r' = true) /\
    (top_margin_correct r = true -> top_margin_correct r' = true) /\
    (bottom_margin_correct r = true -> bottom_margin_correct r' = true) /\
    trim_size_correct r' = trim_size_correct r /\
    fonts_embedded r' = fonts_embedded r /\
    offer_page_present r' = offer_page_present r /\
    (passes r = true -> passes r' = true).
Proof.
  intros Hr (Hd & Hp & Hf & Ho & Hm & Hi & Hou & Ht & Hb).
  destruct (checkCompliance_page_count _ _ Hr) as (Hle & _).
  destruct (checkCompliance_returns wider) as [r' Hr']; [lia|].
  exists r'. split; [exact Hr'|].
  pose proof (checkCompliance_passes_flags _ _ Hr) as Hpass.
  pose proof (checkCompliance_passes_flags _ _ Hr') as Hpass'.
  unfold checkCompliance in Hr, Hr'. rewrite Hp in Hr'.
  destruct (calculateMargins (Compliance.pageCount input)) as [m|e];
    [|discriminate].
  injection Hr as <-. injection Hr' as <-.
  cbn [passes trim_size_correct inside_margin_correct
       outside_margin_correct top_margin_correct bottom_margin_correct
       fonts_embedded offer_page_present] in *.
  rewrite Hd, Hf, Ho, Hm in *.
  assert (Hi' := Qge_bool_wider _ _ (inside m - 0.001) Hi).
  assert (Hou' := Qge_bool_wider _ _ (MIN_OUTSIDE_MARGIN_IN - 0.001) Hou).
  assert (Ht' := Qge_bool_wider _ _ (MIN_TOP_MARGIN_IN - 0.001) Ht).
  assert (Hb' := Qge_bool_wider _ _ (MIN_BOTTOM_MARGIN_IN - 0.001) Hb).
  repeat (split; [first [assumption | reflexivity]|]).
  rewrite Hpass, Hpass'. intro Hall.
  repeat (apply andb_prop in Hall; destruct Hall as [Hall ?]).
  rewrite Hall, Hi', Hou', Ht', Hb' by assumption.
  repeat match goal with
         | H : ?x = true |- context [?x] => rewrite H
         end.
  reflexivity.
Qed.

Lemma checkCompliance_monotone_in_margins_witness :
  exists r',
    checkCompliance (widerBookInput publish_ready) = Ok r' /\
    (inside_margin_correct cleanBookResult = true ->
     inside_margin_correct r' = true) /\
    (outside_margin_correct cleanBookResult = true ->
     outside_margin_correct r' = true) /\
    (top_margin_correct cleanBookResult = true ->
     top_margin_correct r' = true) /\
    (bottom_margin_correct cleanBookResult = true ->
     bottom_margin_correct r' = true) /\
    trim_size_correct r' = trim_size_correct cleanBookResult /\
    fonts_embedded r' = fonts_embedded cleanBookResult /\
    offer_page_present r' = offer_page_present cleanBookResult /\
    (passes cleanBookResult = true -> passes r' = true).
Proof.
  apply (checkCompliance_monotone_in_margins
           (shortBookInput publish_ready) (widerBookInput publish_ready)
           cleanBookResult).
  - reflexivity.
  - unfold marginsNotSmaller. cbn.
    repeat split; try reflexivity; vm_compute; discriminate.
Defined.

(** X6.  [checkCompliance] returns exactly for page counts of at most 828
    and throws the [RangeError] of [calculateMargins] above, whatever the
    other measurements and the mode; when it returns, the result reports
    the page count it was given and raises the page-count warning exactly
    for counts below 24. *)
Theorem checkCompliance_page_count_behaviour (input : KDPComplianceInput) :
  ((Compliance.pageCount input <= 828)%Z
   <-> exists r, checkCompliance input = Ok r)
  /\ ((828 < Compliance.pageCount input)%Z ->
      checkCompliance input =
      Throw (RangeError
               ("Page count " ++ String_of_Z (Compliance.pageCount input)
                  ++ " exceeds KDP maximum of 828 pages.")))
  /\ (forall r : KDPComplianceResult,
         checkCompliance input = Ok r ->
         page_count r = Compliance.pageCount input /\
         (page_count_warning r = true
          <-> (Compliance.pageCount input < KDP_MIN_PAGE_COUNT)%Z)).
Proof.
  split; [split|split].
  - apply checkCompliance_returns.
  - intros [r Hr]. apply (checkCompliance_page_count _ _ Hr).
  - intro H. unfold checkCompliance.
    rewrite (calculateMargins_throws _ H). reflexivity.
  - intros r Hr. destruct (checkCompliance_page_count _ _ Hr) as (_ & Hc & Hw).
    split; [exact Hc|]. rewrite Hw. unfold KDP_MIN_PAGE_COUNT.
    apply Z.ltb_lt.
Qed.

Lemma checkCompliance_page_count_behaviour_witness :
  page_count cleanBookResult
  = Compliance.pageCount (shortBookInput personal)
  /\ (page_count_warning cleanBookResult = true
      <-> (Compliance.pageCount (shortBookInput personal)
           < KDP_MIN_PAGE_COUNT)%Z).
Proof.
  apply (proj2 (proj2 (checkCompliance_page_count_behaviour
                         (shortBookInput personal)))).
  reflexivity.
Defined.


(** ** Text wrapping *)

Section SplitFacts.

Variable sep : ascii.

Lemma split_not_nil (s : string) : split sep s <> [].
Proof.
  induction s as [|c rest IH]; cbn [split]; [discriminate|].
  destruct (Ascii.eqb c sep); [discriminate|].
  destruct (split sep rest); discriminate.
Qed.

Lemma split_pieces_without_sep (s : string) :
  Forall (fun piece => hasChar sep piece = false) (split sep s).
Proof.
  induction s as [|c rest IH]; cbn [split].
  - constructor; [reflexivity|constructor].
  - destruct (Ascii.eqb c sep) eqn:E.
    + constructor; [reflexivity|exact IH].
    + destruct (split sep rest) as [|h t].
      * constructor; [cbn; rewrite E; reflexivity|constructor].
      * inversion IH as [|? ? Hh Ht]; subst.
        constructor; [cbn; rewrite E, Hh; reflexivity|exact Ht].
Qed.

Lemma split_app_sep (a b : string) :
  split sep (a ++ String sep b) = split sep a ++ split sep b.
Proof.
  induction a as [|c a IH]; cbn [append split].
  - rewrite Ascii.eqb_refl. reflexivity.
  - destruct (Ascii.eqb c sep); [rewrite IH; reflexivity|].
    rewrite IH. pose proof (split_not_nil a) as Hn.
    destruct (split sep a) as [|h t]; [congruence|reflexivity].
Qed.

Lemma split_without_sep (s : string) :
  hasChar sep s = false -> split sep s = [s].
Proof.
  induction s as [|c rest IH]; cbn [hasChar split]; [reflexivity|].
  intro H. apply orb_false_iff in H. destruct H as [Hc Hr].
  rewrite Hc, (IH Hr). reflexivity.
Qed.

Lemma hasChar_append (a b : string) :
  hasChar sep (a ++ b) = (hasChar sep a || hasChar sep b)%bool.
Proof.
  induction a as [|c a IH]; cbn [append hasChar]; [reflexivity|].
  rewrite IH, orb_assoc. reflexivity.
Qed.

End SplitFacts.

Lemma words_are_words (paragraph : string) :
  Forall isWord (words paragraph).
Proof.
  unfold words. apply Forall_forall. intros x Hx.
  apply filter_In in Hx. destruct Hx as [Hin Hne].
  split; [exact Hne|].
  pose proof (split_pieces_without_sep space paragraph) as H.
  rewrite Forall_forall in H. exact (H x Hin).
Qed.

Lemma words_of_word (s : string) : isWord s -> words s = [s].
Proof.
  intros [Hne Hsp]. unfold words.
  rewrite (split_without_sep space s Hsp). cbn [filter]. rewrite Hne.
  reflexivity.
Qed.

Lemma words_empty : words EmptyString = [].
Proof. reflexivity. Qed.

Lemma words_candidate (current word : string) :
  isWord word ->
  words (if Nat.eqb (String.length current) 0 then word
         else (current ++ " " ++ word)%string)
  = words current ++ [word].
Proof.
  intro Hw. destruct current as [|c rest].
  - cbn [String.length Nat.eqb]. rewrite (words_of_word _ Hw). reflexivity.
  - cbn [String.length Nat.eqb].
    change (String c rest ++ " " ++ word)%string
      with (String c rest ++ String space word)%string.
    unfold words at 1. rewrite split_app_sep, filter_app.
    fold (words (String c rest)). fold (words word).
    rewrite (words_of_word _ Hw). reflexivity.
Qed.

Lemma nonEmpty_false (s : string) : nonEmpty s = false -> s = EmptyString.
Proof. destruct s; [reflexivity|discriminate]. Qed.

Lemma nonEmpty_candidate (current word : string) :
  nonEmpty word = true ->
  nonEmpty (if Nat.eqb (String.length current) 0 then word
            else (current ++ " " ++ word)%string) = true.
Proof.
  intro H. destruct current; [exact H|reflexivity].
Qed.

Section WrapFacts.

Variable w : Metric.
Variable font : PDFFont.
Variables fontSize maxWidth : Q.

Lemma lineWords_app (l1 l2 : list string) :
  lineWords (l1 ++ l2) = lineWords l1 ++ lineWords l2.
Proof. apply flat_map_app. Qed.

Lemma pushed_current_words (current : string) (lines : list string) :
  lineWords (if nonEmpty current then lines ++ [current] else lines)
  = lineWords lines ++ words current.
Proof.
  destruct (nonEmpty current) eqn:E.
  - rewrite lineWords_app. cbn. rewrite app_nil_r. reflexivity.
  - rewrite (nonEmpty_false _ E), words_empty, app_nil_r. reflexivity.
Qed.

Lemma wrapWords_words (ws : list string) :
  Forall isWord ws ->
  forall (current : string) (lines : list string),
    lineWords (snd (wrapWords w font fontSize maxWidth ws current lines))
      ++ words (fst (wrapWords w font fontSize maxWidth ws current lines))
    = lineWords lines ++ words current ++ ws.
Proof.
  induction 1 as [|word ws Hw _ IH]; intros current lines.
  - cbn. rewrite app_nil_r. reflexivity.
  - cbn [wrapWords].
    destruct (Qle_bool _ maxWidth).
    + rewrite IH, (words_candidate _ _ Hw), <- app_assoc. reflexivity.
    + rewrite IH, pushed_current_words, (words_of_word _ Hw),
        <- !app_assoc.
      reflexivity.
Qed.

Lemma wrapParagraphs_words (paragraphs : list string) :
  forall lines : list string,
    lineWords (wrapParagraphs w font fontSize maxWidth paragraphs lines)
    = lineWords lines ++ lineWords paragraphs.
Proof.
  induction paragraphs as [|paragraph rest IH]; intro lines.
  - cbn. rewrite app_nil_r. reflexivity.
  - cbn [wrapParagraphs]. fold (words paragraph).
    pose proof (words_are_words paragraph) as Hws.
    destruct (words paragraph) as [|wd ws] eqn:E.
    + rewrite IH, lineWords_app. cbn [lineWords flat_map].
      rewrite E, words_empty. cbn. rewrite app_nil_r. reflexivity.
    + pose proof (wrapWords_words (wd :: ws) Hws EmptyString lines) as H.
      destruct (wrapWords w font fontSize maxWidth (wd :: ws) EmptyString
                          lines) as [current lines1].
      cbn [fst snd] in H. rewrite words_empty in H. cbn [app] in H.
      rewrite IH, pushed_current_words, H.
      cbn [lineWords flat_map]. rewrite E, <- app_assoc. reflexivity.
Qed.

End WrapFacts.

(** X7.  Wrapping loses no text: the words of the lines [wrapText]
    returns, read in order, are exactly the words of the paragraphs of the
    text, whatever the font metric and the width. *)
Theorem wrapText_preserves_words
        (w : Metric) (text : string) (font : PDFFont)
        (fontSize maxWidth : Q) :
  flat_map words (wrapText w text font fontSize maxWidth)
  = flat_map words (split newline text).
Proof.
  unfold wrapText. destruct text as [|c rest]; [reflexivity|].
  cbn [String.length Nat.eqb].
  exact (wrapParagraphs_words w font fontSize maxWidth
                              (split newline (String c rest)) []).
Qed.


Lemma split_keeps_absent (sep c : ascii) (s : string) :
  hasChar c s = false ->
  Forall (fun piece => hasChar c piece = false) (split sep s).
Proof.
  induction s as [|a rest IH]; cbn [split hasChar]; intro H.
  - constructor; [reflexivity|constructor].
  - apply orb_false_iff in H. destruct H as [Ha Hr]. specialize (IH Hr).
    destruct (Ascii.eqb a sep).
    + constructor; [reflexivity|exact IH].
    + destruct (split sep rest) as [|h t].
      * constructor; [cbn; rewrite Ha; reflexivity|constructor].
      * inversion IH as [|? ? Hh Ht]; subst.
        constructor; [cbn; rewrite Ha, Hh; reflexivity|exact Ht].
Qed.

Section WrapShape.

Variable w : Metric.
Variable font : PDFFont.
Variables fontSize maxWidth : Q.

Local Abbreviation ok := (wellWrapped w font fontSize maxWidth).

Lemma wellWrapped_empty : ok EmptyString.
Proof. split; [right|]; reflexivity. Qed.

Lemma wrapWords_wellWrapped (ws : list string) :
  Forall (fun wd => hasChar space wd = false /\ hasChar newline wd = false)
         ws ->
  forall (current : string) (lines : list string),
    ok current -> Forall ok lines ->
    ok (fst (wrapWords w font fontSize maxWidth ws current lines))
    /\ Forall ok (snd (wrapWords w font fontSize maxWidth ws current lines)).
Proof.
  induction 1 as [|word ws [Hsp Hnl] _ IH]; intros current lines Hc Hl.
  - split; assumption.
  - cbn [wrapWords].
    destruct (Qle_bool _ maxWidth) eqn:E.
    + apply IH; [|exact Hl].
      split; [left; apply Qle_bool_iff; exact E|].
      destruct current as [|c rest]; [exact Hnl|].
      cbn [String.length Nat.eqb]. destruct Hc as [_ Hcn].
      rewrite hasChar_append, Hcn. cbn. exact Hnl.
    + apply IH.
      * split; [right; exact Hsp|exact Hnl].
      * destruct (nonEmpty current); [|exact Hl].
        apply Forall_app. split; [exact Hl|].
        constructor; [exact Hc|constructor].
Qed.

Lemma wrapParagraphs_wellWrapped (paragraphs : list string) :
  Forall (fun p => hasChar newline p = false) paragraphs ->
  forall lines : list string,
    Forall ok lines ->
    Forall ok (wrapParagraphs w font fontSize maxWidth paragraphs lines).
Proof.
  induction 1 as [|paragraph rest Hp _ IH]; intros lines Hl; [exact Hl|].
  cbn [wrapParagraphs]. fold (words paragraph).
  assert (Hws : Forall (fun wd => hasChar space wd = false
                                  /\ hasChar newline wd = false)
                       (words paragraph)).
  { unfold words. apply Forall_forall. intros x Hx.
    apply filter_In in Hx. destruct Hx as [Hin _].
    pose proof (split_pieces_without_sep space paragraph) as H1.
    pose proof (split_keeps_absent space newline paragraph Hp) as H2.
    rewrite Forall_forall in H1, H2. split; [exact (H1 x Hin)|exact (H2 x Hin)]. }
  destruct (words paragraph) as [|wd ws].
  - apply IH. apply Forall_app. split; [exact Hl|].
    constructor; [exact wellWrapped_empty|constructor].
  - destruct (wrapWords_wellWrapped (wd :: ws) Hws EmptyString lines
                                    wellWrapped_empty Hl) as [Hc Hl1].
    destruct (wrapWords w font fontSize maxWidth (wd :: ws) EmptyString
                        lines) as [current lines1].
    cbn [fst snd] in Hc, Hl1. apply IH.
    destruct (nonEmpty current); [|exact Hl1].
    apply Forall_app. split; [exact Hl1|].
    constructor; [exact Hc|constructor].
Qed.

(** How many lines a list of words can add: the count of lines, the open
    line included, grows by at most one per word and never shrinks, and the
    open line is not empty once a word went in. *)
Lemma wrapWords_count (ws : list string) :
  Forall isWord ws ->
  forall (current : string) (lines : list string),
    let r := wrapWords w font fontSize maxWidth ws current lines in
    let m (c : string) (l : list string) :=
      (List.length l + if nonEmpty c then 1 else 0)%nat in
    (m current lines <= m (fst r) (snd r)
     <= m current lines + List.length ws)%nat
    /\ (List.length lines <= List.length (snd r))%nat
    /\ (nonEmpty current = true \/ ws <> [] -> nonEmpty (fst r) = true).
Proof.
  induction 1 as [|word ws [Hne _] _ IH]; intros current lines; cbv beta zeta.
  - cbn. repeat split; try lia. intros [H|H]; [exact H|congruence].
  - cbn [wrapWords List.length].
    pose proof (nonEmpty_candidate current word Hne) as Hcand.
    destruct (Qle_bool _ maxWidth).
    + match goal with
      | |- context [wrapWords _ _ _ _ ws ?c lines] => set (cand := c) in *
      end.
      specialize (IH cand lines). cbv beta zeta in IH. rewrite Hcand in IH.
      destruct IH as ((H1 & H2) & H3 & H4).
      rewrite H4 in * by (left; reflexivity).
      destruct (nonEmpty current); repeat split; try lia; reflexivity.
    + match goal with
      | |- context [wrapWords _ _ _ _ ws word ?l] => set (pushed := l) in *
      end.
      specialize (IH word pushed). cbv beta zeta in IH. rewrite Hne in IH.
      destruct IH as ((H1 & H2) & H3 & H4).
      rewrite H4 in * by (left; reflexivity).
      subst pushed.
      destruct (nonEmpty current);
        rewrite ?length_app in *; cbn [List.length] in *;
        repeat split; try lia; reflexivity.
Qed.

Lemma wrapParagraphs_count (paragraphs : list string) :
  forall lines : list string,
    (List.length lines + List.length paragraphs
     <= List.length (wrapParagraphs w font fontSize maxWidth paragraphs lines)
     <= List.length lines + List.length (lineWords paragraphs)
        + List.length (filter isBlank paragraphs))%nat.
Proof.
  induction paragraphs as [|paragraph rest IH]; intro lines.
  - cbn. lia.
  - cbn [wrapParagraphs filter lineWords flat_map List.length].
    fold (words paragraph). fold (lineWords rest). unfold isBlank at 1.
    pose proof (words_are_words paragraph) as Hws.
    rewrite length_app.
    destruct (words paragraph) as [|wd ws] eqn:E.
    + specialize (IH (lines ++ [EmptyString])).
      rewrite length_app in IH. cbn [List.length] in *. lia.
    + pose proof (wrapWords_count (wd :: ws) Hws EmptyString lines) as H.
      cbv beta zeta in H.
      destruct (wrapWords w font fontSize maxWidth (wd :: ws) EmptyString
                          lines) as [current lines1].
      cbn [fst snd] in H. change (nonEmpty EmptyString) with false in H.
      destruct H as ((H1 & H2) & H3 & H4).
      assert (Hc : nonEmpty current = true) by (apply H4; right; discriminate).
      rewrite Hc in *.
      specialize (IH (lines1 ++ [current])).
      rewrite length_app in IH. cbn [List.length] in *. lia.
Qed.

End WrapShape.

(** X8.  Every line [wrapText] returns either fits the width it was given
    or is a single word (it holds no space), and no line holds a line
    break. *)
Theorem wrapText_lines_fit_or_are_one_word
        (w : Metric) (text : string) (font : PDFFont)
        (fontSize maxWidth : Q) :
  Forall (fun line =>
            ((w font line fontSize <= maxWidth)%Q
             \/ hasChar space line = false)
            /\ hasChar newline line = false)
         (wrapText w text font fontSize maxWidth).
Proof.
  unfold wrapText. destruct (Nat.eqb (String.length text) 0); [constructor|].
  apply (wrapParagraphs_wellWrapped w font fontSize maxWidth).
  - apply split_pieces_without_sep.
  - constructor.
Qed.

(** X9.  A text that is one word (not empty, without space or line break)
    comes back as that one line, also when it is wider than the width: it
    is neither broken nor dropped. *)
Theorem wrapText_single_word
        (w : Metric) (word : string) (font : PDFFont)
        (fontSize maxWidth : Q) :
  word <> EmptyString ->
  hasChar space word = false ->
  hasChar newline word = false ->
  wrapText w word font fontSize maxWidth = [word].
Proof.
  intros Hne Hsp Hnl. unfold wrapText.
  destruct word as [|c rest]; [congruence|].
  cbn [String.length Nat.eqb].
  rewrite (split_without_sep newline _ Hnl). cbn [wrapParagraphs].
  rewrite (split_without_sep space _ Hsp). cbn [filter].
  change (nonEmpty (String c rest)) with true. cbn iota.
  cbn [wrapWords String.length Nat.eqb].
  destruct (Qle_bool _ maxWidth); reflexivity.
Qed.

Lemma wrapText_single_word_witness :
  wrapText fixedPitch "Superlongwordwithnospacesthatexceedsthelinewidth"
           Regular 11 50
  = ["Superlongwordwithnospacesthatexceedsthelinewidth"%string].
Proof.
  apply (wrapText_single_word fixedPitch
           "Superlongwordwithnospacesthatexceedsthelinewidth" Regular 11 50).
  - discriminate.
  - reflexivity.
  - reflexivity.
Defined.

(** X10.  For a text that is not empty, [wrapText] returns at least one
    line per paragraph (explicit line breaks are kept) and at most one line
    per word plus one per paragraph without words. *)
Theorem wrapText_line_count
        (w : Metric) (text : string) (font : PDFFont)
        (fontSize maxWidth : Q) :
  text <> EmptyString ->
  (List.length (split newline text)
   <= List.length (wrapText w text font fontSize maxWidth)
   <= List.length (flat_map words (split newline text))
      + List.length (filter isBlank (split newline text)))%nat.
Proof.
  intro Hne. unfold wrapText. destruct text as [|c rest]; [congruence|].
  cbn [String.length Nat.eqb].
  exact (wrapParagraphs_count w font fontSize maxWidth
                              (split newline (String c rest)) []).
Qed.

Lemma wrapText_line_count_witness :
  (List.length (split newline "Line one
Line two")
   <= List.length (wrapText fixedPitch "Line one
Line two" Regular 11 378)
   <= List.length (flat_map words (split newline "Line one
Line two"))
      + List.length (filter isBlank (split newline "Line one
Line two")))%nat.
Proof.
  apply (wrapText_line_count fixedPitch "Line one
Line two" Regular 11 378).
  discriminate.
Defined.


(** ** Block renderers *)

Lemma Qminus_pos_lt (y d : Q) : (0 < d)%Q -> (y - d < y)%Q.
Proof.
  intro H. apply (Qplus_lt_l _ _ d).
  setoid_replace (y - d + d)%Q with y by ring.
  rewrite <- (Qplus_0_r y) at 1. apply Qplus_lt_r. exact H.
Qed.

Lemma Qminus_nonneg_le (y d : Q) : (0 <= d)%Q -> (y - d <= y)%Q.
Proof.
  intro H. apply (Qplus_le_l _ _ d).
  setoid_replace (y - d + d)%Q with y by ring.
  rewrite <- (Qplus_0_r y) at 1. apply Qplus_le_r. exact H.
Qed.

Lemma Qplus_nonneg_pos (a s : Q) : (0 <= a)%Q -> (0 < s)%Q -> (0 < a + s)%Q.
Proof.
  intros Ha Hs. pose proof (Qplus_lt_le_compat 0 s 0 a Hs Ha) as H.
  setoid_replace (0 + 0)%Q with 0%Q in H by ring.
  setoid_replace (s + a)%Q with (a + s)%Q in H by ring.
  exact H.
Qed.

Lemma inject_nat_S (n : nat) :
  (inject_Z (Z.of_nat (S n)) == inject_Z (Z.of_nat n) + 1)%Q.
Proof.
  rewrite Nat2Z.inj_succ. unfold Z.succ. rewrite inject_Z_plus. reflexivity.
Qed.

Lemma drawAll_draw (op : DrawOp) (drawn : list DrawOp) (p : PDFPage) :
  drawAll drawn (draw op p) = drawAll (op :: drawn) p.
Proof.
  unfold drawAll, draw. cbn [page_size operations].
  rewrite <- app_assoc. reflexivity.
Qed.

Lemma drawAll_nil (p : PDFPage) : drawAll [] p = p.
Proof.
  unfold drawAll. rewrite app_nil_r. destruct p. reflexivity.
Qed.

Lemma drawLinesLoop_page (lines : list string) :
  forall (p : PDFPage) (font : PDFFont) (fontSize x y lineHeight : Q),
    fst (drawLinesLoop lines p font fontSize x y lineHeight)
    = drawAll (lineOps lines font fontSize x y lineHeight) p.
Proof.
  induction lines as [|line rest IH]; intros.
  - cbn. symmetry. apply drawAll_nil.
  - cbn [drawLinesLoop lineOps]. rewrite IH. apply drawAll_draw.
Qed.

Lemma drawLinesLoop_y (lines : list string) :
  forall (p : PDFPage) (font : PDFFont) (fontSize x y lineHeight : Q),
    (snd (drawLinesLoop lines p font fontSize x y lineHeight)
     == y - inject_Z (Z.of_nat (List.length lines)) * lineHeight)%Q.
Proof.
  induction lines as [|line rest IH]; intros.
  - cbn [drawLinesLoop snd List.length]. ring.
  - cbn [drawLinesLoop List.length]. rewrite IH, inject_nat_S. ring.
Qed.

Lemma length_lineOps (lines : list string) :
  forall (font : PDFFont) (fontSize x y lineHeight : Q),
    List.length (lineOps lines font fontSize x y lineHeight)
    = List.length lines.
Proof.
  induction lines as [|line rest IH]; intros; [reflexivity|].
  cbn [lineOps List.length]. rewrite IH. reflexivity.
Qed.

(** The effect of the shape shared by the text renderers. *)
Lemma renderLinesAt_spec (lines : list string) (font : PDFFont)
      (size startX spacing : Q) (ctx : RenderContext) :
  fst (renderLinesAt lines font size startX spacing ctx)
  = withPage ctx
      (drawAll (lineOps lines font size startX
                        (cursor_y (Blocks.cursor ctx)) (size * LEADING))
               (page ctx))
  /\ cursor_x (result_cursor
                 (snd (renderLinesAt lines font size startX spacing ctx)))
     = startX
  /\ (cursor_y (result_cursor
                  (snd (renderLinesAt lines font size startX spacing ctx)))
      == cursor_y (Blocks.cursor ctx)
         - inject_Z (Z.of_nat (List.length lines)) * (size * LEADING)
         - spacing)%Q.
Proof.
  unfold renderLinesAt, drawLines.
  pose proof (drawLinesLoop_page lines (page ctx) font size startX
                (cursor_y (Blocks.cursor ctx)) (size * LEADING)) as Hp.
  pose proof (drawLinesLoop_y lines (page ctx) font size startX
                (cursor_y (Blocks.cursor ctx)) (size * LEADING)) as Hy.
  destruct (drawLinesLoop lines (page ctx) font size startX
                          (cursor_y (Blocks.cursor ctx)) (size * LEADING))
    as [p' y'].
  cbn [fst snd result_cursor cursor_x cursor_y] in *.
  rewrite Hp, Hy. repeat split; reflexivity.
Qed.

(** What a text renderer does, for each of the nine text-bearing types. *)
Lemma renderBlock_text_spec (w : Metric) (b : DocumentBlock)
      (ctx : RenderContext) (st : TextStyle) :
  textStyleOf (block_type b) = Some st ->
  let font := style_face st (Blocks.fonts ctx) in
  let lines := textLines w st b ctx in
  fst (renderBlock w b ctx)
  = withPage ctx
      (drawAll (lineOps lines font (style_size st) (textStartX st ctx)
                        (cursor_y (Blocks.cursor ctx))
                        (style_size st * LEADING))
               (page ctx))
  /\ cursor_x (result_cursor (snd (renderBlock w b ctx))) = textStartX st ctx
  /\ (cursor_y (result_cursor (snd (renderBlock w b ctx)))
      == cursor_y (Blocks.cursor ctx)
         - inject_Z (Z.of_nat (List.length lines))
           * (style_size st * LEADING)
         - style_spacing st)%Q.
Proof.
  unfold renderBlock, textLines. intro H.
  destruct (block_type b); cbn [textStyleOf] in H;
    try discriminate H; injection H as <-;
    cbn [BLOCK_RENDERERS style_face style_size style_spacing
         style_indented textStartX textWidth];
    apply renderLinesAt_spec.
Qed.

Lemma textStyle_positive (t : BlockType) (st : TextStyle) :
  textStyleOf t = Some st ->
  (0 < style_size st * LEADING)%Q /\ (0 < style_spacing st)%Q.
Proof.
  destruct t; cbn [textStyleOf]; intro H; try discriminate H;
    injection H as <-; split; reflexivity.
Qed.

(** X11.  A text-bearing block (heading, body text, block quote, prompt or
    action list, title, subtitle, imprint, table-of-contents entry) is set
    as a column of lines from the cursor down, and the cursor is lowered by
    the number of lines times 1.4 times the font size, plus the spacing of
    the type; nothing else of the context changes. *)
Theorem renderBlock_text_lowers_cursor_by_lines
        (w : Metric) (b : DocumentBlock) (ctx : RenderContext)
        (st : TextStyle) :
  textStyleOf (block_type b) = Some st ->
  let font := style_face st (Blocks.fonts ctx) in
  let lines := textLines w st b ctx in
  fst (renderBlock w b ctx)
  = withPage ctx
      (drawAll (lineOps lines font (style_size st) (textStartX st ctx)
                        (cursor_y (Blocks.cursor ctx))
                        (style_size st * LEADING))
               (page ctx))
  /\ cursor_x (result_cursor (snd (renderBlock w b ctx))) = textStartX st ctx
  /\ (cursor_y (result_cursor (snd (renderBlock w b ctx)))
      == cursor_y (Blocks.cursor ctx)
         - inject_Z (Z.of_nat (List.length lines))
           * (style_size st * LEADING)
         - style_spacing st)%Q.
Proof.
  unfold renderBlock, textLines. intro H.
  destruct (block_type b); cbn [textStyleOf] in H;
    try discriminate H; injection H as <-;
    cbn [BLOCK_RENDERERS style_face style_size style_spacing
         style_indented textStartX textWidth];
    apply renderLinesAt_spec.
Qed.


Lemma renderBlock_text_lowers_cursor_by_lines_witness :
  textLines fixedPitch promptStyle spacedPromptList sampleContext
  = ["• Pray"; "• Rest"]%string
  /\ (cursor_y (result_cursor
                  (snd (renderBlock fixedPitch spacedPromptList
                                    sampleContext)))
      == 582.2)%Q.
Proof.
  split; [vm_compute; reflexivity|].
  destruct (renderBlock_text_lowers_cursor_by_lines
              fixedPitch spacedPromptList sampleContext promptStyle eq_refl)
    as (_ & _ & Hy).
  apply (Qeq_trans _ _ _ Hy). vm_compute. reflexivity.
Defined.

(** X12.  Whatever the block, [renderBlock] only adds to what is drawn on
    the page, keeps the page size and the geometry of the context, and
    never raises the cursor.  The cursor stays where it was for a footnote
    and a page break, which draw nothing, and goes strictly down for every
    other type; only a footnote touches the pending list. *)
Theorem renderBlock_appends_and_never_raises_cursor
        (w : Metric) (b : DocumentBlock) (ctx : RenderContext) :
  let ctx' := fst (renderBlock w b ctx) in
  let cursor' := result_cursor (snd (renderBlock w b ctx)) in
  let deferred :=
    (isFootnote (block_type b) || isPageBreak (block_type b))%bool in
  (exists drawn, page ctx' = drawAll drawn (page ctx))
  /\ Blocks.fonts ctx' = Blocks.fonts ctx
  /\ Blocks.contentWidth ctx' = Blocks.contentWidth ctx
  /\ Blocks.contentX ctx' = Blocks.contentX ctx
  /\ (cursor_y cursor' <= cursor_y (Blocks.cursor ctx))%Q
  /\ (deferred = true -> cursor' = Blocks.cursor ctx /\ page ctx' = page ctx)
  /\ (deferred = false -> (cursor_y cursor' < cursor_y (Blocks.cursor ctx))%Q)
  /\ (isFootnote (block_type b) = false ->
      Blocks.pendingFootnotes ctx' = Blocks.pendingFootnotes ctx).
Proof.
  cbv zeta.
  destruct (textStyleOf (block_type b)) as [st|] eqn:Est.
  - destruct (renderBlock_text_spec w b ctx st Est) as (Hp & _ & Hy).
    destruct (textStyle_positive _ _ Est) as [Hlh Hsp].
    assert (Hdown : (cursor_y (result_cursor (snd (renderBlock w b ctx)))
                     < cursor_y (Blocks.cursor ctx))%Q).
    { rewrite Hy.
      set (n := inject_Z (Z.of_nat (List.length (textLines w st b ctx)))).
      assert (Hn : (0 <= n)%Q).
      { unfold n. change 0%Q with (inject_Z 0). rewrite <- Zle_Qle. lia. }
      setoid_replace (cursor_y (Blocks.cursor ctx)
                      - n * (style_size st * LEADING) - style_spacing st)%Q
        with (cursor_y (Blocks.cursor ctx)
              - (n * (style_size st * LEADING) + style_spacing st))%Q
        by ring.
      apply Qminus_pos_lt. apply Qplus_nonneg_pos; [|exact Hsp].
      apply Qmult_le_0_compat; [exact Hn|apply Qlt_le_weak; exact Hlh]. }
    rewrite Hp. cbn [withPage page Blocks.fonts Blocks.contentWidth
                     Blocks.contentX Blocks.pendingFootnotes].
    split; [eexists; reflexivity|].
    repeat (split; [reflexivity|]).
    split; [apply Qlt_le_weak; exact Hdown|].
    split; [|split; [intros _; exact Hdown|intros _; reflexivity]].
    intro Hd. destruct (block_type b); discriminate.
  - unfold renderBlock.
    destruct (block_type b); try discriminate Est;
      cbn [BLOCK_RENDERERS isFootnote isPageBreak orb].
    + (* footnote *)
      cbn. split; [exists []; symmetry; apply drawAll_nil|].
      repeat (split; [reflexivity|]).
      split; [apply Qle_refl|].
      split; [intros _; split; reflexivity|].
      split; [discriminate|discriminate].
    + (* divider *)
      cbn [renderDivider fst snd withPage page Blocks.fonts
           Blocks.contentWidth Blocks.contentX Blocks.pendingFootnotes
           result_cursor cursor_y].
      assert (Hdown : (cursor_y (Blocks.cursor ctx) - 8 - 8 - BLOCK_SPACING
                       < cursor_y (Blocks.cursor ctx))%Q).
      { setoid_replace (cursor_y (Blocks.cursor ctx) - 8 - 8
                        - BLOCK_SPACING)%Q
          with (cursor_y (Blocks.cursor ctx) - (8 + 8 + BLOCK_SPACING))%Q
          by ring.
        apply Qminus_pos_lt. reflexivity. }
      split; [eexists; reflexivity|].
      repeat (split; [reflexivity|]).
      split; [apply Qlt_le_weak; exact Hdown|].
      split; [discriminate|].
      split; [intros _; exact Hdown|intros _; reflexivity].
    + (* page_break *)
      cbn. split; [exists []; symmetry; apply drawAll_nil|].
      repeat (split; [reflexivity|]).
      split; [apply Qle_refl|].
      split; [intros _; split; reflexivity|].
      split; [discriminate|intros _; reflexivity].
Qed.

Lemma renderBlock_appends_and_never_raises_cursor_witness :
  (cursor_y (result_cursor
               (snd (renderBlock fixedPitch sampleHeading sampleContext)))
   < cursor_y (Blocks.cursor sampleContext))%Q.
Proof.
  apply (proj1 (proj2 (proj2 (proj2 (proj2 (proj2 (proj2
           (renderBlock_appends_and_never_raises_cursor
              fixedPitch sampleHeading sampleContext)))))))).
  reflexivity.
Defined.

(** X13.  A text-bearing block with empty content draws nothing; the
    cursor still goes down by the spacing of its type. *)
Theorem renderBlock_empty_text
        (w : Metric) (b : DocumentBlock) (ctx : RenderContext)
        (st : TextStyle) :
  textStyleOf (block_type b) = Some st ->
  content b = EmptyString ->
  fst (renderBlock w b ctx) = ctx
  /\ (cursor_y (result_cursor (snd (renderBlock w b ctx)))
      == cursor_y (Blocks.cursor ctx) - style_spacing st)%Q.
Proof.
  intros Hst Hc.
  destruct (renderBlock_text_spec w b ctx st Hst) as (Hp & _ & Hy).
  assert (Hl : textLines w st b ctx = []).
  { unfold textLines, listLines. rewrite Hc.
    destruct (block_type b); reflexivity. }
  rewrite Hl in Hp, Hy. cbn [lineOps List.length] in Hp, Hy.
  rewrite drawAll_nil in Hp. split.
  - rewrite Hp. destruct ctx. reflexivity.
  - rewrite Hy. cbn [Z.of_nat]. ring.
Qed.

Lemma renderBlock_empty_text_witness :
  fst (renderBlock fixedPitch (plainBlock heading EmptyString) sampleContext)
  = sampleContext
  /\ (cursor_y (result_cursor
                  (snd (renderBlock fixedPitch
                                    (plainBlock heading EmptyString)
                                    sampleContext)))
      == cursor_y (Blocks.cursor sampleContext)
         - style_spacing headingStyle)%Q.
Proof.
  apply (renderBlock_empty_text fixedPitch (plainBlock heading EmptyString)
                                sampleContext headingStyle);
    reflexivity.
Defined.

(** X14.  A divider draws one rule and nothing else: 8pt below the cursor,
    four fifths of the content width long and centred in the content area;
    the cursor goes to the left edge of the content, 24pt lower. *)
Theorem renderBlock_divider_geometry
        (w : Metric) (b : DocumentBlock) (ctx : RenderContext) :
  block_type b = divider ->
  exists x1 x2 y : Q,
    page (fst (renderBlock w b ctx))
    = draw (DrawLine x1 y x2 y 0.5 COLOR_DARK_GRAY) (page ctx)
    /\ (y == cursor_y (Blocks.cursor ctx) - 8)%Q
    /\ (x2 - x1 == Blocks.contentWidth ctx * 4 / 5)%Q
    /\ ((x1 + x2) / 2
        == Blocks.contentX ctx + Blocks.contentWidth ctx / 2)%Q
    /\ cursor_x (result_cursor (snd (renderBlock w b ctx)))
       = Blocks.contentX ctx
    /\ (cursor_y (result_cursor (snd (renderBlock w b ctx)))
        == cursor_y (Blocks.cursor ctx) - 24)%Q.
Proof.
  intro Hb. unfold renderBlock. rewrite Hb.
  cbn [BLOCK_RENDERERS renderDivider fst snd withPage page result_cursor
       cursor_x cursor_y].
  eexists; eexists; eexists.
  split; [reflexivity|].
  split; [reflexivity|].
  unfold DIVIDER_WIDTH_RATIO, BLOCK_SPACING.
  repeat split; try reflexivity; field.
Qed.

Lemma renderBlock_divider_geometry_witness :
  exists x1 x2 y : Q,
    page (fst (renderBlock fixedPitch (plainBlock divider EmptyString)
                           sampleContext))
    = draw (DrawLine x1 y x2 y 0.5 COLOR_DARK_GRAY) (page sampleContext)
    /\ (y == cursor_y (Blocks.cursor sampleContext) - 8)%Q
    /\ (x2 - x1 == Blocks.contentWidth sampleContext * 4 / 5)%Q
    /\ ((x1 + x2) / 2
        == Blocks.contentX sampleContext
           + Blocks.contentWidth sampleContext / 2)%Q
    /\ cursor_x (result_cursor
                   (snd (renderBlock fixedPitch
                                     (plainBlock divider EmptyString)
                                     sampleContext)))
       = Blocks.contentX sampleContext
    /\ (cursor_y (result_cursor
                    (snd (renderBlock fixedPitch
                                      (plainBlock divider EmptyString)
                                      sampleContext)))
        == cursor_y (Blocks.cursor sampleContext) - 24)%Q.
Proof.
  apply (renderBlock_divider_geometry fixedPitch
           (plainBlock divider EmptyString) sampleContext).
  reflexivity.
Defined.


(** ** Footnote area *)

Section FootnoteArea.

Variable w : Metric.

Lemma footnoteLinesLoop_page (lines : list string) :
  forall (p : PDFPage) (font : PDFFont) (size cx y lineHeight : Q),
    fst (footnoteLinesLoop lines p font size cx y lineHeight)
    = drawAll (footnoteOps lines font size cx y lineHeight) p.
Proof.
  induction lines as [|line rest IH]; intros.
  - cbn. symmetry. apply drawAll_nil.
  - cbn [footnoteLinesLoop footnoteOps]. rewrite IH. apply drawAll_draw.
Qed.

Lemma footnoteLinesLoop_y_any_page (lines : list string) :
  forall (p1 p2 : PDFPage) (font : PDFFont) (size cx y lineHeight : Q),
    snd (footnoteLinesLoop lines p1 font size cx y lineHeight)
    = snd (footnoteLinesLoop lines p2 font size cx y lineHeight).
Proof.
  induction lines as [|l r IH]; intros; [reflexivity|].
  cbn [footnoteLinesLoop]. apply IH.
Qed.

Lemma footnoteOps_app (l1 : list string) :
  forall (l2 : list string) (font : PDFFont) (size cx y lineHeight : Q),
    footnoteOps (l1 ++ l2) font size cx y lineHeight
    = footnoteOps l1 font size cx y lineHeight
        ++ footnoteOps l2 font size cx
             (snd (footnoteLinesLoop l1 newPage font size cx y lineHeight))
             lineHeight.
Proof.
  induction l1 as [|line rest IH]; intros; [reflexivity|].
  cbn [app footnoteOps footnoteLinesLoop]. rewrite IH.
  rewrite (footnoteLinesLoop_y_any_page rest
             (draw (DrawText line cx (y - size) font size COLOR_DARK_GRAY)
                   newPage) newPage).
  reflexivity.
Qed.

Lemma drawAll_drawAll (d1 d2 : list DrawOp) (p : PDFPage) :
  drawAll d2 (drawAll d1 p) = drawAll (d1 ++ d2) p.
Proof.
  unfold drawAll. cbn [page_size operations]. rewrite app_assoc.
  reflexivity.
Qed.

Lemma footnotesLoop_page (fns : list DocumentBlock) :
  forall (p : PDFPage) (cx cw y lineHeight : Q),
    fst (footnotesLoop w fns p Regular FOOTNOTE cx cw y lineHeight)
    = drawAll (footnoteOps (allFootnoteLines w cw fns) Regular FOOTNOTE cx y
                           lineHeight) p.
Proof.
  induction fns as [|fn rest IH]; intros.
  - cbn. symmetry. apply drawAll_nil.
  - cbn [footnotesLoop allFootnoteLines flat_map].
    fold (allFootnoteLines w cw rest).
    pose proof (footnoteLinesLoop_page
                  (wrapText w (content fn) Regular FOOTNOTE cw) p Regular
                  FOOTNOTE cx y lineHeight) as Hp.
    pose proof (footnoteLinesLoop_y_any_page
                  (wrapText w (content fn) Regular FOOTNOTE cw) p newPage
                  Regular FOOTNOTE cx y lineHeight) as Hy.
    destruct (footnoteLinesLoop (wrapText w (content fn) Regular FOOTNOTE cw)
                                p Regular FOOTNOTE cx y lineHeight)
      as [p' y'].
    cbn [fst snd] in Hp, Hy. rewrite IH, Hp, drawAll_drawAll.
    rewrite footnoteOps_app, <- Hy. reflexivity.
Qed.

(** Where a column of footnote lines puts its text. *)
Lemma footnoteOps_bounds (lines : list string) :
  forall (font : PDFFont) (size cx y0 lineHeight : Q) (op : DrawOp),
    (0 <= lineHeight)%Q ->
    In op (footnoteOps lines font size cx y0 lineHeight) ->
    exists text y,
      op = DrawText text cx y font size COLOR_DARK_GRAY /\
      In text lines /\
      (y0 - inject_Z (Z.of_nat (List.length lines)) * lineHeight
       + lineHeight - size <= y)%Q /\
      (y <= y0 - size)%Q.
Proof.
  induction lines as [|line rest IH]; intros font size cx y0 lh op Hlh Hin;
    [contradiction|].
  cbn [footnoteOps In] in Hin.
  set (n := inject_Z (Z.of_nat (List.length rest))).
  assert (Hn : (0 <= n)%Q).
  { unfold n. change 0%Q with (inject_Z 0). rewrite <- Zle_Qle. lia. }
  destruct Hin as [<-|Hin].
  - exists line, (y0 - size)%Q. split; [reflexivity|].
    split; [left; reflexivity|]. split; [|apply Qle_refl].
    cbn [List.length]. rewrite inject_nat_S. fold n.
    setoid_replace (y0 - (n + 1) * lh + lh - size)%Q
      with (y0 - size - n * lh)%Q by ring.
    apply Qminus_nonneg_le. apply Qmult_le_0_compat; assumption.
  - destruct (IH font size cx (y0 - lh)%Q lh op Hlh Hin)
      as (text & y & -> & Ht & Hlo & Hhi).
    exists text, y. split; [reflexivity|]. split; [right; exact Ht|].
    split.
    + eapply Qle_trans; [|exact Hlo].
      cbn [List.length]. rewrite inject_nat_S. fold n.
      apply Qle_lteq. right. ring.
    + eapply Qle_trans; [exact Hhi|].
      setoid_replace (y0 - lh - size)%Q with (y0 - size - lh)%Q by ring.
      apply Qminus_nonneg_le. exact Hlh.
Qed.

End FootnoteArea.

(** X15.  [renderPageFootnotes] leaves the page as it is when there is no
    footnote.  Otherwise it adds one separator rule, 30% of the content
    width long, and then one dark gray line of text per wrapped footnote
    line, at the left edge of the content and below the rule.  With [n]
    footnotes wrapped into [L] lines in all, no baseline of that text is
    lower than [bottomY + (2n - L) * 12.6 - 1]: the text stays above
    [bottomY] as long as the footnotes wrap into fewer than two lines each
    on average. *)
Theorem renderPageFootnotes_area
        (w : Metric) (fns : list DocumentBlock) (p : PDFPage)
        (cx cw bottomY : Q) :
  let n := List.length fns in
  let lines := allFootnoteLines w cw fns in
  let ruleY := footnoteRuleY n bottomY in
  (fns = [] -> renderPageFootnotes w fns p fonts cx cw bottomY = p)
  /\ (fns <> [] ->
      renderPageFootnotes w fns p fonts cx cw bottomY
      = drawAll
          (DrawLine cx ruleY (cx + cw * 0.3) ruleY 0.5 COLOR_DARK_GRAY
             :: footnoteOps lines Regular FOOTNOTE cx
                            (ruleY - FOOTNOTE * LEADING) (FOOTNOTE * LEADING))
          p)
  /\ (forall op : DrawOp,
         In op (footnoteOps lines Regular FOOTNOTE cx
                            (ruleY - FOOTNOTE * LEADING) (FOOTNOTE * LEADING)) ->
         exists text y,
           op = DrawText text cx y Regular FOOTNOTE COLOR_DARK_GRAY /\
           In text lines /\
           (y < ruleY)%Q /\
           (bottomY
            + inject_Z (2 * Z.of_nat n - Z.of_nat (List.length lines))
              * (FOOTNOTE * LEADING) - 1 <= y)%Q /\
           ((List.length lines < 2 * n)%nat -> (bottomY < y)%Q)).
Proof.
  cbv zeta. split; [intros ->; reflexivity|]. split.
  - intro Hne. unfold renderPageFootnotes.
    destruct fns as [|fn rest]; [congruence|].
    cbv zeta. change (regular fonts) with Regular.
    rewrite footnotesLoop_page.
    fold (footnoteRuleY (List.length (fn :: rest)) bottomY).
    apply drawAll_draw.
  - intros op Hin.
    assert (Hlh : (0 <= FOOTNOTE * LEADING)%Q) by discriminate.
    destruct (footnoteOps_bounds _ _ _ _ _ _ _ Hlh Hin)
      as (text & y & -> & Ht & Hlo & Hhi).
    exists text, y. split; [reflexivity|]. split; [exact Ht|].
    set (n := List.length fns) in *.
    set (L := List.length (allFootnoteLines w cw fns)) in *.
    assert (Hbase :
              (bottomY + inject_Z (2 * Z.of_nat n - Z.of_nat L)
                         * (FOOTNOTE * LEADING) - 1 <= y)%Q).
    { eapply Qle_trans; [|exact Hlo]. unfold footnoteRuleY.
      unfold Zminus. rewrite inject_Z_plus, inject_Z_opp, inject_Z_mult.
      apply Qle_lteq. right. unfold FOOTNOTE, LEADING. ring. }
    split; [|split; [exact Hbase|]].
    + eapply Qle_lt_trans; [exact Hhi|].
      setoid_replace (footnoteRuleY n bottomY - FOOTNOTE * LEADING - FOOTNOTE)%Q
        with (footnoteRuleY n bottomY - (FOOTNOTE * LEADING + FOOTNOTE))%Q
        by ring.
      apply Qminus_pos_lt. reflexivity.
    + intro Hfew. eapply Qlt_le_trans; [|exact Hbase].
      assert (Hk : (1 <= 2 * Z.of_nat n - Z.of_nat L)%Z) by lia.
      rewrite Zle_Qle in Hk. change (inject_Z 1) with 1%Q in Hk.
      set (k := inject_Z (2 * Z.of_nat n - Z.of_nat L)) in *.
      apply (Qlt_le_trans _ (bottomY + 1 * (FOOTNOTE * LEADING) - 1)).
      * setoid_replace (bottomY + 1 * (FOOTNOTE * LEADING) - 1)%Q
          with (bottomY + (FOOTNOTE * LEADING - 1))%Q by ring.
        rewrite <- (Qplus_0_r bottomY) at 1. apply Qplus_lt_r. reflexivity.
      * apply Qplus_le_l. apply Qplus_le_r.
        apply Qmult_le_compat_r; [exact Hk|exact Hlh].
Qed.

(** The footnote area for one footnote under the default margins. *)
Lemma renderPageFootnotes_area_witness :
  let fns := [plainBlock footnote "Ephesians 2:8"] in
  renderPageFootnotes fixedPitch fns newPage fonts 27 378 51
  = drawAll (DrawLine 27 (footnoteRuleY 1 51) (27 + 378 * 0.3)
                      (footnoteRuleY 1 51) 0.5 COLOR_DARK_GRAY
               :: footnoteOps (allFootnoteLines fixedPitch 378 fns)
                              Regular FOOTNOTE 27
                              (footnoteRuleY 1 51 - FOOTNOTE * LEADING)
                              (FOOTNOTE * LEADING))
            newPage.
Proof.
  apply (proj1 (proj2 (renderPageFootnotes_area
                         fixedPitch [plainBlock footnote "Ephesians 2:8"]
                         newPage 27 378 51))).
  discriminate.
Defined.


(** ** Roman numerals *)

Lemma append_empty_r (s : string) : (s ++ "")%string = s.
Proof.
  induction s as [|c s IH]; [reflexivity|]. cbn. rewrite IH. reflexivity.
Qed.

Lemma append_assoc (a b c : string) :
  ((a ++ b) ++ c)%string = (a ++ (b ++ c))%string.
Proof.
  induction a as [|x a IH]; [reflexivity|]. cbn. rewrite IH. reflexivity.
Qed.

(** With enough fuel the inner loop of [toRoman] emits the symbol as many
    times as its value goes into the remainder. *)
Lemma romanWhile_spec (fuel : nat) :
  forall (v : Z) (sym result : string) (rem : Z),
    (0 < v)%Z -> (0 <= rem)%Z -> (Z.to_nat (rem / v) <= fuel)%nat ->
    romanWhile fuel v sym result rem
    = ((result ++ repeatString sym (Z.to_nat (rem / v)))%string,
       (rem mod v)%Z).
Proof.
  induction fuel as [|fuel IH]; intros v sym result rem Hv Hrem Hfuel.
  - assert (Hq : (rem / v = 0)%Z).
    { pose proof (Z.div_pos rem v Hrem Hv). lia. }
    cbn [romanWhile]. rewrite Hq. cbn [Z.to_nat repeatString].
    rewrite append_empty_r.
    apply Z.div_small_iff in Hq; [|lia].
    rewrite Z.mod_small by lia. reflexivity.
  - cbn [romanWhile]. destruct (Z.leb_spec v rem) as [Hle|Hlt].
    + assert (Hq : (rem / v = (rem - v) / v + 1)%Z).
      { rewrite <- Z.div_add by lia. f_equal. lia. }
      assert (Hm : (rem mod v = (rem - v) mod v)%Z).
      { rewrite <- (Z.mod_add (rem - v) 1 v) by lia. f_equal. lia. }
      assert (Hq0 : (0 <= (rem - v) / v)%Z) by (apply Z.div_pos; lia).
      rewrite IH by lia.
      rewrite Hq, Hm, Z2Nat.inj_add by lia.
      change (Z.to_nat 1) with 1%nat. rewrite Nat.add_1_r.
      cbn [repeatString]. rewrite append_assoc. reflexivity.
    + rewrite Z.div_small, Z.mod_small by lia.
      cbn [Z.to_nat repeatString]. rewrite append_empty_r. reflexivity.
Qed.

Lemma romanWhile_prefix (fuel : nat) :
  forall (v : Z) (sym pre result : string) (rem : Z),
    romanWhile fuel v sym (pre ++ result)%string rem
    = ((pre ++ fst (romanWhile fuel v sym result rem))%string,
       snd (romanWhile fuel v sym result rem)).
Proof.
  induction fuel as [|fuel IH]; intros; [reflexivity|].
  cbn [romanWhile]. destruct (v <=? rem)%Z; [|reflexivity].
  rewrite append_assoc. apply IH.
Qed.

Lemma romanFor_prefix (table : list (Z * string)) :
  forall (pre result : string) (rem : Z),
    romanFor table (pre ++ result)%string rem
    = (pre ++ romanFor table result rem)%string.
Proof.
  induction table as [|[v sym] rest IH]; intros; [reflexivity|].
  cbn [romanFor]. rewrite romanWhile_prefix.
  destruct (romanWhile (Z.to_nat rem) v sym result rem) as [r rem'].
  cbn [fst snd]. apply IH.
Qed.

Lemma romanFor_cons (v : Z) (sym : string) (rest : list (Z * string))
      (result : string) (rem : Z) :
  romanFor ((v, sym) :: rest) result rem
  = romanFor rest (fst (romanWhile (Z.to_nat rem) v sym result rem))
             (snd (romanWhile (Z.to_nat rem) v sym result rem)).
Proof.
  cbn [romanFor].
  destruct (romanWhile (Z.to_nat rem) v sym result rem). reflexivity.
Qed.

(** The numeral of [n] is as many [m] as [n] has thousands, then the
    numeral of what is left. *)
Lemma toRoman_thousands (n : Z) :
  (0 < n)%Z ->
  toRoman n
  = (repeatString "m" (Z.to_nat (n / 1000)) ++ toRoman (n mod 1000))%string.
Proof.
  intro Hn. unfold toRoman.
  destruct (Z.leb_spec n 0) as [|_]; [lia|].
  assert (Hq : (0 <= n / 1000)%Z) by (apply Z.div_pos; lia).
  assert (Hfuel : (Z.to_nat (n / 1000) <= Z.to_nat n)%nat).
  { apply Z2Nat.inj_le; try lia. apply Z.div_le_upper_bound; lia. }
  pose proof (Z.mod_pos_bound n 1000) as Hr.
  unfold romanTable.
  match goal with
  | |- context [romanFor (_ :: ?t)] => set (table := t)
  end.
  rewrite (romanFor_cons 1000 "m" table EmptyString n).
  rewrite (romanWhile_spec (Z.to_nat n) 1000 "m" EmptyString n) by lia.
  cbn [fst snd append].
  rewrite <- (append_empty_r (repeatString "m" (Z.to_nat (n / 1000)))) at 1.
  rewrite (romanFor_prefix table (repeatString "m" (Z.to_nat (n / 1000)))
                           EmptyString (n mod 1000)).
  f_equal.
  destruct (Z.leb_spec (n mod 1000) 0) as [H0|Hpos].
  - assert (E : (n mod 1000 = 0)%Z) by lia. rewrite E. reflexivity.
  - rewrite (romanFor_cons 1000 "m" table EmptyString (n mod 1000)).
    rewrite (romanWhile_spec (Z.to_nat (n mod 1000)) 1000 "m" EmptyString
                             (n mod 1000)).
    + rewrite (Z.div_small (n mod 1000) 1000),
        (Z.mod_small (n mod 1000) 1000) by lia.
      reflexivity.
    + lia.
    + lia.
    + rewrite (Z.div_small (n mod 1000) 1000) by lia. cbn. lia.
Qed.

Lemma romanDigit_le_1000 (c : ascii) : (romanDigit c <= 1000)%Z.
Proof.
  unfold romanDigit.
  repeat match goal with
         | |- context [if ?b then _ else _] => destruct b
         end; lia.
Qed.

Lemma romanValue_m (s : string) :
  romanValue (String "m" s) = (1000 + romanValue s)%Z.
Proof.
  cbn [romanValue]. change (romanDigit "m") with 1000%Z.
  destruct s as [|c rest]; [reflexivity|].
  pose proof (romanDigit_le_1000 c) as Hc.
  destruct (Z.ltb_spec 1000 (romanDigit c)); lia.
Qed.

Lemma romanValue_thousands (k : nat) (s : string) :
  romanValue (repeatString "m" k ++ s)%string
  = (1000 * Z.of_nat k + romanValue s)%Z.
Proof.
  induction k as [|k IH]; [cbn [repeatString append]; lia|].
  cbn [repeatString append]. rewrite romanValue_m, IH. lia.
Qed.

Lemma romanValue_below_1000 (r : Z) :
  (0 <= r < 1000)%Z -> romanValue (toRoman r) = r.
Proof.
  intro Hr.
  assert (H : forallb (fun k => (romanValue (toRoman (Z.of_nat k))
                                 =? Z.of_nat k)%Z)
                      (seq 0 1000) = true) by (vm_compute; reflexivity).
  rewrite forallb_forall in H.
  specialize (H (Z.to_nat r)). rewrite Z2Nat.id in H by lia.
  apply Z.eqb_eq. apply H. apply in_seq. lia.
Qed.

Lemma romanValue_toRoman (n : Z) : (0 < n)%Z -> romanValue (toRoman n) = n.
Proof.
  intro Hn. rewrite (toRoman_thousands n Hn), romanValue_thousands.
  pose proof (Z.mod_pos_bound n 1000) as Hr.
  rewrite romanValue_below_1000 by lia.
  assert (Hq : (0 <= n / 1000)%Z) by (apply Z.div_pos; lia).
  rewrite Z2Nat.id by lia. symmetry. apply Z.div_mod. lia.
Qed.

(** X16.  Roman page numbers can be read back: for every positive [n] the
    numeral [toRoman n], read with the usual subtractive rule, has the
    value [n], so two different page numbers never get the same numeral;
    for [n] of zero or less [toRoman] gives the empty string. *)
Theorem toRoman_reads_back :
  (forall n : Z, (n <= 0)%Z -> toRoman n = EmptyString)
  /\ (forall n : Z, (0 < n)%Z -> romanValue (toRoman n) = n)
  /\ (forall n m : Z,
         (0 < n)%Z -> (0 < m)%Z -> toRoman n = toRoman m -> n = m).
Proof.
  split; [|split].
  - intros n Hn. unfold toRoman.
    destruct (Z.leb_spec n 0); [reflexivity|lia].
  - exact romanValue_toRoman.
  - intros n m Hn Hm E.
    rewrite <- (romanValue_toRoman n Hn), <- (romanValue_toRoman m Hm), E.
    reflexivity.
Qed.

Lemma toRoman_reads_back_witness :
  romanValue (toRoman 1994) = 1994%Z.
Proof.
  apply (proj1 (proj2 toRoman_reads_back) 1994%Z). reflexivity.
Defined.


(** ** Page accounting of [renderLayout] *)

Section PageAccounting.

Variable w : Metric.
Variables insideIn outsideIn topIn bottomIn : Q.

Local Abbreviation finalize' :=
  (finalizeCurrentPage w insideIn outsideIn bottomIn).
Local Abbreviation advance' :=
  (advancePage w insideIn outsideIn topIn bottomIn).
Local Abbreviation overflow' :=
  (overflowCheck w insideIn outsideIn topIn bottomIn).
Local Abbreviation render' := (renderInto w insideIn outsideIn).
Local Abbreviation process' :=
  (processBlock w insideIn outsideIn topIn bottomIn).
Local Abbreviation blocks' :=
  (layoutBlocks w insideIn outsideIn topIn bottomIn).
Local Abbreviation docPage' :=
  (layoutDocPage w insideIn outsideIn topIn bottomIn).
Local Abbreviation docPages' :=
  (layoutDocPages w insideIn outsideIn topIn bottomIn).
Local Abbreviation top' := (topCursor insideIn topIn).

Lemma renderBlock_page_size (b : DocumentBlock) (ctx : RenderContext) :
  page_size (page (fst (renderBlock w b ctx))) = page_size (page ctx).
Proof.
  destruct (textStyleOf (block_type b)) as [st|] eqn:Est.
  - destruct (renderBlock_text_spec w b ctx st Est) as (Hp & _).
    rewrite Hp. reflexivity.
  - unfold renderBlock.
    destruct (block_type b); try discriminate Est; reflexivity.
Qed.

Lemma renderPageFootnotes_page_size (fns : list DocumentBlock) (p : PDFPage)
      (cx cw y : Q) :
  page_size (renderPageFootnotes w fns p fonts cx cw y) = page_size p.
Proof.
  destruct fns as [|fn rest]; [reflexivity|].
  unfold renderPageFootnotes. cbv zeta.
  change (regular fonts) with Regular.
  rewrite footnotesLoop_page. reflexivity.
Qed.

Lemma finalize_page_size (s : LayoutState.t) :
  page_size (LayoutState.currentPage (finalize' s))
  = page_size (LayoutState.currentPage s).
Proof.
  unfold finalizeCurrentPage. cbn [LayoutState.currentPage].
  unfold drawPageNumber.
  destruct (LayoutState.currentStyle s); cbn [draw page_size];
    apply renderPageFootnotes_page_size.
Qed.

Lemma renderInto_page_size (b : DocumentBlock) (s : LayoutState.t) :
  page_size (LayoutState.currentPage (render' b s))
  = page_size (LayoutState.currentPage s).
Proof.
  unfold renderInto.
  match goal with
  | |- context [renderBlock w b ?c] =>
      pose proof (renderBlock_page_size b c) as H;
      destruct (renderBlock w b c) as [ctx' result]
  end.
  exact H.
Qed.

Lemma accounted_initial : accounted (initialState insideIn topIn).
Proof.
  unfold accounted. cbn. repeat split. constructor.
Qed.

Lemma accounted_finalize (s : LayoutState.t) :
  accounted s -> accounted (finalize' s).
Proof.
  intros (Hc & Hd & Hf & Hp). unfold accounted, trimSized.
  rewrite finalize_page_size.
  destruct (finalize_frame w insideIn outsideIn bottomIn s)
    as (Ef & Ed & En & _).
  rewrite Ef, Ed, En. auto.
Qed.

Lemma accounted_advance (style : PageNumberStyle) (increment : bool)
      (s : LayoutState.t) :
  accounted s ->
  accounted (advance' style increment s)
  /\ LayoutState.pdfPageCount (advance' style increment s)
     = (LayoutState.pdfPageCount s + 1)%Z.
Proof.
  intro Hs. destruct (accounted_finalize s Hs) as (Hc & Hd & Hf & Hp).
  destruct (finalize_frame w insideIn outsideIn bottomIn s)
    as (Ef & Ed & En & _).
  assert (H : forall s',
             LayoutState.finishedPages s'
             = LayoutState.finishedPages (finalize' s)
                 ++ [LayoutState.currentPage (finalize' s)] ->
             LayoutState.pageDimensions s'
             = LayoutState.pageDimensions (finalize' s)
                 ++ [(TRIM_WIDTH_PT, TRIM_HEIGHT_PT)] ->
             LayoutState.pdfPageCount s'
             = (LayoutState.pdfPageCount (finalize' s) + 1)%Z ->
             LayoutState.currentPage s' = newPage ->
             accounted s'
             /\ LayoutState.pdfPageCount s'
                = (LayoutState.pdfPageCount s + 1)%Z).
  { intros s' E1 E2 E3 E4. split; [|rewrite E3, En; reflexivity].
    unfold accounted. rewrite E1, E2, E3, E4, Hc, Hd, length_app.
    cbn [List.length]. rewrite Nat.add_1_r.
    split; [lia|]. split.
    - rewrite <- repeat_cons. reflexivity.
    - split; [|reflexivity].
      apply Forall_app. split; [exact Hf|].
      constructor; [exact Hp|constructor]. }
  unfold advancePage.
  destruct increment; [destruct style|]; apply H; reflexivity.
Qed.

Lemma accounted_set_cursor (c : Cursor) (s : LayoutState.t) :
  accounted s -> accounted (LayoutState.set_cursor c s).
Proof. intro H. exact H. Qed.

Lemma accounted_incrementCounter (style : PageNumberStyle)
      (s : LayoutState.t) :
  accounted s -> accounted (incrementCounter style s).
Proof. intro H. destruct style; exact H. Qed.

Lemma incrementCounter_count (style : PageNumberStyle) (s : LayoutState.t) :
  LayoutState.pdfPageCount (incrementCounter style s)
  = LayoutState.pdfPageCount s.
Proof. destruct style; reflexivity. Qed.

Lemma accounted_render (b : DocumentBlock) (s : LayoutState.t) :
  accounted s -> accounted (render' b s).
Proof.
  intros (Hc & Hd & Hf & Hp). unfold accounted, trimSized.
  rewrite renderInto_page_size.
  destruct (renderInto_frame w insideIn outsideIn b s) as (Ef & Ed & En & _).
  rewrite Ef, Ed, En. auto.
Qed.

(** One block: an explicit page break adds exactly one page, any other
    block at most one. *)
Lemma processBlock_pages (style : PageNumberStyle) (b : DocumentBlock)
      (s : LayoutState.t) :
  accounted s ->
  accounted (process' style b s)
  /\ (LayoutState.pdfPageCount s
      + (if isPageBreak (block_type b) then 1 else 0)
      <= LayoutState.pdfPageCount (process' style b s)
      <= LayoutState.pdfPageCount s + 1)%Z.
Proof.
  intro Hs. unfold processBlock.
  destruct (isPageBreak (block_type b)).
  - destruct (accounted_advance style false s Hs) as [Ha Hn].
    split; [apply accounted_set_cursor; exact Ha|].
    cbn [LayoutState.set_cursor LayoutState.pdfPageCount].
    fold (LayoutState.pdfPageCount (advance' style false s)). lia.
  - destruct (renderInto_frame w insideIn outsideIn b (overflow' style s))
      as (_ & _ & En & _).
    rewrite En.
    destruct (overflowCheck_cases w insideIn outsideIn topIn bottomIn style s)
      as [[_ ->]|[_ ->]].
    + destruct (accounted_advance style false s Hs) as [Ha Hn].
      split.
      * apply accounted_render, accounted_set_cursor,
          accounted_incrementCounter. exact Ha.
      * cbn [LayoutState.set_cursor LayoutState.pdfPageCount].
        fold (LayoutState.pdfPageCount
                (incrementCounter style (advance' style false s))).
        rewrite incrementCounter_count. lia.
    + split; [apply accounted_render; exact Hs|lia].
Qed.

Lemma pageBreaks_cons (b : DocumentBlock) (bs : list DocumentBlock) :
  pageBreaks (b :: bs)
  = ((if isPageBreak (block_type b) then 1 else 0) + pageBreaks bs)%nat.
Proof.
  unfold pageBreaks. cbn [filter].
  destruct (isPageBreak (block_type b)); reflexivity.
Qed.

Lemma pageBreaks_app (bs1 bs2 : list DocumentBlock) :
  pageBreaks (bs1 ++ bs2) = (pageBreaks bs1 + pageBreaks bs2)%nat.
Proof.
  unfold pageBreaks. rewrite filter_app, length_app. reflexivity.
Qed.

Lemma layoutBlocks_pages (style : PageNumberStyle)
      (bs : list DocumentBlock) :
  forall s : LayoutState.t,
    accounted s ->
    accounted (blocks' style bs s)
    /\ (LayoutState.pdfPageCount s + Z.of_nat (pageBreaks bs)
        <= LayoutState.pdfPageCount (blocks' style bs s)
        <= LayoutState.pdfPageCount s + Z.of_nat (List.length bs))%Z.
Proof.
  induction bs as [|b bs IH]; intros s Hs.
  - cbn. split; [exact Hs|lia].
  - cbn [layoutBlocks]. rewrite pageBreaks_cons.
    destruct (processBlock_pages style b s Hs) as [Ha Hn].
    destruct (IH _ Ha) as [Ha' Hn'].
    split; [exact Ha'|].
    cbn [List.length].
    destruct (isPageBreak (block_type b)); lia.
Qed.

Lemma beginDocPage_pages (di : nat) (style : PageNumberStyle)
      (s : LayoutState.t) :
  accounted s ->
  accounted (beginDocPage w insideIn outsideIn topIn bottomIn di style s)
  /\ LayoutState.pdfPageCount
       (beginDocPage w insideIn outsideIn topIn bottomIn di style s)
     = (LayoutState.pdfPageCount s
        + match di with O => 0 | S _ => 1 end)%Z.
Proof.
  intro Hs. destruct di as [|di].
  - unfold beginDocPage. destruct style; cbn; (split; [exact Hs|lia]).
  - apply accounted_advance. exact Hs.
Qed.

Lemma layoutDocPage_pages (di : nat) (p : DocumentPage)
      (s : LayoutState.t) :
  accounted s ->
  accounted (docPage' di p s)
  /\ (LayoutState.pdfPageCount s + match di with O => 0 | S _ => 1 end
      + Z.of_nat (pageBreaks (blocks p))
      <= LayoutState.pdfPageCount (docPage' di p s)
      <= LayoutState.pdfPageCount s + match di with O => 0 | S _ => 1 end
         + Z.of_nat (List.length (blocks p)))%Z.
Proof.
  intro Hs. unfold layoutDocPage.
  destruct (beginDocPage_pages di (pageStyleOf p) s Hs) as [Hb Hbn].
  destruct (layoutBlocks_pages (pageStyleOf p) (blocks p) _
              (accounted_set_cursor top' _ Hb)) as [Hl Hln].
  split; [exact Hl|].
  cbn [LayoutState.set_cursor LayoutState.pdfPageCount] in Hln.
  fold (LayoutState.pdfPageCount
          (beginDocPage w insideIn outsideIn topIn bottomIn di
                        (pageStyleOf p) s)) in Hln.
  rewrite Hbn in Hln. exact Hln.
Qed.

Lemma layoutDocPages_pages (ps : list DocumentPage) :
  forall (di : nat) (s : LayoutState.t),
    accounted s ->
    accounted (docPages' di ps s)
    /\ (LayoutState.pdfPageCount s
        + Z.of_nat (pageStarts di ps + pageBreaks (flat_map blocks ps))
        <= LayoutState.pdfPageCount (docPages' di ps s)
        <= LayoutState.pdfPageCount s
           + Z.of_nat (pageStarts di ps
                       + List.length (flat_map blocks ps)))%Z.
Proof.
  induction ps as [|p ps IH]; intros di s Hs.
  - cbn. split; [exact Hs|]. destruct di; cbn; lia.
  - cbn [layoutDocPages flat_map].
    rewrite pageBreaks_app, length_app.
    destruct (layoutDocPage_pages di p s Hs) as [Hl Hln].
    destruct (IH (S di) _ Hl) as [Hr Hrn].
    split; [exact Hr|].
    destruct di; cbn [pageStarts List.length pred] in *; lia.
Qed.

End PageAccounting.


(** The state [renderLayout] ends in: the bookkeeping is right, and the
    number of pages lies between what the page starts and the explicit
    breaks ask for and one more page per block. *)
Lemma finalState_pages (w : Metric) (i o t b : Q)
      (document : DocumentRepresentation) :
  accounted (finalState w i o t b document)
  /\ (Z.of_nat (Nat.max 1 (List.length (logicalPages document))
                + pageBreaks (allBlocks document))
      <= LayoutState.pdfPageCount (finalState w i o t b document)
      <= Z.of_nat (Nat.max 1 (List.length (logicalPages document))
                   + List.length (allBlocks document)))%Z.
Proof.
  unfold finalState. fold (logicalPages document).
  destruct (layoutDocPages_pages w i o t b (logicalPages document) 0
              (initialState i t) (accounted_initial i t)) as [Ha Hn].
  split; [apply accounted_finalize; exact Ha|].
  destruct (finalize_frame w i o b
              (layoutDocPages w i o t b 0 (logicalPages document)
                              (initialState i t))) as (_ & _ & En & _).
  rewrite En. unfold allBlocks.
  change (LayoutState.pdfPageCount (initialState i t)) with 1%Z in Hn.
  cbn [pageStarts] in Hn. lia.
Qed.

(** X17.  The result of [renderLayout] accounts for its pages: the page
    count it reports is the number of pages of the PDF document, which has
    at least one page; one dimension pair is recorded per page; and every
    page, and every recorded pair, is the 6in by 9in trim size. *)
Theorem renderLayout_page_accounting
        (w : Metric) (i o t b : Q) (document : DocumentRepresentation)
        (mode : OutputMode) :
  let layout := renderLayout w i o t b document mode in
  let n := List.length (LayoutResult.doc layout) in
  LayoutResult.pageCount layout = Z.of_nat n
  /\ (1 <= n)%nat
  /\ LayoutResult.pageDimensions layout
     = repeat (TRIM_WIDTH_PT, TRIM_HEIGHT_PT) n
  /\ Forall trimSized (LayoutResult.doc layout).
Proof.
  cbv zeta. unfold renderLayout.
  cbn [LayoutResult.doc LayoutResult.pageCount LayoutResult.pageDimensions].
  destruct (finalState_pages w i o t b document) as [(Hc & Hd & Hf & Hp) _].
  rewrite length_app. cbn [List.length]. rewrite Nat.add_1_r.
  split; [exact Hc|]. split; [lia|]. split; [exact Hd|].
  apply Forall_app. split; [exact Hf|].
  constructor; [exact Hp|constructor].
Qed.

(** X18.  How many pages a layout has.  With [n] logical pages (front
    matter and content), the layout has at least [max 1 n] pages plus one
    for every explicit page break, and at most [max 1 n] plus one for
    every block, whatever the margins and the text; when every block is a
    page break the count is exactly that. *)
Theorem renderLayout_page_count_bounds
        (w : Metric) (i o t b : Q) (document : DocumentRepresentation)
        (mode : OutputMode) :
  let P := LayoutResult.pageCount (renderLayout w i o t b document mode) in
  let n := List.length (logicalPages document) in
  let bs := allBlocks document in
  (Z.of_nat (Nat.max 1 n + pageBreaks bs) <= P
   <= Z.of_nat (Nat.max 1 n + List.length bs))%Z
  /\ (pageBreaks bs = List.length bs ->
      P = Z.of_nat (Nat.max 1 n + List.length bs)).
Proof.
  cbv zeta. unfold renderLayout. cbn [LayoutResult.pageCount].
  destruct (finalState_pages w i o t b document) as [_ Hn].
  split; [exact Hn|]. intro E. rewrite E in Hn. lia.
Qed.

Lemma renderLayout_page_count_bounds_witness :
  LayoutResult.pageCount
    (renderLayout fixedPitch 0.375 0.375 0.375 0.375 oversizedDocument
                  personal)
  = Z.of_nat (Nat.max 1 (List.length (logicalPages oversizedDocument))
              + List.length (allBlocks oversizedDocument)).
Proof.
  apply (proj2 (renderLayout_page_count_bounds
                  fixedPitch 0.375 0.375 0.375 0.375 oversizedDocument
                  personal)).
  vm_compute. reflexivity.
Defined.

(** ** What [generatePDF] returns *)

Lemma passOne_is_passTwo (w : Metric) (document : DocumentRepresentation)
      (mode : OutputMode) (P : Z) :
  (P <= 150)%Z -> passOne w document mode = passTwo w P document mode.
Proof.
  intro H. unfold passOne, passTwo, insideFor.
  destruct (Z.leb_spec P 150); [reflexivity|lia].
Qed.

Lemma trim_check_repeat (n : nat) :
  forallb (fun wh => Qlt_bool (Qabs (fst wh - TRIM_WIDTH_PT)) 1
                     && Qlt_bool (Qabs (snd wh - TRIM_HEIGHT_PT)) 1)%bool
          (repeat (TRIM_WIDTH_PT, TRIM_HEIGHT_PT) n) = true.
Proof.
  induction n as [|n IH]; [reflexivity|].
  cbn [repeat forallb]. rewrite IH. reflexivity.
Qed.

Lemma inside_check_iff (P1 P2 : Z) :
  Qge_bool (insideFor P1) (insideFor P2 - 0.001) = true
  <-> (insideFor P2 <= insideFor P1)%Q.
Proof.
  unfold insideFor.
  destruct (P1 <=? 150)%Z; [|destruct (P1 <=? 300)%Z;
    [|destruct (P1 <=? 500)%Z; [|destruct (P1 <=? 700)%Z]]];
  (destruct (P2 <=? 150)%Z; [|destruct (P2 <=? 300)%Z;
    [|destruct (P2 <=? 500)%Z; [|destruct (P2 <=? 700)%Z]]]);
  (split; [intro H; first [discriminate H | (unfold Qle; simpl; lia)]
          |intro H; first [reflexivity | (unfold Qle in H; simpl in H; lia)]]).
Qed.

(** The compliance result of a layout whose pages all have the trim size
    and whose outer margins are 0.375in. *)
Lemma finish_compliance_of (save : list PDFPage -> list Init.Byte.byte)
      (ran : list LayoutResult.t) (layout : LayoutResult.t)
      (bracket : string) (document : DocumentRepresentation)
      (mode : OutputMode) (r : PDFEngineResult.t) (n : nat) :
  LayoutResult.pageDimensions layout
  = repeat (TRIM_WIDTH_PT, TRIM_HEIGHT_PT) n ->
  LayoutResult.outsideMarginIn layout = 0.375%Q ->
  LayoutResult.topMarginIn layout = 0.375%Q ->
  LayoutResult.bottomMarginIn layout = 0.375%Q ->
  outcome (finish save ran layout bracket document mode) = Ok r ->
  let offerOk :=
    match mode with
    | personal => true
    | publish_ready => hasOfferPage document
    end in
  let insideOk :=
    Qge_bool (LayoutResult.insideMarginIn layout)
             (insideFor (LayoutResult.pageCount layout) - 0.001) in
  r = {| PDFEngineResult.pdfBytes := save (LayoutResult.doc layout);
         PDFEngineResult.pageCount := LayoutResult.pageCount layout;
         PDFEngineResult.marginsBracket := bracket;
         PDFEngineResult.complianceResult :=
           {| passes := insideOk && offerOk;
              trim_size_correct := true;
              inside_margin_correct := insideOk;
              outside_margin_correct := true;
              top_margin_correct := true;
              bottom_margin_correct := true;
              fonts_embedded := true;
              page_count := LayoutResult.pageCount layout;
              page_count_warning := (LayoutResult.pageCount layout <? 24)%Z;
              offer_page_present := offerOk;
              violations :=
                (if insideOk then []
                 else [InsideMarginTooSmall
                         (LayoutResult.insideMarginIn layout)
                         (insideFor (LayoutResult.pageCount layout))
                         (LayoutResult.pageCount layout)])
                  ++ (if offerOk then [] else [OfferPageNotFinal]) |} |}.
Proof.
  intros Hd Ho Ht Hb H.
  destruct (finish_ok_inv save ran layout bracket document mode r H)
    as [Hle _].
  destruct layout as [pages pc dims i o t b].
  cbv beta iota delta
      [LayoutResult.pageDimensions LayoutResult.outsideMarginIn
       LayoutResult.topMarginIn LayoutResult.bottomMarginIn
       LayoutResult.pageCount LayoutResult.insideMarginIn LayoutResult.doc]
    in *.
  subst dims o t b.
  unfold finish, checkCompliance, complianceInputOf in H.
  cbv beta iota delta
      [Compliance.pageCount Compliance.pageDimensions
       Compliance.insideMarginIn Compliance.outsideMarginIn
       Compliance.topMarginIn Compliance.bottomMarginIn fontsEmbedded
       offerPagePresent Compliance.outputMode
       LayoutResult.pageDimensions LayoutResult.outsideMarginIn
       LayoutResult.topMarginIn LayoutResult.bottomMarginIn
       LayoutResult.pageCount LayoutResult.insideMarginIn LayoutResult.doc]
    in H.
  rewrite (calculateMargins_ok _ Hle), trim_check_repeat in H.
  change (Qge_bool 0.375 (MIN_OUTSIDE_MARGIN_IN - 0.001)) with true in H.
  change (Qge_bool 0.375 (MIN_TOP_MARGIN_IN - 0.001)) with true in H.
  change (Qge_bool 0.375 (MIN_BOTTOM_MARGIN_IN - 0.001)) with true in H.
  cbv beta iota zeta delta [outcome negb pushIf inside marginsWith] in H.
  injection H as <-.
  destruct (Qge_bool i (insideFor pc - 0.001)); destruct mode;
    try destruct (hasOfferPage document); reflexivity.
Qed.

(** The compliance result of a layout the engine made with the margins of
    [P] pages. *)
Lemma finish_compliance (w : Metric)
      (save : list PDFPage -> list Init.Byte.byte)
      (ran : list LayoutResult.t) (P : Z) (bracket : string)
      (document : DocumentRepresentation) (mode : OutputMode)
      (r : PDFEngineResult.t) :
  outcome (finish save ran (passTwo w P document mode) bracket document mode)
  = Ok r ->
  let cr := PDFEngineResult.complianceResult r in
  let offerOk :=
    match mode with
    | personal => true
    | publish_ready => hasOfferPage document
    end in
  let insideOk :=
    Qge_bool (insideFor P)
             (insideFor (PDFEngineResult.pageCount r) - 0.001) in
  PDFEngineResult.pageCount r
  = LayoutResult.pageCount (passTwo w P document mode)
  /\ PDFEngineResult.pdfBytes r
     = save (LayoutResult.doc (passTwo w P document mode))
  /\ PDFEngineResult.marginsBracket r = bracket
  /\ cr = {| passes := insideOk && offerOk;
             trim_size_correct := true;
             inside_margin_correct := insideOk;
             outside_margin_correct := true;
             top_margin_correct := true;
             bottom_margin_correct := true;
             fonts_embedded := true;
             page_count := PDFEngineResult.pageCount r;
             page_count_warning := (PDFEngineResult.pageCount r <? 24)%Z;
             offer_page_present := offerOk;
             violations :=
               (if insideOk then []
                else [InsideMarginTooSmall
                        (insideFor P)
                        (insideFor (PDFEngineResult.pageCount r))
                        (PDFEngineResult.pageCount r)])
                 ++ (if offerOk then [] else [OfferPageNotFinal]) |}.
Proof.
  intro H. cbv zeta.
  destruct (finalState_pages w (insideFor P) 0.375 0.375 0.375 document)
    as [(_ & Hd & _) _].
  pose proof (finish_compliance_of save ran (passTwo w P document mode)
                bracket document mode r _ Hd eq_refl eq_refl eq_refl H)
    as Hr.
  cbv zeta in Hr.
  change (LayoutResult.insideMarginIn (passTwo w P document mode))
    with (insideFor P) in Hr.
  rewrite Hr at 1 2 3 4.
  cbv beta iota delta
      [PDFEngineResult.pageCount PDFEngineResult.pdfBytes
       PDFEngineResult.marginsBracket PDFEngineResult.complianceResult].
  repeat (split; [reflexivity|]).
  rewrite Hr.
  cbv beta iota delta [PDFEngineResult.pageCount].
  reflexivity.
Qed.


Lemma generatePDF_bracket (w : Metric)
      (save : list PDFPage -> list Init.Byte.byte)
      (document : DocumentRepresentation) (mode : OutputMode)
      (r : PDFEngineResult.t) :
  outcome (generatePDF w save document mode) = Ok r ->
  describeMarginBracket (LayoutResult.pageCount (passOne w document mode))
  = Ok (PDFEngineResult.marginsBracket r).
Proof.
  unfold generatePDF. fold (passOne w document mode).
  destruct (calculateMargins _) as [m|e]; [|discriminate].
  destruct (describeMarginBracket _) as [bracket|e]; [|discriminate].
  destruct (Qlt_bool _ _); unfold finish;
    (destruct (checkCompliance _); [|discriminate]);
    intro H; injection H as <-; reflexivity.
Qed.

(** X19.  The page budget of a document, read off its structure.  With [n]
    logical pages: a document with more than 828 page starts and explicit
    page breaks is always refused; a document whose page starts and blocks
    number at most 828 is always returned; and when they number at most
    150 a single layout pass is run, the gutter is that of the first
    bracket, and the result passes in personal mode, and in publish-ready
    mode exactly when the last content page carries the offer. *)
Theorem generatePDF_page_budget
        (w : Metric) (save : list PDFPage -> list Init.Byte.byte)
        (document : DocumentRepresentation) (mode : OutputMode) :
  let run := generatePDF w save document mode in
  let n := List.length (logicalPages document) in
  let bs := allBlocks document in
  ((828 < Nat.max 1 n + pageBreaks bs)%nat ->
   exists e, outcome run = Throw e)
  /\ ((Nat.max 1 n + List.length bs <= 828)%nat ->
      exists r, outcome run = Ok r)
  /\ ((Nat.max 1 n + List.length bs <= 150)%nat ->
      exists r,
        outcome run = Ok r
        /\ layoutPasses run
           = [renderLayout w 0.375 0.375 0.375 0.375 document mode]
        /\ LayoutResult.insideMarginIn
             (renderLayout w 0.375 0.375 0.375 0.375 document mode)
           = 0.375%Q
        /\ passes (PDFEngineResult.complianceResult r)
           = match mode with
             | personal => true
             | publish_ready => hasOfferPage document
             end).
Proof.
  cbv zeta. fold (passOne w document mode).
  set (P1 := LayoutResult.pageCount (passOne w document mode)).
  destruct (finalState_pages w 0.375 0.375 0.375 0.375 document)
    as [_ Hone].
  change (LayoutState.pdfPageCount
            (finalState w 0.375 0.375 0.375 0.375 document))
    with P1 in Hone.
  destruct (finalState_pages w (insideFor P1) 0.375 0.375 0.375 document)
    as [_ Htwo].
  change (LayoutState.pdfPageCount
            (finalState w (insideFor P1) 0.375 0.375 0.375 document))
    with (LayoutResult.pageCount (passTwo w P1 document mode)) in Htwo.
  pose proof (generatePDF_cases w save document mode) as Hcases.
  cbv zeta in Hcases. fold P1 in Hcases.
  destruct Hcases
    as [[Hgt E]|[[Hle [bracket E]]|[[Hlo Hhi] [bracket E]]]]; rewrite E.
  - split; [intros _; eexists; reflexivity|].
    split; intro; lia.
  - split; [intro; lia|].
    destruct (finish_ok save [passOne w document mode]
                        (passOne w document mode) bracket document mode)
      as (r & Hr & _); [fold P1; lia|].
    split; [intros _; exists r; exact Hr|].
    intros _. exists r. split; [exact Hr|].
    split; [apply finish_passes|]. split; [reflexivity|].
    rewrite (passOne_is_passTwo w document mode P1 Hle) in Hr.
    destruct (finish_compliance w save _ P1 bracket document mode r Hr)
      as (Hp & _ & _ & Hcr).
    rewrite Hcr. cbn [passes].
    rewrite Hp, <- (passOne_is_passTwo w document mode P1 Hle).
    fold P1.
    replace (Qge_bool (insideFor P1) (insideFor P1 - 0.001)) with true;
      [reflexivity|].
    symmetry. apply inside_check_iff. apply Qle_refl.
  - split; [intro; lia|].
    split; [|intro; lia].
    intro Hb.
    destruct (finish_ok save
                [passOne w document mode; passTwo w P1 document mode]
                (passTwo w P1 document mode) bracket document mode)
      as (r & Hr & _); [lia|].
    exists r. exact Hr.
Qed.

Lemma generatePDF_page_budget_witness :
  exists r,
    outcome (generatePDF fixedPitch countingSave noOfferDocument personal)
    = Ok r
    /\ layoutPasses (generatePDF fixedPitch countingSave noOfferDocument
                                 personal)
       = [renderLayout fixedPitch 0.375 0.375 0.375 0.375 noOfferDocument
                       personal]
    /\ LayoutResult.insideMarginIn
         (renderLayout fixedPitch 0.375 0.375 0.375 0.375 noOfferDocument
                       personal)
       = 0.375%Q
    /\ passes (PDFEngineResult.complianceResult r) = true.
Proof.
  apply (proj2 (proj2 (generatePDF_page_budget
                         fixedPitch countingSave noOfferDocument personal))).
  vm_compute. lia.
Defined.

(** X20.  What the compliance result of a returned PDF can say.  The
    engine's own layout always satisfies the trim-size, outside, top,
    bottom and font rules, so only two rules can fail.  The inside-margin
    rule holds exactly when the returned layout is in no higher margin
    bracket than pass one, for whose page count the margins were chosen
    and whose bracket [marginsBracket] describes; it always holds when
    pass one has at most 150 pages, and it fails when the second pass
    spills into the next bracket.  The offer-page rule is that of the
    output mode.  [violations] lists the failures of these two rules and
    nothing else, and [passes] is their conjunction. *)
Theorem generatePDF_result_compliance
        (w : Metric) (save : list PDFPage -> list Init.Byte.byte)
        (document : DocumentRepresentation) (mode : OutputMode)
        (r : PDFEngineResult.t) :
  outcome (generatePDF w save document mode) = Ok r ->
  let cr := PDFEngineResult.complianceResult r in
  let P1 :=
    LayoutResult.pageCount
      (renderLayout w 0.375 0.375 0.375 0.375 document mode) in
  let P := PDFEngineResult.pageCount r in
  let offerOk :=
    match mode with
    | personal => true
    | publish_ready => hasOfferPage document
    end in
  trim_size_correct cr = true
  /\ outside_margin_correct cr = true
  /\ top_margin_correct cr = true
  /\ bottom_margin_correct cr = true
  /\ fonts_embedded cr = true
  /\ offer_page_present cr = offerOk
  /\ page_count cr = P
  /\ describeMarginBracket P1 = Ok (PDFEngineResult.marginsBracket r)
  /\ (inside_margin_correct cr = true <-> (insideFor P <= insideFor P1)%Q)
  /\ ((P1 <= 150)%Z -> inside_margin_correct cr = true)
  /\ violations cr
     = (if inside_margin_correct cr then []
        else [InsideMarginTooSmall (insideFor P1) (insideFor P) P])
         ++ (if offerOk then [] else [OfferPageNotFinal])
  /\ passes cr = (inside_margin_correct cr && offerOk)%bool.
Proof.
  intro Hr. cbv zeta. fold (passOne w document mode).
  pose proof (generatePDF_bracket w save document mode r Hr) as Hbracket.
  set (P1 := LayoutResult.pageCount (passOne w document mode)) in *.
  assert (H : exists ran bracket,
             outcome (finish save ran (passTwo w P1 document mode) bracket
                             document mode) = Ok r
             /\ ((P1 <= 150)%Z ->
                 PDFEngineResult.pageCount r = P1)).
  { pose proof (generatePDF_cases w save document mode) as Hcases.
    cbv zeta in Hcases. fold P1 in Hcases.
    destruct Hcases
      as [[_ E]|[[Hle [bracket E]]|[[Hlo Hhi] [bracket E]]]];
      rewrite E in Hr.
    - discriminate Hr.
    - rewrite (passOne_is_passTwo w document mode P1 Hle) in Hr.
      exists [passTwo w P1 document mode], bracket.
      split; [exact Hr|]. intros _.
      destruct (finish_compliance w save _ P1 bracket document mode r Hr)
        as (Hp & _).
      rewrite Hp, <- (passOne_is_passTwo w document mode P1 Hle).
      reflexivity.
    - exists [passOne w document mode; passTwo w P1 document mode], bracket.
      split; [exact Hr|]. intro. lia. }
  destruct H as (ran & bracket & Hfin & Hsame).
  destruct (finish_compliance w save ran P1 bracket document mode r Hfin)
    as (_ & _ & _ & Hcr).
  rewrite Hcr.
  cbn [trim_size_correct outside_margin_correct top_margin_correct
       bottom_margin_correct fonts_embedded offer_page_present page_count
       inside_margin_correct violations passes].
  repeat (split; [reflexivity|]).
  split; [exact Hbracket|].
  split; [apply inside_check_iff|].
  split; [|split; reflexivity].
  intro Hle. rewrite (Hsame Hle). apply inside_check_iff. apply Qle_refl.
Qed.

Lemma generatePDF_result_compliance_witness :
  inside_margin_correct (PDFEngineResult.complianceResult spillRelaxed)
  <> true
  /\ describeMarginBracket 151
     = Ok (PDFEngineResult.marginsBracket spillRelaxed).
Proof.
  assert (Hrun : outcome (generatePDF fixedPitch countingSave
                                      spillDocument personal)
                 = Ok spillRelaxed) by (vm_compute; reflexivity).
  destruct (generatePDF_result_compliance
              fixedPitch countingSave spillDocument personal
              spillRelaxed Hrun)
    as (_ & _ & _ & _ & _ & _ & _ & Hb & Hin & _).
  split.
  - intro H. pose proof (proj1 Hin H) as Hq. vm_compute in Hq.
    exact (Hq eq_refl).
  - rewrite <- Hb. apply (f_equal describeMarginBracket).
    vm_compute. reflexivity.
Defined.

(** ** Subprocess entry point *)

Lemma finish_outcome_modes (save : list PDFPage -> list Init.Byte.byte)
      (ran : list LayoutResult.t) (layout : LayoutResult.t)
      (bracket : string) (document : DocumentRepresentation)
      (m1 m2 : OutputMode) :
  match outcome (finish save ran layout bracket document m1) with
  | Ok r1 =>
      exists r2,
        outcome (finish save ran layout bracket document m2) = Ok r2
        /\ PDFEngineResult.pdfBytes r2 = PDFEngineResult.pdfBytes r1
  | Throw e =>
      outcome (finish save ran layout bracket document m2) = Throw e
      /\ e = RangeError ("Page count "
                           ++ String_of_Z (LayoutResult.pageCount layout)
                           ++ " exceeds KDP maximum of 828 pages.")
      /\ (828 < LayoutResult.pageCount layout)%Z
  end.
Proof.
  unfold finish, checkCompliance.
  cbn [complianceInputOf Compliance.pageCount].
  destruct (Z.le_gt_cases (LayoutResult.pageCount layout) 828) as [Hle|Hgt].
  - rewrite (calculateMargins_ok _ Hle). cbn [outcome].
    eexists. split; reflexivity.
  - rewrite (calculateMargins_throws _ Hgt). cbn [outcome].
    split; [reflexivity|]. split; [reflexivity|lia].
Qed.

(** The outcome of [generatePDF] in one mode tells that in the other: the
    same error, or the same bytes. *)
Lemma generatePDF_outcome_modes (w : Metric)
      (save : list PDFPage -> list Init.Byte.byte)
      (document : DocumentRepresentation) (m1 m2 : OutputMode) :
  match outcome (generatePDF w save document m1) with
  | Ok r1 =>
      exists r2,
        outcome (generatePDF w save document m2) = Ok r2
        /\ PDFEngineResult.pdfBytes r2 = PDFEngineResult.pdfBytes r1
  | Throw e =>
      outcome (generatePDF w save document m2) = Throw e
      /\ exists N : Z,
          (828 < N)%Z
          /\ e = RangeError ("Page count " ++ String_of_Z N
                               ++ " exceeds KDP maximum of 828 pages.")
  end.
Proof.
  destruct (generatePDF_shape w save document)
    as [(ran & e & E)|(ran & layout & bracket & E)]; rewrite !E.
  - cbn [outcome]. split; [reflexivity|].
    destruct (generatePDF_cases w save document personal)
      as [[Hgt E']|[[_ [b E']]|[_ [b E']]]].
    + rewrite E in E'. injection E' as _ ->. eexists. split; [exact Hgt|].
      reflexivity.
    + rewrite E in E'. unfold finish in E'.
      destruct (checkCompliance _) eqn:Ec in E'.
      * discriminate E'.
      * pose proof (finish_outcome_modes save
                      [passOne w document personal]
                      (passOne w document personal) b document
                      personal personal) as H.
        unfold finish in H. rewrite Ec in H. cbn [outcome] in H.
        destruct H as (_ & He & Hgt). injection E' as _ <-.
        eexists. split; [exact Hgt|exact He].
    + rewrite E in E'. unfold finish in E'.
      destruct (checkCompliance _) eqn:Ec in E'.
      * discriminate E'.
      * match type of Ec with
        | checkCompliance (complianceInputOf ?l _ _) = _ =>
            pose proof (finish_outcome_modes save [] l b document
                                             personal personal) as H
        end.
        unfold finish in H. rewrite Ec in H. cbn [outcome] in H.
        destruct H as (_ & He & Hgt). injection E' as _ <-.
        eexists. split; [exact Hgt|exact He].
  - pose proof (finish_outcome_modes save ran layout bracket document m1 m2)
      as H.
    destruct (outcome (finish save ran layout bracket document m1))
      as [r1|e].
    + exact H.
    + destruct H as (H & He & Hgt). split; [exact H|].
      eexists. split; [exact Hgt|exact He].
Qed.

(** X21.  What the subprocess does with a parsed input.  The requested
    output mode never changes what is written or the exit status, and a
    missing mode is as good as any: the compliance result is not looked
    at.  When [generatePDF] returns, in whichever mode, the PDF bytes go
    to stdout, nothing goes to stderr and the status is 0, also for a PDF
    that fails the compliance check.  When it throws, nothing goes to
    stdout, the status is 1 and stderr holds the one message the engine
    can throw, the page-count [RangeError]. *)
Theorem runSubprocess_ignores_mode_and_compliance
        (w : Metric) (save : list PDFPage -> list Init.Byte.byte)
        (document : DocumentRepresentation) (requested : option OutputMode) :
  let res :=
    Subprocess.runSubprocess
      w save (Subprocess.mkSubprocessInput document requested) in
  res = Subprocess.runSubprocess
          w save (Subprocess.mkSubprocessInput document None)
  /\ (forall (mode : OutputMode) (r : PDFEngineResult.t),
         outcome (generatePDF w save document mode) = Ok r ->
         res = {| Subprocess.stdout := PDFEngineResult.pdfBytes r;
                  Subprocess.stderr := EmptyString;
                  Subprocess.exitCode := 0 |})
  /\ (forall (mode : OutputMode) (e : Exception),
         outcome (generatePDF w save document mode) = Throw e ->
         exists N : Z,
           (828 < N)%Z
           /\ res = {| Subprocess.stdout := [];
                       Subprocess.stderr :=
                         ("PDF engine error: RangeError: Page count "
                            ++ String_of_Z N
                            ++ " exceeds KDP maximum of 828 pages."
                            ++ String newline EmptyString)%string;
                       Subprocess.exitCode := 1 |}).
Proof.
  cbv zeta.
  assert (Hany : forall m1 m2 : option OutputMode,
             Subprocess.runSubprocess
               w save (Subprocess.mkSubprocessInput document m1)
             = Subprocess.runSubprocess
                 w save (Subprocess.mkSubprocessInput document m2)).
  { intros m1 m2. unfold Subprocess.runSubprocess.
    cbn [Subprocess.document Subprocess.output_mode].
    set (mode1 := match m1 with Some m => m | None => publish_ready end).
    set (mode2 := match m2 with Some m => m | None => publish_ready end).
    pose proof (generatePDF_outcome_modes w save document mode1 mode2) as H.
    destruct (outcome (generatePDF w save document mode1)) as [r1|e].
    - destruct H as (r2 & -> & ->). reflexivity.
    - destruct H as (-> & _). reflexivity. }
  split; [apply Hany|].
  split.
  - intros mode r Hr. rewrite (Hany requested (Some mode)).
    unfold Subprocess.runSubprocess.
    cbn [Subprocess.document Subprocess.output_mode].
    rewrite Hr. reflexivity.
  - intros mode e He.
    pose proof (generatePDF_outcome_modes w save document mode mode) as H.
    rewrite He in H. destruct H as (_ & N & HN & ->).
    exists N. split; [exact HN|].
    rewrite (Hany requested (Some mode)).
    unfold Subprocess.runSubprocess.
    cbn [Subprocess.document Subprocess.output_mode].
    rewrite He. cbn [Subprocess.String_of_Exception].
    f_equal. cbn [append]. rewrite !append_assoc. reflexivity.
Qed.

Lemma runSubprocess_ignores_mode_and_compliance_witness :
  Subprocess.runSubprocess
    fixedPitch countingSave
    (Subprocess.mkSubprocessInput spillDocument (Some publish_ready))
  = {| Subprocess.stdout := PDFEngineResult.pdfBytes spillRelaxed;
       Subprocess.stderr := EmptyString;
       Subprocess.exitCode := 0 |}.
Proof.
  apply (proj1 (proj2 (runSubprocess_ignores_mode_and_compliance
                         fixedPitch countingSave spillDocument
                         (Some publish_ready)))
               personal spillRelaxed).
  vm_compute. reflexivity.
Defined.


(** ** The offer page test *)

Lemma prefix_spec (needle s : string) :
  String.prefix needle s = true <-> exists post, s = (needle ++ post)%string.
Proof.
  revert s. induction needle as [|a needle IH]; intro s.
  - split; [intros _; exists s; reflexivity|].
    intros _. destruct s; reflexivity.
  - destruct s as [|b s]; cbn [String.prefix append].
    + split; [discriminate|intros [post H]; discriminate H].
    + destruct (Ascii.ascii_dec a b) as [->|Hab].
      * rewrite IH. split; intros [post H]; exists post.
        -- rewrite H. reflexivity.
        -- injection H as H. exact H.
      * split; [discriminate|].
        intros [post H]. injection H as H1 _. congruence.
Qed.

Lemma includes_unfold (s needle : string) :
  includes s needle
  = if String.prefix needle s then true
    else match s with
         | EmptyString => false
         | String _ rest => includes rest needle
         end.
Proof. destruct s; reflexivity. Qed.

(** [includes] is the substring test. *)
Lemma includes_spec (needle s : string) :
  includes s needle = true
  <-> exists pre post, s = (pre ++ needle ++ post)%string.
Proof.
  split.
  - induction s as [|c s IH]; rewrite includes_unfold;
      destruct (String.prefix needle _) eqn:Ep.
    + intros _. apply prefix_spec in Ep. destruct Ep as [post H].
      exists EmptyString, post. exact H.
    + discriminate.
    + intros _. apply prefix_spec in Ep. destruct Ep as [post H].
      exists EmptyString, post. exact H.
    + intro H. destruct (IH H) as (pre & post & E).
      exists (String c pre), post. rewrite E. reflexivity.
  - intros (pre & post & E). revert s E.
    induction pre as [|c pre IH]; intros s E; rewrite includes_unfold.
    + assert (Ep : String.prefix needle s = true)
        by (apply prefix_spec; exists post; exact E).
      rewrite Ep. reflexivity.
    + destruct (String.prefix needle s); [reflexivity|].
      rewrite E. cbn [append]. apply (IH _ eq_refl).
Qed.

Lemma nth_error_last (A : Type) (l : list A) :
  nth_error l (List.length l - 1)
  = match rev l with [] => None | x :: _ => Some x end.
Proof.
  destruct (rev l) as [|x r] eqn:E.
  - apply (f_equal (@rev A)) in E. rewrite rev_involutive in E.
    rewrite E. reflexivity.
  - apply (f_equal (@rev A)) in E. rewrite rev_involutive in E.
    rewrite E. cbn [rev]. rewrite length_app. cbn [List.length].
    rewrite Nat.add_sub, nth_error_app2 by lia.
    rewrite Nat.sub_diag. reflexivity.
Qed.

(** X22.  [hasOfferPage] looks at the last content page only: it holds
    exactly when some block of that page has the site name or the word
    [offer] somewhere in its content, as a substring and in this very
    spelling.  Front matter and every earlier content page play no part,
    and a document without content pages has no offer page. *)
Theorem hasOfferPage_is_substring_test_on_last_page
        (document : DocumentRepresentation) :
  hasOfferPage document = true
  <-> exists (earlier : list DocumentPage) (lastPage : DocumentPage)
             (b : DocumentBlock) (marker pre post : string),
        content_pages document = earlier ++ [lastPage]
        /\ In b (blocks lastPage)
        /\ (marker = "sacredwhisperspublishing.com"%string
            \/ marker = "offer"%string)
        /\ content b = (pre ++ marker ++ post)%string.
Proof.
  unfold hasOfferPage. rewrite nth_error_last.
  destruct (rev (content_pages document)) as [|lastPage r] eqn:E;
    apply (f_equal (@rev DocumentPage)) in E;
    rewrite rev_involutive in E; cbn [rev] in E.
  - split; [discriminate|].
    intros (earlier & p & _ & _ & _ & _ & H & _).
    rewrite E in H. destruct earlier; discriminate H.
  - rewrite existsb_exists. split.
    + intros (b & Hb & Hm). apply orb_true_iff in Hm.
      destruct Hm as [Hm|Hm]; apply includes_spec in Hm;
        destruct Hm as (pre & post & Hc).
      * exists (rev r), lastPage, b, "sacredwhisperspublishing.com"%string,
               pre, post.
        auto.
      * exists (rev r), lastPage, b, "offer"%string, pre, post. auto.
    + intros (earlier & p & b & marker & pre & post & Hp & Hb & Hm & Hc).
      rewrite E in Hp. apply app_inj_tail in Hp. destruct Hp as [_ <-].
      exists b. split; [exact Hb|]. apply orb_true_iff.
      destruct Hm as [->| ->]; [left|right]; apply includes_spec;
        exists pre, post; exact Hc.
Qed.

Lemma hasOfferPage_is_substring_test_on_last_page_witness :
  hasOfferPage profferedDocument = true.
Proof.
  apply (proj2 (hasOfferPage_is_substring_test_on_last_page
                  profferedDocument)).
  exists (content_pages noOfferDocument).
  eexists. exists (plainBlock body_text "He proffered his hand.").
  exists "offer"%string, "He pr"%string, "ed his hand."%string.
  split; [reflexivity|]. split; [left; reflexivity|].
  split; [right; reflexivity|reflexivity].
Defined.


(** ** Page numbering of a whole book *)

Section Numbering.

Variable w : Metric.
Variables insideIn outsideIn topIn bottomIn : Q.

Local Abbreviation finalize' :=
  (finalizeCurrentPage w insideIn outsideIn bottomIn).
Local Abbreviation advance' :=
  (advancePage w insideIn outsideIn topIn bottomIn).
Local Abbreviation overflow' :=
  (overflowCheck w insideIn outsideIn topIn bottomIn).
Local Abbreviation render' := (renderInto w insideIn outsideIn).
Local Abbreviation process' :=
  (processBlock w insideIn outsideIn topIn bottomIn).
Local Abbreviation blocks' :=
  (layoutBlocks w insideIn outsideIn topIn bottomIn).
Local Abbreviation docPage' :=
  (layoutDocPage w insideIn outsideIn topIn bottomIn).
Local Abbreviation docPages' :=
  (layoutDocPages w insideIn outsideIn topIn bottomIn).
Local Abbreviation top' := (topCursor insideIn topIn).

Lemma numerals_S (style : PageNumberStyle) (k : nat) :
  numerals style (S k)
  = numerals style k ++ [numeral style (Z.of_nat (S k))].
Proof.
  unfold numerals. rewrite seq_S, map_app. reflexivity.
Qed.

Lemma length_numerals (style : PageNumberStyle) (k : nat) :
  List.length (numerals style k) = k.
Proof.
  unfold numerals. rewrite length_map, length_seq. reflexivity.
Qed.

Lemma finalize_number (s : LayoutState.t) :
  LayoutState.currentStyle s <> suppressed ->
  pageNumberDrawn (LayoutState.currentPage (finalize' s))
  = numeral (LayoutState.currentStyle s)
            (counterOf (LayoutState.currentStyle s) s).
Proof.
  intro H. unfold finalizeCurrentPage. cbn [LayoutState.currentPage].
  destruct (LayoutState.currentStyle s); [| |congruence];
    unfold pageNumberDrawn, drawPageNumber, draw; cbn [operations];
    rewrite rev_app_distr; reflexivity.
Qed.

(** What [advancePage style true] leaves behind. *)
Lemma advancePage_increment (style : PageNumberStyle) (s : LayoutState.t) :
  let s' := advance' style true s in
  LayoutState.finishedPages s' =
    LayoutState.finishedPages s ++ [LayoutState.currentPage (finalize' s)] /\
  LayoutState.currentStyle s' = style /\
  LayoutState.romanCounter s' =
    (LayoutState.romanCounter s
     + match style with roman => 1 | _ => 0 end)%Z /\
  LayoutState.arabicCounter s' =
    (LayoutState.arabicCounter s
     + match style with arabic => 1 | _ => 0 end)%Z.
Proof.
  destruct style; cbn; repeat split; lia.
Qed.

(** Closing a page of the run: the closed page carries the next number of
    the style. *)
Lemma numbered_close (style : PageNumberStyle)
      (before : list (option string)) (k : nat) (s s' : LayoutState.t) :
  style <> suppressed ->
  numbered style before k s ->
  LayoutState.finishedPages s' =
    LayoutState.finishedPages s ++ [LayoutState.currentPage (finalize' s)] ->
  LayoutState.currentStyle s' = style ->
  LayoutState.romanCounter s' =
    (LayoutState.romanCounter s
     + match style with roman => 1 | _ => 0 end)%Z ->
  LayoutState.arabicCounter s' =
    (LayoutState.arabicCounter s
     + match style with arabic => 1 | _ => 0 end)%Z ->
  numbered style before (S k) s'.
Proof.
  intros Hstyle (Hst & Hm & Hc & Ha) Ef Es Er Ea.
  unfold numbered. rewrite Ef, Es, map_app, Hm, numerals_S.
  cbn [map]. rewrite finalize_number by (rewrite Hst; exact Hstyle).
  rewrite Hst, Hc, app_assoc.
  split; [reflexivity|]. split; [reflexivity|].
  destruct style; [| |congruence]; cbn [counterOf] in *.
  - split; [lia|]. intros _. rewrite Ea, (Ha eq_refl). reflexivity.
  - split; [lia|discriminate].
Qed.

Lemma numbered_set_cursor (style : PageNumberStyle)
      (before : list (option string)) (k : nat) (c : Cursor)
      (s : LayoutState.t) :
  numbered style before k s ->
  numbered style before k (LayoutState.set_cursor c s).
Proof. intro H. exact H. Qed.

Lemma numbered_render (style : PageNumberStyle)
      (before : list (option string)) (k : nat) (b : DocumentBlock)
      (s : LayoutState.t) :
  numbered style before k s -> numbered style before k (render' b s).
Proof.
  intros (Hst & Hm & Hc & Ha).
  destruct (renderInto_frame w insideIn outsideIn b s)
    as (Ef & _ & _ & Es & Er & Eb).
  unfold numbered, counterOf in *. rewrite Ef, Es, Er, Eb. auto.
Qed.

Lemma numbered_process (style : PageNumberStyle)
      (before : list (option string)) (k : nat) (b : DocumentBlock)
      (s : LayoutState.t) :
  style <> suppressed ->
  isPageBreak (block_type b) = false ->
  numbered style before k s ->
  exists k', (k <= k')%nat /\ numbered style before k' (process' style b s).
Proof.
  intros Hstyle Hb Hs. unfold processBlock. rewrite Hb.
  destruct (overflowCheck_cases w insideIn outsideIn topIn bottomIn style s)
    as [[_ ->]|[_ ->]].
  - exists (S k). split; [lia|]. apply numbered_render.
    destruct (overflow_advance w insideIn outsideIn topIn bottomIn style s)
      as (Ef & _ & _ & _ & _ & Es & Er & Ea).
    exact (numbered_close style before k s _ Hstyle Hs Ef Es Er Ea).
  - exists k. split; [lia|]. apply numbered_render. exact Hs.
Qed.

Lemma numbered_blocks (style : PageNumberStyle)
      (before : list (option string)) (bs : list DocumentBlock) :
  style <> suppressed ->
  noPageBreak bs ->
  forall (k : nat) (s : LayoutState.t),
    numbered style before k s ->
    exists k', (k <= k')%nat /\ numbered style before k' (blocks' style bs s).
Proof.
  intros Hstyle H. induction H as [|b bs Hb _ IH]; intros k s Hs.
  - exists k. split; [lia|exact Hs].
  - cbn [layoutBlocks].
    destruct (numbered_process style before k b s Hstyle Hb Hs)
      as (k1 & Hk1 & H1).
    destruct (IH k1 _ H1) as (k2 & Hk2 & H2).
    exists k2. split; [lia|exact H2].
Qed.

(** A further logical page of the style the run has. *)
Lemma numbered_docPage (style : PageNumberStyle)
      (before : list (option string)) (k di : nat) (p : DocumentPage)
      (s : LayoutState.t) :
  style <> suppressed ->
  pageStyleOf p = style -> noPageBreak (blocks p) ->
  numbered style before k s ->
  exists k', (S k <= k')%nat
             /\ numbered style before k' (docPage' (S di) p s).
Proof.
  intros Hstyle Hp Hb Hs. unfold layoutDocPage. rewrite Hp.
  cbn [beginDocPage].
  destruct (advancePage_increment style s) as (Ef & Es & Er & Ea).
  pose proof (numbered_close style before k s _ Hstyle Hs Ef Es Er Ea) as H1.
  destruct (numbered_blocks style before (blocks p) Hstyle Hb (S k) _
              (numbered_set_cursor style before (S k) top' _ H1))
    as (k' & Hk' & H').
  exists k'. split; [exact Hk'|exact H'].
Qed.

Lemma numbered_docPages (style : PageNumberStyle)
      (before : list (option string)) (ps : list DocumentPage) :
  style <> suppressed ->
  plainRun style ps ->
  forall (k di : nat) (s : LayoutState.t),
    numbered style before k s ->
    exists k', (k + List.length ps <= k')%nat
               /\ numbered style before k' (docPages' (S di) ps s).
Proof.
  intros Hstyle H. induction H as [|p ps [Hp Hb] _ IH]; intros k di s Hs.
  - exists k. split; [cbn; lia|exact Hs].
  - cbn [layoutDocPages].
    destruct (numbered_docPage style before k di p s Hstyle Hp Hb Hs)
      as (k1 & Hk1 & H1).
    destruct (IH k1 (S di) _ H1) as (k2 & Hk2 & H2).
    exists k2. split; [cbn [List.length]; lia|exact H2].
Qed.

(** The first logical page of the document. *)
Lemma numbered_first (style : PageNumberStyle) (p : DocumentPage) :
  style <> suppressed ->
  pageStyleOf p = style -> noPageBreak (blocks p) ->
  exists k',
    numbered style [] k' (docPage' 0 p (initialState insideIn topIn)).
Proof.
  intros Hstyle Hp Hb. unfold layoutDocPage. rewrite Hp.
  assert (H0 : numbered style [] 0
                 (beginDocPage w insideIn outsideIn topIn bottomIn 0 style
                               (initialState insideIn topIn))).
  { destruct style; [| |congruence]; cbn; repeat split; discriminate. }
  destruct (numbered_blocks style [] (blocks p) Hstyle Hb 0 _
              (numbered_set_cursor style [] 0 top' _ H0))
    as (k' & _ & H').
  exists k'. exact H'.
Qed.

(** The first Arabic page after a Roman run: the last Roman page is
    closed with its number and the Arabic numbers start at 1. *)
Lemma numbered_switch (k di : nat) (p : DocumentPage) (s : LayoutState.t) :
  pageStyleOf p = arabic -> noPageBreak (blocks p) ->
  numbered roman [] k s ->
  exists k', numbered arabic (numerals roman (S k)) k' (docPage' (S di) p s).
Proof.
  intros Hp Hb (Hst & Hm & Hc & Ha). unfold layoutDocPage. rewrite Hp.
  cbn [beginDocPage].
  destruct (advancePage_increment arabic s) as (Ef & Es & Er & Ea).
  assert (H1 : numbered arabic (numerals roman (S k)) 0
                 (advance' arabic true s)).
  { unfold numbered. rewrite Ef, Es, map_app, Hm.
    cbn [map app numerals seq]. rewrite app_nil_r.
    rewrite finalize_number by (rewrite Hst; discriminate).
    rewrite Hst. cbn [counterOf] in *. rewrite Hc, Ea, (Ha eq_refl).
    fold (numerals roman k). rewrite <- numerals_S.
    repeat split. discriminate. }
  destruct (numbered_blocks arabic _ (blocks p) ltac:(discriminate) Hb 0 _
              (numbered_set_cursor arabic _ 0 top' _ H1))
    as (k' & _ & H').
  exists k'. exact H'.
Qed.

(** The numbers on the pages once the last page is closed. *)
Lemma numbered_final (style : PageNumberStyle)
      (before : list (option string)) (k : nat) (s : LayoutState.t) :
  style <> suppressed ->
  numbered style before k s ->
  map pageNumberDrawn
      (LayoutState.finishedPages (finalize' s)
         ++ [LayoutState.currentPage (finalize' s)])
  = before ++ numerals style (S k).
Proof.
  intros Hstyle (Hst & Hm & Hc & _).
  destruct (finalize_frame w insideIn outsideIn bottomIn s) as (Ef & _).
  rewrite Ef, map_app, Hm, numerals_S. cbn [map].
  rewrite finalize_number by (rewrite Hst; exact Hstyle).
  rewrite Hst, Hc, app_assoc. reflexivity.
Qed.

(** A Roman run followed by further logical pages. *)
Lemma numbered_front (fs : list DocumentPage) :
  plainRun roman fs ->
  forall (k di : nat) (s : LayoutState.t),
    numbered roman [] k s ->
    exists (k' : nat) (s' : LayoutState.t),
      (k + List.length fs <= k')%nat
      /\ numbered roman [] k' s'
      /\ forall cs : list DocumentPage,
          docPages' (S di) (fs ++ cs) s
          = docPages' (S (di + List.length fs)) cs s'.
Proof.
  intro H. induction H as [|p ps [Hp Hb] _ IH]; intros k di s Hs.
  - exists k, s. split; [cbn; lia|]. split; [exact Hs|].
    intro cs. cbn [app List.length]. rewrite Nat.add_0_r. reflexivity.
  - destruct (numbered_docPage roman [] k di p s
                ltac:(discriminate) Hp Hb Hs) as (k1 & Hk1 & H1).
    destruct (IH k1 (S di) _ H1) as (k2 & s2 & Hk2 & H2 & E).
    exists k2, s2. split; [cbn [List.length]; lia|].
    split; [exact H2|].
    intro cs. cbn [app layoutDocPages List.length]. rewrite E.
    f_equal. f_equal. lia.
Qed.

End Numbering.

(** X23.  The page numbers of a whole book.  For a document whose front
    matter is numbered in Roman and whose content in Arabic style (the
    default), without explicit page breaks, the physical pages of the
    layout carry, in order, i, ii, ... for the front matter and then 1, 2,
    ... for the content: every page has its number, the Arabic numbers
    start again at 1 on the first content page, no number is skipped or
    repeated, also across the pages a long logical page overflows to, and
    the two runs together are all the pages of the PDF. *)
Theorem roman_front_matter_then_arabic_content
        (w : Metric) (i o t b : Q) (document : DocumentRepresentation)
        (mode : OutputMode) :
  logicalPages document <> [] ->
  plainRun roman (front_matter document) ->
  plainRun arabic (content_pages document) ->
  let layout := renderLayout w i o t b document mode in
  exists F A : nat,
    map pageNumberDrawn (LayoutResult.doc layout)
    = numerals roman F ++ numerals arabic A
    /\ LayoutResult.pageCount layout = Z.of_nat (F + A)
    /\ (List.length (front_matter document) <= F)%nat
    /\ (List.length (content_pages document) <= A)%nat
    /\ (front_matter document = [] -> F = 0%nat)
    /\ (content_pages document = [] -> A = 0%nat).
Proof.
  intros Hne Hfront Hcontent. cbv zeta.
  assert (Hcount :
            forall F A : nat,
              map pageNumberDrawn
                  (LayoutResult.doc (renderLayout w i o t b document mode))
              = numerals roman F ++ numerals arabic A ->
              LayoutResult.pageCount (renderLayout w i o t b document mode)
              = Z.of_nat (F + A)).
  { intros F A H. apply (f_equal (@List.length (option string))) in H.
    rewrite length_map, length_app, !length_numerals in H.
    destruct (finalState_pages w i o t b document) as [(Hc & _) _].
    unfold renderLayout in *.
    cbn [LayoutResult.doc LayoutResult.pageCount] in *.
    rewrite length_app in H. cbn [List.length] in H.
    rewrite Hc. lia. }
  unfold logicalPages in Hne.
  assert (Hrun : exists F A : nat,
             map pageNumberDrawn
                 (LayoutResult.doc (renderLayout w i o t b document mode))
             = numerals roman F ++ numerals arabic A
             /\ (List.length (front_matter document) <= F)%nat
             /\ (List.length (content_pages document) <= A)%nat
             /\ (front_matter document = [] -> F = 0%nat)
             /\ (content_pages document = [] -> A = 0%nat)).
  { unfold renderLayout, finalState. cbn [LayoutResult.doc].
    destruct (front_matter document) as [|f fs].
    - destruct (content_pages document) as [|c cs];
        [exfalso; apply Hne; reflexivity|].
      cbn [app layoutDocPages].
      apply Forall_cons_iff in Hcontent. destruct Hcontent as [[Hp Hb] Hcs].
      destruct (numbered_first w i o t b arabic c ltac:(discriminate) Hp Hb)
        as (k1 & H1).
      destruct (numbered_docPages w i o t b arabic [] cs ltac:(discriminate)
                                  Hcs k1 0 _ H1) as (k2 & Hk2 & H2).
      exists 0%nat, (S k2).
      rewrite (numbered_final w i o b arabic [] k2 _ ltac:(discriminate) H2).
      split; [reflexivity|]. cbn [List.length].
      split; [lia|]. split; [lia|]. split; [reflexivity|discriminate].
    - cbn [app layoutDocPages].
      apply Forall_cons_iff in Hfront. destruct Hfront as [[Hp Hb] Hfs].
      destruct (numbered_first w i o t b roman f ltac:(discriminate) Hp Hb)
        as (k1 & H1).
      destruct (numbered_front w i o t b fs Hfs k1 0 _ H1)
        as (k2 & s2 & Hk2 & H2 & E).
      rewrite E.
      destruct (content_pages document) as [|c cs].
      + cbn [layoutDocPages].
        exists (S k2), 0%nat.
        rewrite (numbered_final w i o b roman [] k2 _
                                ltac:(discriminate) H2).
        cbn [app numerals seq map List.length]. fold (numerals roman (S k2)).
        rewrite app_nil_r.
        split; [reflexivity|]. split; [lia|]. split; [lia|].
        split; [discriminate|reflexivity].
      + cbn [layoutDocPages].
        apply Forall_cons_iff in Hcontent.
        destruct Hcontent as [[Hpc Hbc] Hcs].
        destruct (numbered_switch w i o t b k2 (0 + List.length fs) c s2
                                  Hpc Hbc H2) as (k3 & H3).
        destruct (numbered_docPages w i o t b arabic _ cs
                    ltac:(discriminate) Hcs k3
                    (S (0 + List.length fs)) _ H3) as (k4 & Hk4 & H4).
        exists (S k2), (S k4).
        rewrite (numbered_final w i o b arabic _ k4 _
                                ltac:(discriminate) H4).
        split; [reflexivity|]. cbn [List.length].
        split; [lia|]. split; [lia|]. split; discriminate. }
  destruct Hrun as (F & A & Hm & HF & HA & HF0 & HA0).
  exists F, A. split; [exact Hm|]. split; [exact (Hcount F A Hm)|].
  auto.
Qed.

Lemma roman_front_matter_then_arabic_content_witness :
  exists F A : nat,
    map pageNumberDrawn
        (LayoutResult.doc
           (renderLayout fixedPitch 0.375 0.375 0.375 0.375
                         prefaceDocument personal))
    = numerals roman F ++ numerals arabic A
    /\ LayoutResult.pageCount
         (renderLayout fixedPitch 0.375 0.375 0.375 0.375
                       prefaceDocument personal)
       = Z.of_nat (F + A)
    /\ (List.length (front_matter prefaceDocument) <= F)%nat
    /\ (List.length (content_pages prefaceDocument) <= A)%nat
    /\ (front_matter prefaceDocument = [] -> F = 0%nat)
    /\ (content_pages prefaceDocument = [] -> A = 0%nat).
Proof.
  apply (roman_front_matter_then_arabic_content
           fixedPitch 0.375 0.375 0.375 0.375 prefaceDocument personal).
  - discriminate.
  - repeat constructor.
  - constructor; [|constructor]. split; [reflexivity|].
    apply Forall_forall. intros blk Hblk. apply repeat_spec in Hblk.
    rewrite Hblk. reflexivity.
Defined.


(** ** Logical pages and physical pages *)

Section PageStarts.

Variable w : Metric.
Variables insideIn outsideIn topIn bottomIn : Q.

Local Abbreviation finalize' :=
  (finalizeCurrentPage w insideIn outsideIn bottomIn).
Local Abbreviation advance' :=
  (advancePage w insideIn outsideIn topIn bottomIn).
Local Abbreviation overflow' :=
  (overflowCheck w insideIn outsideIn topIn bottomIn).
Local Abbreviation render' := (renderInto w insideIn outsideIn).
Local Abbreviation process' :=
  (processBlock w insideIn outsideIn topIn bottomIn).
Local Abbreviation blocks' :=
  (layoutBlocks w insideIn outsideIn topIn bottomIn).
Local Abbreviation docPage' :=
  (layoutDocPage w insideIn outsideIn topIn bottomIn).
Local Abbreviation docPages' :=
  (layoutDocPages w insideIn outsideIn topIn bottomIn).
Local Abbreviation top' := (topCursor insideIn topIn).

(** The pages already in the document stay as they are: the loops only
    add pages after them. *)
Lemma processBlock_keeps_pages (style : PageNumberStyle) (b : DocumentBlock)
      (s : LayoutState.t) :
  exists later,
    LayoutState.finishedPages (process' style b s)
    = LayoutState.finishedPages s ++ later.
Proof.
  unfold processBlock. destruct (isPageBreak (block_type b)).
  - destruct (advancePage_no_increment w insideIn outsideIn topIn bottomIn
                                       style s) as (Ef & _).
    eexists. exact Ef.
  - destruct (renderInto_frame w insideIn outsideIn b (overflow' style s))
      as (Ef & _).
    rewrite Ef.
    destruct (overflowCheck_cases w insideIn outsideIn topIn bottomIn style s)
      as [[_ ->]|[_ ->]].
    + destruct (overflow_advance w insideIn outsideIn topIn bottomIn style s)
        as (Ef' & _).
      eexists. exact Ef'.
    + exists []. symmetry. apply app_nil_r.
Qed.

Lemma layoutBlocks_keeps_pages (style : PageNumberStyle)
      (bs : list DocumentBlock) :
  forall s : LayoutState.t,
    exists later,
      LayoutState.finishedPages (blocks' style bs s)
      = LayoutState.finishedPages s ++ later.
Proof.
  induction bs as [|b bs IH]; intro s.
  - exists []. symmetry. apply app_nil_r.
  - cbn [layoutBlocks].
    destruct (processBlock_keeps_pages style b s) as [l1 E1].
    destruct (IH (process' style b s)) as [l2 E2].
    exists (l1 ++ l2). rewrite E2, E1, app_assoc. reflexivity.
Qed.

(** A logical page after the first closes the physical page it finds
    open before anything of it is laid out. *)
Lemma layoutDocPage_closes (di : nat) (p : DocumentPage)
      (s : LayoutState.t) :
  exists later,
    LayoutState.finishedPages (docPage' (S di) p s)
    = (LayoutState.finishedPages s
         ++ [LayoutState.currentPage (finalize' s)]) ++ later.
Proof.
  unfold layoutDocPage. cbn [beginDocPage].
  destruct (advancePage_increment w insideIn outsideIn topIn bottomIn
                                  (pageStyleOf p) s) as (Ef & _).
  destruct (layoutBlocks_keeps_pages
              (pageStyleOf p) (blocks p)
              (LayoutState.set_cursor top' (advance' (pageStyleOf p) true s)))
    as [later E].
  exists later. rewrite E.
  cbn [LayoutState.set_cursor LayoutState.finishedPages].
  fold (LayoutState.finishedPages (advance' (pageStyleOf p) true s)).
  rewrite Ef. reflexivity.
Qed.

Lemma layoutDocPages_keeps_pages (ps : list DocumentPage) :
  forall (di : nat) (s : LayoutState.t),
    exists later,
      LayoutState.finishedPages (docPages' (S di) ps s)
      = LayoutState.finishedPages s ++ later.
Proof.
  induction ps as [|p ps IH]; intros di s.
  - exists []. symmetry. apply app_nil_r.
  - cbn [layoutDocPages].
    destruct (layoutDocPage_closes di p s) as [l1 E1].
    destruct (IH (S di) (docPage' (S di) p s)) as [l2 E2].
    eexists. rewrite E2, E1, <- !app_assoc. reflexivity.
Qed.

Lemma layoutDocPages_app (ps1 ps2 : list DocumentPage) :
  forall (di : nat) (s : LayoutState.t),
    docPages' di (ps1 ++ ps2) s
    = docPages' (di + List.length ps1) ps2 (docPages' di ps1 s).
Proof.
  induction ps1 as [|p ps1 IH]; intros di s.
  - cbn. rewrite Nat.add_0_r. reflexivity.
  - cbn [app layoutDocPages List.length]. rewrite IH.
    f_equal. lia.
Qed.

(** The pages laid out for the logical pages [ps1] are the first pages of
    the layout of [ps1 ++ p :: ps2], which has further pages. *)
Lemma layout_of_prefix (ps1 ps2 : list DocumentPage) (p : DocumentPage) :
  ps1 <> [] ->
  let s1 := finalize' (docPages' 0 ps1 (initialState insideIn topIn)) in
  let s2 :=
    finalize' (docPages' 0 (ps1 ++ p :: ps2) (initialState insideIn topIn)) in
  exists more,
    more <> []
    /\ LayoutState.finishedPages s2 ++ [LayoutState.currentPage s2]
       = (LayoutState.finishedPages s1 ++ [LayoutState.currentPage s1])
           ++ more.
Proof.
  intro Hne. cbv zeta.
  rewrite layoutDocPages_app. cbn [Nat.add layoutDocPages].
  set (s := docPages' 0 ps1 (initialState insideIn topIn)).
  destruct ps1 as [|q qs]; [congruence|]. cbn [List.length].
  destruct (layoutDocPage_closes (List.length qs) p s) as [l1 E1].
  destruct (layoutDocPages_keeps_pages
              ps2 (S (List.length qs)) (docPage' (S (List.length qs)) p s))
    as [l2 E2].
  destruct (finalize_frame w insideIn outsideIn bottomIn s) as (Ef & _).
  destruct (finalize_frame
              w insideIn outsideIn bottomIn
              (docPages' (S (S (List.length qs))) ps2
                         (docPage' (S (List.length qs)) p s))) as (Ef2 & _).
  rewrite Ef, Ef2, E2, E1.
  eexists. split; [|rewrite <- !app_assoc; reflexivity].
  destruct l1; destruct l2; discriminate.
Qed.

End PageStarts.

(** C10.  The layout never reads [starts_new_page]: laying out a logical
    page gives the same state whatever its flag; the start of every logical
    page after the first closes the current physical page and opens a blank
    one; and two documents that differ only in their [starts_new_page]
    flags have the same layout under every margin set and the same run of
    [generatePDF].  In the layout of a whole document, whatever the flags,
    the physical pages laid out for the logical pages before a logical
    page [p] are closed, exactly as they would be had the document ended
    there, when [p] starts, and everything of [p] and of the pages after
    it goes to further physical pages, of which there is at least one; so
    a layout has at least as many physical pages as the document has
    logical pages. *)
Theorem starts_new_page_is_never_read
        (w : Metric) (save : list PDFPage -> list Init.Byte.byte) :
  (forall (i o t b : Q) (di : nat) (bs : list DocumentBlock)
          (flag1 flag2 : option bool) (style : option PageNumberStyle)
          (s : LayoutState.t),
      layoutDocPage w i o t b di (mkPage bs flag1 style) s
      = layoutDocPage w i o t b di (mkPage bs flag2 style) s)
  /\ (forall (i o t b : Q) (di : nat) (docPage : DocumentPage)
             (s : LayoutState.t),
         let s1 := beginDocPage w i o t b (S di) (pageStyleOf docPage) s in
         LayoutState.finishedPages s1 =
           LayoutState.finishedPages s
             ++ [LayoutState.currentPage (finalizeCurrentPage w i o b s)]
         /\ LayoutState.currentPage s1 = newPage
         /\ LayoutState.pdfPageCount s1 = (LayoutState.pdfPageCount s + 1)%Z)
  /\ (forall (i o t b : Q) (d1 d2 : DocumentRepresentation)
             (mode : OutputMode),
         clearFlags d1 = clearFlags d2 ->
         renderLayout w i o t b d1 mode = renderLayout w i o t b d2 mode)
  /\ (forall (d1 d2 : DocumentRepresentation) (mode : OutputMode),
         clearFlags d1 = clearFlags d2 ->
         generatePDF w save d1 mode = generatePDF w save d2 mode)
  /\ (forall (i o t b : Q) (document before : DocumentRepresentation)
             (ps1 ps2 : list DocumentPage) (p : DocumentPage)
             (mode : OutputMode),
         logicalPages document = ps1 ++ p :: ps2 ->
         ps1 <> [] ->
         logicalPages before = ps1 ->
         exists more : list PDFPage,
           more <> []
           /\ LayoutResult.doc (renderLayout w i o t b document mode)
              = LayoutResult.doc (renderLayout w i o t b before mode) ++ more
           /\ LayoutResult.pageCount (renderLayout w i o t b document mode)
              = (LayoutResult.pageCount (renderLayout w i o t b before mode)
                 + Z.of_nat (List.length more))%Z)
  /\ (forall (i o t b : Q) (document : DocumentRepresentation)
             (mode : OutputMode),
         (Z.of_nat (List.length (logicalPages document))
          <= LayoutResult.pageCount (renderLayout w i o t b document mode))%Z).
Proof.
  split; [reflexivity|].
  split.
  { intros i o t b di docPage s. cbv zeta.
    unfold beginDocPage, advancePage.
    destruct (pageStyleOf docPage); cbn; repeat split. }
  split.
  { intros i o t b d1 d2 mode H.
    rewrite <- (renderLayout_clearFlags w i o t b d1),
            <- (renderLayout_clearFlags w i o t b d2), H.
    reflexivity. }
  split.
  { intros d1 d2 mode H.
    rewrite <- (generatePDF_clearFlags w save d1),
            <- (generatePDF_clearFlags w save d2), H.
    reflexivity. }
  split.
  - intros i o t b document before ps1 ps2 p mode Hdoc Hne Hbefore.
    destruct (finalState_pages w i o t b document) as [(Hc & _) _].
    destruct (finalState_pages w i o t b before) as [(Hc' & _) _].
    unfold renderLayout.
    cbn [LayoutResult.doc LayoutResult.pageCount].
    rewrite Hc, Hc'. unfold finalState.
    fold (logicalPages document). fold (logicalPages before).
    rewrite Hdoc, Hbefore.
    destruct (layout_of_prefix w i o t b ps1 ps2 p Hne) as (more & Hm & E).
    cbv zeta in E. exists more. split; [exact Hm|]. split; [exact E|].
    apply (f_equal (@List.length PDFPage)) in E.
    rewrite !length_app in E. cbn [List.length] in E. lia.
  - intros i o t b document mode.
    destruct (finalState_pages w i o t b document) as [_ [Hlow _]].
    unfold renderLayout. cbn [LayoutResult.pageCount]. lia.
Qed.

Lemma starts_new_page_is_never_read_witness :
  generatePDF fixedPitch countingSave noOfferDocument publish_ready
  = generatePDF fixedPitch countingSave noOfferDocumentFlipped publish_ready
  /\ exists more : list PDFPage,
      more <> []
      /\ LayoutResult.doc
           (renderLayout fixedPitch 0.375 0.375 0.375 0.375
                         noOfferDocumentFlipped personal)
         = LayoutResult.doc
             (renderLayout fixedPitch 0.375 0.375 0.375 0.375
                           titleOnlyDocument personal) ++ more
      /\ LayoutResult.pageCount
           (renderLayout fixedPitch 0.375 0.375 0.375 0.375
                         noOfferDocumentFlipped personal)
         = (LayoutResult.pageCount
              (renderLayout fixedPitch 0.375 0.375 0.375 0.375
                            titleOnlyDocument personal)
            + Z.of_nat (List.length more))%Z.
Proof.
  split.
  - apply (proj1 (proj2 (proj2 (proj2 (starts_new_page_is_never_read
                                         fixedPitch countingSave))))).
    reflexivity.
  - apply (proj1 (proj2 (proj2 (proj2 (proj2
                    (starts_new_page_is_never_read
                       fixedPitch countingSave)))))
                 0.375%Q 0.375%Q 0.375%Q 0.375%Q
                 noOfferDocumentFlipped titleOnlyDocument
                 (front_matter noOfferDocumentFlipped) []
                 {| blocks := [plainBlock heading "Day 1";
                               plainBlock body_text
                                          "Grace meets us where we are."];
                    starts_new_page := Some false;
                    page_number_style := Some arabic |}
                 personal).
    + reflexivity.
    + discriminate.
    + reflexivity.
Defined.
